(** * LoRa Server: the RPC error mapping, the join-accept downlink handler
      and the MAC-command answer handlers

    A shallow embedding of

    - [internal/api/errors.go]: [errToCode] and [errToRPCError];
    - the join-accept downlink pipeline (package [join]): [Handle] and its
      six tasks;
    - the MAC-command [Handle] of package [maccommand], whose test
      [TestHandleDownlink] is in the tree while the function is not;
    - package [uplink]: [Setup], the work done for one collected uplink and
      for one downlink TX acknowledgement.

    Go integers are [Z] with the conversions written out, byte slices are
    [list byte], pointers that the code always sets are values, and the
    package-level collaborators (the band plan, the gateway backend, the
    store, the entropy source) are explicit arguments. *)

From Stdlib Require Import ZArith List Ascii String Bool Lia.
From Stdlib.Strings Require Import Byte.
Import ListNotations.

Open Scope string_scope.
Open Scope list_scope.
Open Scope Z_scope.

(* ===================================================================== *)
(** * Part I. The embedding                                               *)
(* ===================================================================== *)

(** ** Go integer conversions *)

Module conv.

(** [uint32(x)]: the low 32 bits. *)
Definition uint32 (x : Z) : Z := x mod 2 ^ 32.

(** [int32(x)]: the low 32 bits, read in two's complement. *)
Definition int32 (x : Z) : Z := (x + 2 ^ 31) mod 2 ^ 32 - 2 ^ 31.

(** The value of a byte. *)
Definition byte_val (b : byte) : Z := Z.of_N (Byte.to_N b).

End conv.

(** ** Error values ([error], github.com/pkg/errors) *)

Module errors.

(** The package-level error variables that [errToCode] uses as keys. Each
    is one value created once, and is compared by identity. *)
Inductive ErrVar : Type :=
| data_ErrFPortMustNotBeZero
| data_ErrFPortMustBeZero
| data_ErrNoLastRXInfoSet
| data_ErrInvalidDataRate
| data_ErrMaxPayloadSizeExceeded
| proprietary_ErrInvalidDataRate
| multicast_ErrInvalidFCnt
| storage_ErrAlreadyExists
| storage_ErrDoesNotExistOrFCntOrMICInvalid
| storage_ErrDoesNotExist
| storage_ErrInvalidName
| storage_ErrInvalidAggregationInterval
| storage_ErrInvalidFPort.

(** A non-nil [error]: one of the variables above, any other error without
    a [Cause] method ([errors.New], [fmt.Errorf], a library's error), or a
    wrapper made by [errors.Wrap]. *)
Inductive error : Type :=
| Var (v : ErrVar)
| New (msg : string)
| Wrap (err : error) (msg : string).

Definition ErrVar_eq_dec (a b : ErrVar) : {a = b} + {a <> b}.
Proof. decide equality. Defined.

Definition error_eq_dec (a b : error) : {a = b} + {a <> b}.
Proof. decide equality; [apply ErrVar_eq_dec | apply string_dec | apply string_dec]. Defined.

(** Modelled from the spec: [errors.Cause] of github.com/pkg/errors (a
    library, outside the tree), "the error's cause": the innermost error
    under the wrappers. *)
Fixpoint Cause (err : error) : error :=
  match err with
  | Wrap e _ => Cause e
  | _ => err
  end.

(** [err.Error()]. The texts of the package-level variables are declared in
    packages outside the tree, hence [varText]. *)
Fixpoint Error (varText : ErrVar -> string) (err : error) : string :=
  match err with
  | Var v => varText v
  | New msg => msg
  | Wrap e msg => (msg ++ ": " ++ Error varText e)%string
  end.

End errors.

(** ** gRPC status codes (google.golang.org/grpc/codes) *)

Module codes.

Inductive Code : Type :=
| OK | Canceled | Unknown | InvalidArgument | DeadlineExceeded | NotFound
| AlreadyExists | PermissionDenied | ResourceExhausted | FailedPrecondition
| Aborted | OutOfRange | Unimplemented | Internal | Unavailable | DataLoss
| Unauthenticated.

End codes.

(** ** Package [api]: errors.go *)

Module api.

Import errors.

(** [map[error]codes.Code] as its literal: the entries in source order. *)
Definition errToCode : list (error * codes.Code) :=
  [ (Var data_ErrFPortMustNotBeZero, codes.InvalidArgument);
    (Var data_ErrFPortMustBeZero, codes.InvalidArgument);
    (Var data_ErrNoLastRXInfoSet, codes.FailedPrecondition);
    (Var data_ErrInvalidDataRate, codes.Internal);
    (Var data_ErrMaxPayloadSizeExceeded, codes.InvalidArgument);

    (Var proprietary_ErrInvalidDataRate, codes.Internal);

    (Var multicast_ErrInvalidFCnt, codes.InvalidArgument);

    (Var storage_ErrAlreadyExists, codes.AlreadyExists);
    (Var storage_ErrDoesNotExistOrFCntOrMICInvalid, codes.NotFound);
    (Var storage_ErrDoesNotExist, codes.NotFound);
    (Var storage_ErrInvalidName, codes.InvalidArgument);
    (Var storage_ErrInvalidAggregationInterval, codes.InvalidArgument);
    (Var storage_ErrInvalidFPort, codes.InvalidArgument) ].

(** [code, ok := m[key]]. *)
Fixpoint lookup (key : error) (m : list (error * codes.Code)) : option codes.Code :=
  match m with
  | [] => None
  | (k, c) :: m' => if error_eq_dec key k then Some c else lookup key m'
  end.

(** What [grpc.Errorf(code, format)] is given: the status code and the
    format string (here without arguments). *)
Record rpcError : Type := Errorf { Code : codes.Code; Format : string }.

(** [errToRPCError], for a non-nil [err] (with a nil one, [cause.Error()]
    dereferences nil). *)
Definition errToRPCError (varText : ErrVar -> string) (err : error) : rpcError :=
  let cause := Cause err in
  let code :=
    match lookup cause errToCode with
    | Some code => code
    | None => codes.Unknown
    end in
  Errorf code (Error varText cause).

(** Whether a format string holds no '%': nothing in it is a verb. *)
Definition plain (format : string) : bool :=
  forallb (fun c => negb (Ascii.eqb c "%"%char)) (list_ascii_of_string format).

(** The message of the error that [grpc.Errorf(code, format)] returns,
    [fmt.Sprintf(format)], for a given [fmt.Sprintf] of a format without
    operands. *)
Definition Message (Sprintf : string -> string) (r : rpcError) : string :=
  Sprintf (Format r).

(** The taxonomy of the error-code mapping as the specification words it,
    to compare [errToRPCError] with. *)
Definition taxonomy (v : ErrVar) : codes.Code :=
  match v with
  (* bad FPort: must not be zero, must be zero, invalid *)
  | data_ErrFPortMustNotBeZero | data_ErrFPortMustBeZero | storage_ErrInvalidFPort
  (* bad FCnt, oversize payload, bad name, bad aggregation interval *)
  | multicast_ErrInvalidFCnt | data_ErrMaxPayloadSizeExceeded
  | storage_ErrInvalidName | storage_ErrInvalidAggregationInterval =>
      codes.InvalidArgument
  (* no recent RX info *)
  | data_ErrNoLastRXInfoSet => codes.FailedPrecondition
  (* unknown data rate *)
  | data_ErrInvalidDataRate | proprietary_ErrInvalidDataRate => codes.Internal
  | storage_ErrAlreadyExists => codes.AlreadyExists
  (* missing session, FCnt or MIC mismatch *)
  | storage_ErrDoesNotExist | storage_ErrDoesNotExistOrFCntOrMICInvalid =>
      codes.NotFound
  end.

End api.

(** ** Types of the collaborating packages *)

(** [context.Context], as far as the handlers read it: the value stored
    under [logging.ContextIDKey]. *)
Module context.

(** [uuid.UUID] is [[16]byte]. *)
Definition UUID : Type := list byte.

(** The zero value of [uuid.UUID]. *)
Definition zeroUUID : UUID := repeat x00 16.

(** An [interface{}] as [ctx.Value] returns it: nil, a [uuid.UUID], or a
    value of another type. *)
Inductive any : Type :=
| isNil
| isUUID (id : UUID)
| isOther.

Record Context : Type := { ContextIDKey : any }.

End context.

(** Package [api/gw]: the protobuf messages exchanged with the gateways. *)
Module gw.

(** [lorawan.EUI64] and gateway ids: 8 bytes. *)
Definition EUI64 : Type := list byte.

Record UplinkTXInfo : Type := { UplinkFrequency : Z }.

(** The float64 [LoraSnr] is carried by its bits: the handler copies it. *)
Record UplinkRXInfo : Type := {
  RxGatewayId : list byte;
  Rssi : Z;
  LoraSnr : Z;
  RxBoard : Z;
  RxAntenna : Z;
  RxContext : list byte
}.

Inductive DownlinkTiming : Type :=
| DownlinkTiming_IMMEDIATELY
| DownlinkTiming_DELAY
| DownlinkTiming_GPS_EPOCH.

(** [duration.Duration] of protobuf. *)
Record Duration : Type := { Seconds : Z; Nanos : Z }.

Record DelayTimingInfo : Type := { Delay : Duration }.

(** The [TimingInfo] oneof; the join handler only builds the delay case. *)
Inductive isDownlinkTXInfo_TimingInfo : Type :=
| DownlinkTXInfo_ImmediatelyTimingInfo
| DownlinkTXInfo_DelayTimingInfo (info : DelayTimingInfo)
| DownlinkTXInfo_GpsEpochTimingInfo (timeSinceGpsEpoch : Duration).

(** The modulation oneof: LoRa (spreading factor, bandwidth) or FSK
    (bitrate). *)
Inductive isDownlinkTXInfo_ModulationInfo : Type :=
| DownlinkTXInfo_LoraModulationInfo (spreadingFactor bandwidth : Z)
| DownlinkTXInfo_FskModulationInfo (bitrate : Z).

Record DownlinkTXInfo : Type := {
  GatewayId : list byte;
  Frequency : Z;                      (* uint32 *)
  Power : Z;                          (* int32 *)
  ModulationInfo : option isDownlinkTXInfo_ModulationInfo;
  Board : Z;
  Antenna : Z;
  Timing : DownlinkTiming;
  TimingInfo : option isDownlinkTXInfo_TimingInfo;
  Context : list byte
}.

Record DownlinkFrame : Type := {
  PhyPayload : list byte;
  TxInfo : option DownlinkTXInfo;     (* *DownlinkTXInfo *)
  Token : Z;                          (* uint32 *)
  DownlinkId : list byte
}.

(** Field assignments. *)
Definition set_ModulationInfo (m : isDownlinkTXInfo_ModulationInfo) (t : DownlinkTXInfo) :=
  {| GatewayId := GatewayId t; Frequency := Frequency t; Power := Power t;
     ModulationInfo := Some m; Board := Board t; Antenna := Antenna t;
     Timing := Timing t; TimingInfo := TimingInfo t; Context := Context t |}.

Definition set_Frequency (f : Z) (t : DownlinkTXInfo) :=
  {| GatewayId := GatewayId t; Frequency := f; Power := Power t;
     ModulationInfo := ModulationInfo t; Board := Board t; Antenna := Antenna t;
     Timing := Timing t; TimingInfo := TimingInfo t; Context := Context t |}.

Definition set_Power (p : Z) (t : DownlinkTXInfo) :=
  {| GatewayId := GatewayId t; Frequency := Frequency t; Power := p;
     ModulationInfo := ModulationInfo t; Board := Board t; Antenna := Antenna t;
     Timing := Timing t; TimingInfo := TimingInfo t; Context := Context t |}.

Definition set_Timing (m : DownlinkTiming) (i : isDownlinkTXInfo_TimingInfo) (t : DownlinkTXInfo) :=
  {| GatewayId := GatewayId t; Frequency := Frequency t; Power := Power t;
     ModulationInfo := ModulationInfo t; Board := Board t; Antenna := Antenna t;
     Timing := m; TimingInfo := Some i; Context := Context t |}.

Definition set_Token_DownlinkId (tok : Z) (id : list byte) (f : DownlinkFrame) :=
  {| PhyPayload := PhyPayload f; TxInfo := TxInfo f; Token := tok; DownlinkId := id |}.

Definition set_PhyPayload (b : list byte) (f : DownlinkFrame) :=
  {| PhyPayload := b; TxInfo := TxInfo f; Token := Token f; DownlinkId := DownlinkId f |}.

End gw.

(** Package [lorawan] (github.com/brocaar/lorawan): MAC commands, as far
    as the tree names them. *)
Module lorawan.

(** The command identifiers that the specification and the test name; any
    other identifier is [otherCID]. *)
Inductive CID : Type :=
| ResetInd
| LinkCheckReq
| LinkADRReq
| LinkADRAns
| RXParamSetupAns
| DevStatusAns
| NewChannelAns
| PingSlotChannelReq
| PingSlotChannelAns
| DeviceTimeReq
| RekeyInd
| DeviceModeInd
| RejoinParamSetupAns
| otherCID (b : Z).

Record Redundancy : Type := { NbRep : Z }.

(** [ChMask] is [[16]bool]. *)
Record LinkADRReqPayload : Type := {
  DataRate : Z;
  TXPower : Z;
  ChMask : list bool;
  Redundancy_ : Redundancy
}.

Record LinkADRAnsPayload : Type := {
  ChannelMaskACK : bool;
  DataRateACK : bool;
  PowerACK : bool
}.

Record PingSlotChannelReqPayload : Type := { Frequency : Z; DR : Z }.

Record PingSlotChannelAnsPayload : Type := {
  DataRateOK : bool;
  ChannelFrequencyOK : bool
}.

(** The [MACCommandPayload] interface: the payloads above, or anything
    else (nil included). *)
Inductive MACCommandPayload : Type :=
| isLinkADRReqPayload (pl : LinkADRReqPayload)
| isLinkADRAnsPayload (pl : LinkADRAnsPayload)
| isPingSlotChannelReqPayload (pl : PingSlotChannelReqPayload)
| isPingSlotChannelAnsPayload (pl : PingSlotChannelAnsPayload)
| otherPayload.

Record MACCommand : Type := { CID_ : CID; Payload : MACCommandPayload }.

End lorawan.

(** Package [storage]: the device session and what is kept per gateway. *)
Module storage.

(** The fields of [DeviceSession] that the tree names. *)
Record DeviceSession : Type := {
  DevEUI : gw.EUI64;
  EnabledUplinkChannels : list Z;
  TXPowerIndex : Z;
  MinSupportedTXPowerIndex : Z;
  MaxSupportedTXPowerIndex : Z;
  NbTrans : Z;
  DR : Z;
  PingSlotFrequency : Z;
  PingSlotDR : Z
}.

Record DeviceGatewayRXInfo : Type := {
  GatewayID : gw.EUI64;
  RSSI : Z;
  LoRaSNR : Z;
  Board : Z;
  Antenna : Z;
  Context : list byte
}.

(** [MACCommandBlock]: the commands of one identifier. *)
Record MACCommandBlock : Type := {
  CID : lorawan.CID;
  MACCommands : list lorawan.MACCommand
}.

End storage.

(** Package [models]: one uplink after deduplication. *)
Module models.

Record RXPacket (PHYPayload : Type) : Type := {
  PHYPayload_ : PHYPayload;
  TXInfo : gw.UplinkTXInfo;
  RXInfoSet : list gw.UplinkRXInfo;
  DR : Z
}.

Arguments PHYPayload_ {PHYPayload} _.
Arguments TXInfo {PHYPayload} _.
Arguments RXInfoSet {PHYPayload} _.
Arguments DR {PHYPayload} _.

End models.

(** Package [band]: the band plan, an interface whose tables are outside
    the tree. *)
Module band.

Record Defaults : Type := {
  RX2Frequency : Z;
  RX2DataRate : Z;
  JoinAcceptDelay1 : Z;               (* time.Duration *)
  JoinAcceptDelay2 : Z
}.

Record Band : Type := {
  GetRX1DataRateIndex : Z -> Z -> errors.error + Z;
  GetRX1FrequencyForUplinkFrequency : Z -> errors.error + Z;
  GetDownlinkTXPower : Z -> Z;
  GetDefaults : Defaults
}.

End band.

(** Package [encoding/binary]. *)
Module binary.

(** [binary.BigEndian.Uint16(b)]: [uint16(b[1]) | uint16(b[0])<<8]. *)
Definition BigEndian_Uint16 (b : list byte) : Z :=
  Z.lor (conv.byte_val (nth 1 b x00)) (Z.shiftl (conv.byte_val (nth 0 b x00)) 8).

End binary.

(** Package [helpers]. *)
Module helpers.

(** Modelled from the spec: [helpers.SetDownlinkTXInfoDataRate] is outside
    the tree. It looks the data rate up in the band plan and sets the
    modulation of [txInfo] ("data rate as tagged union (LoRa: spreading
    factor + bandwidth; FSK: bitrate)"), failing on a data rate the band
    does not know; no other field of [txInfo] changes. *)
Definition SetDownlinkTXInfoDataRate
    (GetDataRate : Z -> errors.error + gw.isDownlinkTXInfo_ModulationInfo)
    (txInfo : gw.DownlinkTXInfo) (dr : Z) : errors.error + gw.DownlinkTXInfo :=
  match GetDataRate dr with
  | inl err => inl err
  | inr m => inr (gw.set_ModulationInfo m txInfo)
  end.

End helpers.

(** ** Package [join]: the join-accept downlink *)

Module join.

Import errors.

(** What a Go call ends in: a value ([nil] error), a non-nil error, or a
    run-time panic (an index out of range). *)
Inductive result (A : Type) : Type :=
| Ok (a : A)
| Err (e : error)
| Panic.

Arguments Ok {A} a.
Arguments Err {A} e.
Arguments Panic {A}.

(** The network settings read by [Setup]. *)
Record NetworkSettings : Type := { RXWindow : Z; DownlinkTXPower : Z }.

(** The package variables. *)
Record Globals : Type := { rxWindow : Z; downlinkTXPower : Z }.

(** [Setup]. *)
Definition Setup (nsConfig : NetworkSettings) : Globals :=
  {| rxWindow := RXWindow nsConfig; downlinkTXPower := DownlinkTXPower nsConfig |}.

(** What the handler acts on outside its own context: the entropy source
    [rand.Reader] (the bytes it will deliver, and the error it returns once
    they are used up), the frames handed to the gateway backend, the frame
    logs and the saved downlink frames. *)
Record World : Type := {
  randReader : list byte;
  randErr : error;
  txPackets : list gw.DownlinkFrame;
  gatewayFrameLog : list gw.DownlinkFrame;
  deviceFrameLog : list (gw.EUI64 * gw.DownlinkFrame);
  savedDownlinkFrames : list (gw.EUI64 * list gw.DownlinkFrame)
}.

(** [io.EOF] and [io.ErrUnexpectedEOF], told from other errors by their
    text. *)
Definition io_EOF : error := New "EOF".
Definition io_ErrUnexpectedEOF : error := New "unexpected EOF".

(** The error of [io.ReadFull] on a reader that fails with [err] after [n]
    bytes, fewer than asked for: [err] itself, except that [io.EOF] after
    some bytes is reported as [io.ErrUnexpectedEOF]. *)
Definition io_ReadFull_err (n : nat) (err : error) : error :=
  if (n =? 0)%nat then err
  else if error_eq_dec err io_EOF then io_ErrUnexpectedEOF
  else err.

(** [rand.Read(b)] for [len(b) = n], which is [io.ReadFull(rand.Reader, b)]:
    all [n] bytes, or the error of the reader. *)
Definition rand_Read (n : nat) (w : World) : (error + list byte) * World :=
  let rest (r : list byte) :=
    {| randReader := r; randErr := randErr w; txPackets := txPackets w;
       gatewayFrameLog := gatewayFrameLog w; deviceFrameLog := deviceFrameLog w;
       savedDownlinkFrames := savedDownlinkFrames w |} in
  if (n <=? List.length (randReader w))%nat
  then (inr (firstn n (randReader w)), rest (skipn n (randReader w)))
  else (inl (io_ReadFull_err (List.length (randReader w)) (randErr w)), rest []).

Section Pipeline.

Variable PHYPayload : Type.

Record joinContext : Type := {
  ctx : context.Context;
  Token : Z;                          (* uint16 *)
  DeviceSession : storage.DeviceSession;
  DeviceGatewayRXInfo : list storage.DeviceGatewayRXInfo;
  RXPacket : models.RXPacket PHYPayload;
  PHYPayload_ : PHYPayload;
  DownlinkFrames : list gw.DownlinkFrame
}.

Definition set_DeviceGatewayRXInfo (l : list storage.DeviceGatewayRXInfo) (c : joinContext) :=
  {| ctx := ctx c; Token := Token c; DeviceSession := DeviceSession c;
     DeviceGatewayRXInfo := l; RXPacket := RXPacket c;
     PHYPayload_ := PHYPayload_ c; DownlinkFrames := DownlinkFrames c |}.

Definition set_DownlinkFrames (l : list gw.DownlinkFrame) (c : joinContext) :=
  {| ctx := ctx c; Token := Token c; DeviceSession := DeviceSession c;
     DeviceGatewayRXInfo := DeviceGatewayRXInfo c; RXPacket := RXPacket c;
     PHYPayload_ := PHYPayload_ c; DownlinkFrames := l |}.

(** The collaborators of the package: [band.Band()], the band's data-rate
    table behind [helpers.SetDownlinkTXInfoDataRate], [helpers.GetGatewayID],
    [ptypes.DurationProto], [PHYPayload.MarshalBinary], and whether the
    gateway backend, the frame log and the store accept a call. *)
Record Env : Type := {
  Band : band.Band;
  GetDataRate : Z -> error + gw.isDownlinkTXInfo_ModulationInfo;
  GetGatewayID : gw.UplinkRXInfo -> gw.EUI64;
  DurationProto : Z -> gw.Duration;
  MarshalBinary : PHYPayload -> error + list byte;
  SendTXPacket_err : World -> gw.DownlinkFrame -> option error;
  LogDownlinkFrameForGateway_err : World -> gw.DownlinkFrame -> option error;
  LogDownlinkFrameForDevEUI_err : World -> gw.EUI64 -> gw.DownlinkFrame -> option error;
  SaveDownlinkFrames_err : World -> gw.EUI64 -> list gw.DownlinkFrame -> option error
}.

Variable env : Env.
Variable g : Globals.

(** *** The monad of a task: the context behind the pointer and the world
    are threaded, an error or a panic stops the run where it happens. *)

Definition M (A : Type) : Type := joinContext * World -> result A * (joinContext * World).

Definition ret {A : Type} (a : A) : M A := fun s => (Ok a, s).

Definition bind {A B : Type} (m : M A) (k : A -> M B) : M B :=
  fun s =>
    match m s with
    | (Ok a, s') => k a s'
    | (Err e, s') => (Err e, s')
    | (Panic, s') => (Panic, s')
    end.

Notation "x <- m ;; k" := (bind m (fun x => k))
  (at level 61, m at next level, right associativity).
Notation "m ;;; k" := (bind m (fun _ => k))
  (at level 61, right associativity).

(** Read the context. *)
Definition get : M joinContext := fun s => (Ok (fst s), s).

(** [return err] with a non-nil [err]. *)
Definition throw {A : Type} (e : error) : M A := fun s => (Err e, s).

(** [v, err := f(...); if err != nil { return errors.Wrap(err, msg) }]. *)
Definition orWrap {A : Type} (r : error + A) (msg : string) : M A :=
  match r with
  | inl err => throw (Wrap err msg)
  | inr v => ret v
  end.

(** [l[i]]: panics when [i] is out of range. *)
Definition index {A : Type} (l : list A) (i : nat) : M A :=
  fun s =>
    match nth_error l i with
    | Some a => (Ok a, s)
    | None => (Panic, s)
    end.

(** Assign [ctx.DeviceGatewayRXInfo] and [ctx.DownlinkFrames]. *)
Definition put_DeviceGatewayRXInfo (l : list storage.DeviceGatewayRXInfo) : M unit :=
  fun s => (Ok tt, (set_DeviceGatewayRXInfo l (fst s), snd s)).

Definition put_DownlinkFrames (l : list gw.DownlinkFrame) : M unit :=
  fun s => (Ok tt, (set_DownlinkFrames l (fst s), snd s)).

(** A call that acts on the world. *)
Definition io {A : Type} (f : World -> (error + A) * World) (msg : string) : M A :=
  fun s =>
    match f (snd s) with
    | (inl err, w') => (Err (Wrap err msg), (fst s, w'))
    | (inr v, w') => (Ok v, (fst s, w'))
    end.

(** [for _, t := range tasks { if err := t(&jctx); err != nil { return err } }]. *)
Fixpoint runTasks (ts : list (M unit)) : M unit :=
  match ts with
  | [] => ret tt
  | t :: ts' => t ;;; runTasks ts'
  end.

(** *** The tasks *)

(** The element appended for [ctx.RXPacket.RXInfoSet[i]]. *)
Definition deviceGatewayRXInfo (rx : gw.UplinkRXInfo) : storage.DeviceGatewayRXInfo :=
  {| storage.GatewayID := GetGatewayID env rx;
     storage.RSSI := gw.Rssi rx;      (* int(int32) *)
     storage.LoRaSNR := gw.LoraSnr rx;
     storage.Board := gw.RxBoard rx;
     storage.Antenna := gw.RxAntenna rx;
     storage.Context := gw.RxContext rx |}.

(** [for i := range set { ctx.DeviceGatewayRXInfo = append(ctx.DeviceGatewayRXInfo, ...) }]. *)
Fixpoint appendDeviceGatewayRXInfo (set : list gw.UplinkRXInfo) : M unit :=
  match set with
  | [] => ret tt
  | rx :: set' =>
      c <- get ;;
      put_DeviceGatewayRXInfo (DeviceGatewayRXInfo c ++ [deviceGatewayRXInfo rx]) ;;;
      appendDeviceGatewayRXInfo set'
  end.

Definition setDeviceGatewayRXInfo : M unit :=
  c <- get ;;
  appendDeviceGatewayRXInfo (models.RXInfoSet (RXPacket c)) ;;;
  c <- get ;;
  (* this should not happen *)
  if (List.length (DeviceGatewayRXInfo c) =? 0)%nat
  then throw (New "DeviceGatewayRXInfo is empty!")
  else ret tt.

(** The zero [gw.DownlinkTXInfo] with the gateway fields of [rxInfo]. *)
Definition txInfoFor (rxInfo : storage.DeviceGatewayRXInfo) (frequency : Z) : gw.DownlinkTXInfo :=
  {| gw.GatewayId := storage.GatewayID rxInfo;
     gw.Frequency := frequency;
     gw.Power := 0;
     gw.ModulationInfo := None;
     gw.Board := storage.Board rxInfo;
     gw.Antenna := storage.Antenna rxInfo;
     gw.Timing := gw.DownlinkTiming_IMMEDIATELY;
     gw.TimingInfo := None;
     gw.Context := storage.Context rxInfo |}.

(** [gw.DownlinkFrame{TxInfo: &txInfo}]. *)
Definition frameOf (txInfo : gw.DownlinkTXInfo) : gw.DownlinkFrame :=
  {| gw.PhyPayload := []; gw.TxInfo := Some txInfo; gw.Token := 0; gw.DownlinkId := [] |}.

(** The [// set tx power] step of both windows. *)
Definition setTXPower (txInfo : gw.DownlinkTXInfo) : gw.DownlinkTXInfo :=
  if negb (downlinkTXPower g =? -1)
  then gw.set_Power (conv.int32 (downlinkTXPower g)) txInfo
  else gw.set_Power
         (conv.int32 (band.GetDownlinkTXPower (Band env) (gw.Frequency txInfo)))
         txInfo.

(** The [// set timestamp] step of both windows. *)
Definition setDelay (delay : Z) (txInfo : gw.DownlinkTXInfo) : gw.DownlinkTXInfo :=
  gw.set_Timing gw.DownlinkTiming_DELAY
    (gw.DownlinkTXInfo_DelayTimingInfo {| gw.Delay := DurationProto env delay |})
    txInfo.

Definition setTXInfoForRX1 : M unit :=
  c <- get ;;
  rxInfo <- index (DeviceGatewayRXInfo c) 0 ;;
  let txInfo := txInfoFor rxInfo 0 in
  (* get RX1 data-rate *)
  rx1DR <- orWrap (band.GetRX1DataRateIndex (Band env) (models.DR (RXPacket c)) 0)
               "get rx1 data-rate index error" ;;
  (* set data-rate *)
  txInfo <- orWrap (helpers.SetDownlinkTXInfoDataRate (GetDataRate env) txInfo rx1DR)
                "set downlink tx-info data-rate error" ;;
  (* set frequency *)
  freq <- orWrap (band.GetRX1FrequencyForUplinkFrequency (Band env)
                 (gw.UplinkFrequency (models.TXInfo (RXPacket c))))
              "get rx1 frequency error" ;;
  let txInfo := gw.set_Frequency (conv.uint32 freq) txInfo in
  (* set tx power *)
  let txInfo := setTXPower txInfo in
  (* set timestamp *)
  let txInfo := setDelay (band.JoinAcceptDelay1 (band.GetDefaults (Band env))) txInfo in
  put_DownlinkFrames (DownlinkFrames c ++ [frameOf txInfo]).

Definition setTXInfoForRX2 : M unit :=
  c <- get ;;
  rxInfo <- index (DeviceGatewayRXInfo c) 0 ;;
  let txInfo :=
    txInfoFor rxInfo (conv.uint32 (band.RX2Frequency (band.GetDefaults (Band env)))) in
  (* set data-rate *)
  txInfo <- orWrap (helpers.SetDownlinkTXInfoDataRate (GetDataRate env) txInfo
                   (band.RX2DataRate (band.GetDefaults (Band env))))
                "set downlink tx-info data-rate error" ;;
  (* set tx power *)
  let txInfo := setTXPower txInfo in
  (* set timestamp *)
  let txInfo := setDelay (band.JoinAcceptDelay2 (band.GetDefaults (Band env))) txInfo in
  put_DownlinkFrames (DownlinkFrames c ++ [frameOf txInfo]).

Definition setTXInfo : M unit :=
  (if (rxWindow g =? 0) || (rxWindow g =? 1) then setTXInfoForRX1 else ret tt) ;;;
  (if (rxWindow g =? 0) || (rxWindow g =? 2) then setTXInfoForRX2 else ret tt).

Definition setToken : M unit :=
  b <- io (rand_Read 2) "read random error" ;;
  c <- get ;;
  let downID :=
    match context.ContextIDKey (ctx c) with
    | context.isUUID id => id
    | _ => context.zeroUUID
    end in
  put_DownlinkFrames
    (map (gw.set_Token_DownlinkId (conv.uint32 (binary.BigEndian_Uint16 b)) downID)
         (DownlinkFrames c)).

Definition setDownlinkFrame : M unit :=
  c <- get ;;
  phyB <- orWrap (MarshalBinary env (PHYPayload_ c)) "marshal phypayload error" ;;
  put_DownlinkFrames (map (gw.set_PhyPayload phyB) (DownlinkFrames c)).

(** [gateway.Backend().SendTXPacket(frame)]. *)
Definition SendTXPacket (frame : gw.DownlinkFrame) (w : World) : (error + unit) * World :=
  match SendTXPacket_err env w frame with
  | Some err => (inl err, w)
  | None =>
      (inr tt,
       {| randReader := randReader w; randErr := randErr w;
          txPackets := txPackets w ++ [frame];
          gatewayFrameLog := gatewayFrameLog w; deviceFrameLog := deviceFrameLog w;
          savedDownlinkFrames := savedDownlinkFrames w |})
  end.

(** [framelog.LogDownlinkFrameForGateway]; its error is logged and dropped. *)
Definition LogDownlinkFrameForGateway (frame : gw.DownlinkFrame) : M unit :=
  fun s =>
    let w := snd s in
    match LogDownlinkFrameForGateway_err env w frame with
    | Some _ => (Ok tt, s)
    | None =>
        (Ok tt,
         (fst s,
          {| randReader := randReader w; randErr := randErr w;
             txPackets := txPackets w;
             gatewayFrameLog := gatewayFrameLog w ++ [frame];
             deviceFrameLog := deviceFrameLog w;
             savedDownlinkFrames := savedDownlinkFrames w |}))
    end.

(** [framelog.LogDownlinkFrameForDevEUI]; its error is logged and dropped. *)
Definition LogDownlinkFrameForDevEUI (devEUI : gw.EUI64) (frame : gw.DownlinkFrame) : M unit :=
  fun s =>
    let w := snd s in
    match LogDownlinkFrameForDevEUI_err env w devEUI frame with
    | Some _ => (Ok tt, s)
    | None =>
        (Ok tt,
         (fst s,
          {| randReader := randReader w; randErr := randErr w;
             txPackets := txPackets w;
             gatewayFrameLog := gatewayFrameLog w;
             deviceFrameLog := deviceFrameLog w ++ [(devEUI, frame)];
             savedDownlinkFrames := savedDownlinkFrames w |}))
    end.

(** [storage.SaveDownlinkFrames]. *)
Definition SaveDownlinkFrames (devEUI : gw.EUI64) (frames : list gw.DownlinkFrame)
    (w : World) : (error + unit) * World :=
  match SaveDownlinkFrames_err env w devEUI frames with
  | Some err => (inl err, w)
  | None =>
      (inr tt,
       {| randReader := randReader w; randErr := randErr w;
          txPackets := txPackets w;
          gatewayFrameLog := gatewayFrameLog w; deviceFrameLog := deviceFrameLog w;
          savedDownlinkFrames := savedDownlinkFrames w ++ [(devEUI, frames)] |})
  end.

Definition sendJoinAcceptResponse : M unit :=
  c <- get ;;
  if (List.length (DownlinkFrames c) =? 0)%nat then ret tt
  else
    frame <- index (DownlinkFrames c) 0 ;;
    io (SendTXPacket frame) "send downlink frame error" ;;;
    (* log frame *)
    LogDownlinkFrameForGateway frame ;;;
    LogDownlinkFrameForDevEUI (storage.DevEUI (DeviceSession c)) frame.

Definition saveRemainingFrames : M unit :=
  c <- get ;;
  if (List.length (DownlinkFrames c) <? 2)%nat then ret tt
  else
    io (SaveDownlinkFrames (storage.DevEUI (DeviceSession c)) (skipn 1 (DownlinkFrames c)))
       "save downlink-frames error".

Definition tasks : list (M unit) :=
  [ setDeviceGatewayRXInfo;
    setTXInfo;
    setToken;
    setDownlinkFrame;
    sendJoinAcceptResponse;
    saveRemainingFrames ].

(** The [joinContext] that [Handle] starts from. *)
Definition newJoinContext (ctx0 : context.Context) (ds : storage.DeviceSession)
    (rxPacket : models.RXPacket PHYPayload) (phy : PHYPayload) : joinContext :=
  {| ctx := ctx0; Token := 0; DeviceSession := ds; DeviceGatewayRXInfo := [];
     RXPacket := rxPacket; PHYPayload_ := phy; DownlinkFrames := [] |}.

(** [Handle] with the context it leaves behind, for the statements about
    the frames it built. *)
Definition handle (ctx0 : context.Context) (ds : storage.DeviceSession)
    (rxPacket : models.RXPacket PHYPayload) (phy : PHYPayload) (w : World)
    : result unit * (joinContext * World) :=
  runTasks tasks (newJoinContext ctx0 ds rxPacket phy, w).

(** [Handle] handles a downlink join-response: the returned error and the
    world after the call. *)
Definition Handle (ctx0 : context.Context) (ds : storage.DeviceSession)
    (rxPacket : models.RXPacket PHYPayload) (phy : PHYPayload) (w : World)
    : result unit * World :=
  let r := handle ctx0 ds rxPacket phy w in
  (fst r, snd (snd r)).

End Pipeline.

Arguments ctx {PHYPayload} _.
Arguments Token {PHYPayload} _.
Arguments DeviceSession {PHYPayload} _.
Arguments DeviceGatewayRXInfo {PHYPayload} _.
Arguments RXPacket {PHYPayload} _.
Arguments PHYPayload_ {PHYPayload} _.
Arguments DownlinkFrames {PHYPayload} _.
Arguments Band {PHYPayload} _.
Arguments GetDataRate {PHYPayload} _.
Arguments GetGatewayID {PHYPayload} _.
Arguments DurationProto {PHYPayload} _.
Arguments MarshalBinary {PHYPayload} _.
Arguments SendTXPacket_err {PHYPayload} _.
Arguments LogDownlinkFrameForGateway_err {PHYPayload} _.
Arguments LogDownlinkFrameForDevEUI_err {PHYPayload} _.
Arguments SaveDownlinkFrames_err {PHYPayload} _.
Arguments ret {PHYPayload A} a.
Arguments bind {PHYPayload A B} m k.
Arguments get {PHYPayload}.
Arguments throw {PHYPayload A} e.
Arguments orWrap {PHYPayload A} r msg.
Arguments index {PHYPayload A} l i.
Arguments io {PHYPayload A} f msg.
Arguments put_DeviceGatewayRXInfo {PHYPayload} l.
Arguments put_DownlinkFrames {PHYPayload} l.
Arguments deviceGatewayRXInfo {PHYPayload} env rx.
Arguments set_DeviceGatewayRXInfo {PHYPayload} l c.
Arguments set_DownlinkFrames {PHYPayload} l c.
Arguments appendDeviceGatewayRXInfo {PHYPayload} env set.
Arguments SendTXPacket {PHYPayload} env frame w.
Arguments SaveDownlinkFrames {PHYPayload} env devEUI frames w.
Arguments LogDownlinkFrameForGateway {PHYPayload} env frame.
Arguments LogDownlinkFrameForDevEUI {PHYPayload} env devEUI frame.
Arguments setTXPower {PHYPayload} env g txInfo.
Arguments setDelay {PHYPayload} env delay txInfo.
Arguments setDeviceGatewayRXInfo {PHYPayload} env.
Arguments setTXInfoForRX1 {PHYPayload} env g.
Arguments setTXInfoForRX2 {PHYPayload} env g.
Arguments setTXInfo {PHYPayload} env g.
Arguments setToken {PHYPayload}.
Arguments setDownlinkFrame {PHYPayload} env.
Arguments sendJoinAcceptResponse {PHYPayload} env.
Arguments saveRemainingFrames {PHYPayload} env.
Arguments tasks {PHYPayload} env g.
Arguments runTasks {PHYPayload} ts.
Arguments newJoinContext {PHYPayload} ctx0 ds rxPacket phy.
Arguments handle {PHYPayload} env g ctx0 ds rxPacket phy w.
Arguments Handle {PHYPayload} env g ctx0 ds rxPacket phy w.

End join.

(** ** Package [maccommand]: the answer side of the MAC-command engine

    The package's [Handle] and its handlers are not in the tree; its test
    [TestHandleDownlink] is. The handlers are modelled from the
    specification (section 4.2), and the test table further down is
    translated from the test file. *)

Module maccommand.

Import errors.

(** What a call of [Handle] leaves: the response blocks, the error (or
    nil), and the device session behind the pointer. *)
Definition Returned : Type :=
  (list storage.MACCommandBlock * option error * storage.DeviceSession)%type.

Definition resp (r : Returned) : list storage.MACCommandBlock := fst (fst r).
Definition err (r : Returned) : option error := snd (fst r).
Definition session (r : Returned) : storage.DeviceSession := snd r.

(** Modelled from the spec: the error of the missing function for an
    answer without a pending request, "expected pending mac-command" (the
    text the test expects). *)
Definition ErrNoPendingCommand : error := New "expected pending mac-command".

(** Modelled from the spec: the error of the missing handlers for a block
    that breaks the invariant of [MACCommandBlock] ("non-empty; all
    elements carry the same CID"): no command, or a payload of another
    command. *)
Definition ErrMalformedBlock : error := New "unexpected mac-command payload".

(** Modelled from the spec: the device-initiated identifiers of the missing
    [Handle], "DeviceTimeReq, LinkCheckReq, DeviceModeInd, ResetInd,
    RekeyInd, RejoinParamSetupAns - these are accepted unsolicited". *)
Definition deviceInitiated (cid : lorawan.CID) : bool :=
  match cid with
  | lorawan.DeviceTimeReq | lorawan.LinkCheckReq | lorawan.DeviceModeInd
  | lorawan.ResetInd | lorawan.RekeyInd | lorawan.RejoinParamSetupAns => true
  | _ => false
  end.

(** Modelled from the spec: the band plan's lookup is outside the tree;
    "the channel set derived from the pending ChMask" is the list of the
    indices whose bit is set, in increasing order (scenario S1: a mask
    [t,t,t] gives the channels [0,1,2]). *)
Fixpoint channelsFrom (i : Z) (mask : list bool) : list Z :=
  match mask with
  | [] => []
  | enabled :: mask' =>
      if enabled then i :: channelsFrom (i + 1) mask' else channelsFrom (i + 1) mask'
  end.

Definition enabledChannels (mask : list bool) : list Z := channelsFrom 0 mask.

(** Modelled from the spec: part of the missing handlers, the payloads of
    a block's commands; [None] when a command carries another payload. *)
Fixpoint linkADRAnsPayloads (cmds : list lorawan.MACCommand)
    : option (list lorawan.LinkADRAnsPayload) :=
  match cmds with
  | [] => Some []
  | cmd :: cmds' =>
      match lorawan.Payload cmd, linkADRAnsPayloads cmds' with
      | lorawan.isLinkADRAnsPayload pl, Some pls => Some (pl :: pls)
      | _, _ => None
      end
  end.

Fixpoint linkADRReqPayloads (cmds : list lorawan.MACCommand)
    : option (list lorawan.LinkADRReqPayload) :=
  match cmds with
  | [] => Some []
  | cmd :: cmds' =>
      match lorawan.Payload cmd, linkADRReqPayloads cmds' with
      | lorawan.isLinkADRReqPayload pl, Some pls => Some (pl :: pls)
      | _, _ => None
      end
  end.

Fixpoint pingSlotChannelAnsPayloads (cmds : list lorawan.MACCommand)
    : option (list lorawan.PingSlotChannelAnsPayload) :=
  match cmds with
  | [] => Some []
  | cmd :: cmds' =>
      match lorawan.Payload cmd, pingSlotChannelAnsPayloads cmds' with
      | lorawan.isPingSlotChannelAnsPayload pl, Some pls => Some (pl :: pls)
      | _, _ => None
      end
  end.

Fixpoint pingSlotChannelReqPayloads (cmds : list lorawan.MACCommand)
    : option (list lorawan.PingSlotChannelReqPayload) :=
  match cmds with
  | [] => Some []
  | cmd :: cmds' =>
      match lorawan.Payload cmd, pingSlotChannelReqPayloads cmds' with
      | lorawan.isPingSlotChannelReqPayload pl, Some pls => Some (pl :: pls)
      | _, _ => None
      end
  end.

(** Modelled from the spec: the session after a LinkADRAns with "Channel,
    DR, Power all OK": "adopt pending ChMask -> EnabledUplinkChannels; set
    DR = pending.DataRate; set TXPowerIndex = pending.TXPower; set NbTrans =
    pending.NbRep (if NbRep>0)". *)
Definition adoptLinkADR (adrReq : lorawan.LinkADRReqPayload) (ds : storage.DeviceSession)
    : storage.DeviceSession :=
  {| storage.DevEUI := storage.DevEUI ds;
     storage.EnabledUplinkChannels := enabledChannels (lorawan.ChMask adrReq);
     storage.TXPowerIndex := lorawan.TXPower adrReq;
     storage.MinSupportedTXPowerIndex := storage.MinSupportedTXPowerIndex ds;
     storage.MaxSupportedTXPowerIndex := storage.MaxSupportedTXPowerIndex ds;
     storage.NbTrans :=
       (if 0 <? lorawan.NbRep (lorawan.Redundancy_ adrReq)
        then lorawan.NbRep (lorawan.Redundancy_ adrReq)
        else storage.NbTrans ds);
     storage.DR := lorawan.DataRate adrReq;
     storage.PingSlotFrequency := storage.PingSlotFrequency ds;
     storage.PingSlotDR := storage.PingSlotDR ds |}.

(** Modelled from the spec: the session after a "Power NACK, current
    TXPowerIndex == 0", "set TXPowerIndex = 1 and MinSupportedTXPowerIndex
    = 1". *)
Definition raiseMinTXPower (ds : storage.DeviceSession) : storage.DeviceSession :=
  {| storage.DevEUI := storage.DevEUI ds;
     storage.EnabledUplinkChannels := storage.EnabledUplinkChannels ds;
     storage.TXPowerIndex := 1;
     storage.MinSupportedTXPowerIndex := 1;
     storage.MaxSupportedTXPowerIndex := storage.MaxSupportedTXPowerIndex ds;
     storage.NbTrans := storage.NbTrans ds;
     storage.DR := storage.DR ds;
     storage.PingSlotFrequency := storage.PingSlotFrequency ds;
     storage.PingSlotDR := storage.PingSlotDR ds |}.

(** Modelled from the spec: the session after a "Power NACK, current
    TXPowerIndex > 0", "set MaxSupportedTXPowerIndex = TXPowerIndex - 1",
    for the index [txPower] that the NACK is measured against. *)
Definition lowerMaxTXPower (txPower : Z) (ds : storage.DeviceSession) : storage.DeviceSession :=
  {| storage.DevEUI := storage.DevEUI ds;
     storage.EnabledUplinkChannels := storage.EnabledUplinkChannels ds;
     storage.TXPowerIndex := storage.TXPowerIndex ds;
     storage.MinSupportedTXPowerIndex := storage.MinSupportedTXPowerIndex ds;
     storage.MaxSupportedTXPowerIndex := txPower - 1;
     storage.NbTrans := storage.NbTrans ds;
     storage.DR := storage.DR ds;
     storage.PingSlotFrequency := storage.PingSlotFrequency ds;
     storage.PingSlotDR := storage.PingSlotDR ds |}.

(** What the session is after a LinkADRAns that acknowledges the power
    but not both the data rate and the channel mask: the session, the
    pending request, ChannelMaskACK and DataRateACK. *)
Definition PartialLinkADR : Type :=
  storage.DeviceSession -> lorawan.LinkADRReqPayload -> bool -> bool
  -> storage.DeviceSession.

(** Modelled from the spec: the LinkADRAns handler, missing from the tree.
    The rows of section 4.2:
    - "Channel, DR, Power all OK": the pending ChMask, DataRate, TXPower and
      (when above 0) NbRep are adopted;
    - "Power NACK, current TXPowerIndex > 0": "set MaxSupportedTXPowerIndex
      = TXPowerIndex - 1", the index being the one of the session;
    - "Power NACK, current TXPowerIndex == 0": "set TXPowerIndex = 1 and
      MinSupportedTXPowerIndex = 1". The test in the tree has this for a
      pending request of TXPower 0 (its third case). For a pending request
      of TXPower 3 its second case, which is scenario S2, has a session
      with TXPowerIndex 0 end with MaxSupportedTXPowerIndex 2 and
      TXPowerIndex and MinSupportedTXPowerIndex still 0: at index 0 the
      test decides, and a request of a TXPower above 0 sets
      MaxSupportedTXPowerIndex one below the requested TXPower. (An index
      below 0 is in neither row and is treated as 0.)
    With a Power NACK nothing of the request is adopted (the second test
    case: DR and channel mask are acknowledged, yet DR, NbTrans and the
    channels stay). The rows "DR NACK" and "Channel NACK" with the power
    acknowledged are left to [partial]: the section names the field that is
    not adopted, and what it says of the acknowledged ones is not what the
    second test case shows. A block of several commands is acknowledged
    when each command is, and the parameters are those of the last pending
    request. *)
Definition handleLinkADRAns (partial : PartialLinkADR) (ds : storage.DeviceSession)
    (block : storage.MACCommandBlock) (pendingBlock : option storage.MACCommandBlock)
    : Returned :=
  match pendingBlock with
  | None => ([], Some ErrNoPendingCommand, ds)
  | Some pending =>
      match linkADRAnsPayloads (storage.MACCommands block),
            linkADRReqPayloads (storage.MACCommands pending) with
      | Some (ans :: anss), Some (req :: reqs) =>
          let channelMaskACK := forallb lorawan.ChannelMaskACK (ans :: anss) in
          let dataRateACK := forallb lorawan.DataRateACK (ans :: anss) in
          let powerACK := forallb lorawan.PowerACK (ans :: anss) in
          let adrReq := last reqs req in
          if channelMaskACK && dataRateACK && powerACK then
            ([], None, adoptLinkADR adrReq ds)
          else if negb powerACK then
            if 0 <? storage.TXPowerIndex ds
            then ([], None, lowerMaxTXPower (storage.TXPowerIndex ds) ds)
            else if lorawan.TXPower adrReq =? 0
            then ([], None, raiseMinTXPower ds)
            else ([], None, lowerMaxTXPower (lorawan.TXPower adrReq) ds)
          else ([], None, partial ds adrReq channelMaskACK dataRateACK)
      | _, _ => ([], Some ErrMalformedBlock, ds)
      end
  end.

(** Modelled from the spec: the session after a PingSlotChannelAns with
    both bits OK, "set PingSlotFrequency, PingSlotDR from pending". *)
Definition adoptPingSlotChannel (req : lorawan.PingSlotChannelReqPayload)
    (ds : storage.DeviceSession) : storage.DeviceSession :=
  {| storage.DevEUI := storage.DevEUI ds;
     storage.EnabledUplinkChannels := storage.EnabledUplinkChannels ds;
     storage.TXPowerIndex := storage.TXPowerIndex ds;
     storage.MinSupportedTXPowerIndex := storage.MinSupportedTXPowerIndex ds;
     storage.MaxSupportedTXPowerIndex := storage.MaxSupportedTXPowerIndex ds;
     storage.NbTrans := storage.NbTrans ds;
     storage.DR := storage.DR ds;
     storage.PingSlotFrequency := lorawan.Frequency req;
     storage.PingSlotDR := lorawan.DR req |}.

(** Modelled from the spec: the PingSlotChannelAns handler, missing from
    the tree. "both OK: set PingSlotFrequency, PingSlotDR from pending";
    "any NACK: leave session unchanged". Blocks of several commands are
    read as in [handleLinkADRAns]. *)
Definition handlePingSlotChannelAns (ds : storage.DeviceSession)
    (block : storage.MACCommandBlock) (pendingBlock : option storage.MACCommandBlock)
    : Returned :=
  match pendingBlock with
  | None => ([], Some ErrNoPendingCommand, ds)
  | Some pending =>
      match pingSlotChannelAnsPayloads (storage.MACCommands block),
            pingSlotChannelReqPayloads (storage.MACCommands pending) with
      | Some (ans :: anss), Some (req :: reqs) =>
          if forallb lorawan.DataRateOK (ans :: anss)
             && forallb lorawan.ChannelFrequencyOK (ans :: anss)
          then ([], None, adoptPingSlotChannel (last reqs req) ds)
          else ([], None, ds)
      | _, _ => ([], Some ErrMalformedBlock, ds)
      end
  end.

(** A handler of the catalogue: the session, the block received and the
    pending block of the request it answers. *)
Definition Handler : Type :=
  storage.DeviceSession -> storage.MACCommandBlock -> option storage.MACCommandBlock
  -> Returned.

(** What the model takes as given: the handlers of the identifiers other
    than LinkADRAns and PingSlotChannelAns (with the profiles, the
    application-server client and the RXPacket they read), and the rows of
    LinkADRAns that [handleLinkADRAns] leaves open. *)
Record Catalogue : Type := {
  handlers : lorawan.CID -> Handler;
  partialLinkADR : PartialLinkADR
}.

(** Modelled from the spec: [Handle], missing from the tree. "If the uplink
    carries an answer and pendingBlock is nil, fail with
    ErrNoPendingCommand (except for CIDs that are device-initiated).
    Otherwise, invoke the CID-specific handler". *)
Definition Handle (cat : Catalogue) (ds : storage.DeviceSession)
    (block : storage.MACCommandBlock) (pending : option storage.MACCommandBlock)
    : Returned :=
  let pendingIsNil := match pending with None => true | Some _ => false end in
  if pendingIsNil && negb (deviceInitiated (storage.CID block))
  then ([], Some ErrNoPendingCommand, ds)
  else
    match storage.CID block with
    | lorawan.LinkADRAns => handleLinkADRAns (partialLinkADR cat) ds block pending
    | lorawan.PingSlotChannelAns => handlePingSlotChannelAns ds block pending
    | cid => handlers cat cid ds block pending
    end.

End maccommand.

(** ** The test of package [maccommand]: [TestHandleDownlink] *)

Module maccommand_test.

Import errors.

(** The zero value of [storage.DeviceSession]. *)
Definition zeroDeviceSession : storage.DeviceSession :=
  {| storage.DevEUI := repeat x00 8;
     storage.EnabledUplinkChannels := [];
     storage.TXPowerIndex := 0;
     storage.MinSupportedTXPowerIndex := 0;
     storage.MaxSupportedTXPowerIndex := 0;
     storage.NbTrans := 0;
     storage.DR := 0;
     storage.PingSlotFrequency := 0;
     storage.PingSlotDR := 0 |}.

(** [storage.DeviceSession{EnabledUplinkChannels: ..., TXPowerIndex: ...,
    MinSupportedTXPowerIndex: ..., MaxSupportedTXPowerIndex: ..., NbTrans:
    ..., DR: ...}]. *)
Definition adrSession (channels : list Z) (txPowerIndex minIndex maxIndex nbTrans dr : Z)
    : storage.DeviceSession :=
  {| storage.DevEUI := repeat x00 8;
     storage.EnabledUplinkChannels := channels;
     storage.TXPowerIndex := txPowerIndex;
     storage.MinSupportedTXPowerIndex := minIndex;
     storage.MaxSupportedTXPowerIndex := maxIndex;
     storage.NbTrans := nbTrans;
     storage.DR := dr;
     storage.PingSlotFrequency := 0;
     storage.PingSlotDR := 0 |}.

(** [storage.DeviceSession{PingSlotFrequency: ..., PingSlotDR: ...}]. *)
Definition pingSlotSession (frequency dr : Z) : storage.DeviceSession :=
  {| storage.DevEUI := repeat x00 8;
     storage.EnabledUplinkChannels := [];
     storage.TXPowerIndex := 0;
     storage.MinSupportedTXPowerIndex := 0;
     storage.MaxSupportedTXPowerIndex := 0;
     storage.NbTrans := 0;
     storage.DR := 0;
     storage.PingSlotFrequency := frequency;
     storage.PingSlotDR := dr |}.

(** [lorawan.ChMask{true, true, true}]: the other 13 entries are false. *)
Definition chMask_ttt : list bool := [true; true; true] ++ repeat false 13.

(** [&lorawan.LinkADRReqPayload{ChMask: ..., DataRate: ..., TXPower: ...,
    Redundancy: lorawan.Redundancy{NbRep: ...}}]. *)
Definition linkADRReq (mask : list bool) (dataRate txPower nbRep : Z)
    : lorawan.LinkADRReqPayload :=
  {| lorawan.DataRate := dataRate; lorawan.TXPower := txPower; lorawan.ChMask := mask;
     lorawan.Redundancy_ := {| lorawan.NbRep := nbRep |} |}.

Definition linkADRAns (channelMaskACK dataRateACK powerACK : bool)
    : lorawan.LinkADRAnsPayload :=
  {| lorawan.ChannelMaskACK := channelMaskACK; lorawan.DataRateACK := dataRateACK;
     lorawan.PowerACK := powerACK |}.

Record LinkADRAnsCase : Type := {
  Name : string;
  DeviceSession : storage.DeviceSession;
  LinkADRReqPayload : option lorawan.LinkADRReqPayload;
  LinkADRAnsPayload : lorawan.LinkADRAnsPayload;
  ExpectedDeviceSession : storage.DeviceSession;
  ExpectedError : option error
}.

(** The table of "Testing LinkADRAns". *)
Definition linkADRAnsTable : list LinkADRAnsCase :=
  [ {| Name := "pending request and positive ACK updates tx-power, nbtrans and channels";
       DeviceSession := adrSession [0; 1] 0 0 0 0 0;
       LinkADRReqPayload := Some (linkADRReq chMask_ttt 5 3 2);
       LinkADRAnsPayload := linkADRAns true true true;
       ExpectedDeviceSession := adrSession [0; 1; 2] 3 0 0 2 5;
       ExpectedError := None |};
    {| Name := "pending request and negative tx-power ack decrements the max allowed tx-power index";
       DeviceSession := adrSession [0; 1] 0 0 0 0 0;
       LinkADRReqPayload := Some (linkADRReq chMask_ttt 5 3 2);
       LinkADRAnsPayload := linkADRAns true true false;
       ExpectedDeviceSession := adrSession [0; 1] 0 0 2 0 0;
       ExpectedError := None |};
    {| Name := "pending request and negative tx-power ack on tx-power 0 sets (min) tx-power to 1";
       DeviceSession := adrSession [0; 1] 0 0 0 0 0;
       LinkADRReqPayload := Some (linkADRReq chMask_ttt 5 0 2);
       LinkADRAnsPayload := linkADRAns true true false;
       ExpectedDeviceSession := adrSession [0; 1] 1 1 0 0 0;
       ExpectedError := None |};
    {| Name := "nothing pending and positive ACK returns an error";
       DeviceSession := adrSession [0; 1] 0 0 0 0 0;
       LinkADRReqPayload := None;
       LinkADRAnsPayload := linkADRAns true true true;
       ExpectedDeviceSession := adrSession [0; 1] 0 0 0 0 0;
       ExpectedError := Some (New "expected pending mac-command") |} ].

(** The pending block that the test builds from a request payload. *)
Definition pendingLinkADRReq (pl : lorawan.LinkADRReqPayload) : storage.MACCommandBlock :=
  {| storage.CID := lorawan.LinkADRReq;
     storage.MACCommands :=
       [ {| lorawan.CID_ := lorawan.LinkADRReq;
            lorawan.Payload := lorawan.isLinkADRReqPayload pl |} ] |}.

(** The answer block that the test builds from an answer payload. *)
Definition answerLinkADRAns (pl : lorawan.LinkADRAnsPayload) : storage.MACCommandBlock :=
  {| storage.CID := lorawan.LinkADRAns;
     storage.MACCommands :=
       [ {| lorawan.CID_ := lorawan.LinkADRAns;
            lorawan.Payload := lorawan.isLinkADRAnsPayload pl |} ] |}.

(** [err.Error()] of the returned error; the errors compared here are not
    package variables of the error table. *)
Definition errorText (e : option error) : option string :=
  option_map (Error (fun _ => "")) e.

(** What the body of the loop asserts for one case: the expected error
    text (or nil), no response block, the expected session. *)
Definition linkADRAnsPasses (cat : maccommand.Catalogue)
    (tst : LinkADRAnsCase) : Prop :=
  let pending := option_map pendingLinkADRReq (LinkADRReqPayload tst) in
  let answer := answerLinkADRAns (LinkADRAnsPayload tst) in
  let r := maccommand.Handle cat (DeviceSession tst) answer pending in
  errorText (maccommand.err r) = errorText (ExpectedError tst)
  /\ List.length (maccommand.resp r) = 0%nat
  /\ maccommand.session r = ExpectedDeviceSession tst.

Definition pingSlotChannelReq (frequency dr : Z) : lorawan.PingSlotChannelReqPayload :=
  {| lorawan.Frequency := frequency; lorawan.DR := dr |}.

Definition pingSlotChannelAns (dataRateOK channelFrequencyOK : bool)
    : lorawan.PingSlotChannelAnsPayload :=
  {| lorawan.DataRateOK := dataRateOK; lorawan.ChannelFrequencyOK := channelFrequencyOK |}.

Record PingSlotChannelAnsCase : Type := {
  PName : string;
  PDeviceSession : storage.DeviceSession;
  PingSlotChannelReq : option lorawan.PingSlotChannelReqPayload;
  PingSlotChannelAns : lorawan.PingSlotChannelAnsPayload;
  PExpectedDeviceSession : storage.DeviceSession;
  PExpectedError : option error
}.

(** The table of "Testing PingSlotChannelAns". *)
Definition pingSlotChannelAnsTable : list PingSlotChannelAnsCase :=
  [ {| PName := "pending request and positive ACK updates frequency and data-rate";
       PDeviceSession := pingSlotSession 868100000 3;
       PingSlotChannelReq := Some (pingSlotChannelReq 868300000 4);
       PingSlotChannelAns := pingSlotChannelAns true true;
       PExpectedDeviceSession := pingSlotSession 868300000 4;
       PExpectedError := None |};
    {| PName := "pending request and negative ACK does not update";
       PDeviceSession := pingSlotSession 868100000 3;
       PingSlotChannelReq := Some (pingSlotChannelReq (868300000 / 100) 4);
       PingSlotChannelAns := pingSlotChannelAns false true;
       PExpectedDeviceSession := pingSlotSession 868100000 3;
       PExpectedError := None |};
    {| PName := "no pending request and positive ACK returns an error";
       PDeviceSession := pingSlotSession 868100000 3;
       PingSlotChannelReq := None;
       PingSlotChannelAns := pingSlotChannelAns false true;
       PExpectedDeviceSession := pingSlotSession 868100000 3;
       PExpectedError := Some (New "expected pending mac-command") |} ].

Definition pendingPingSlotChannelReq (pl : lorawan.PingSlotChannelReqPayload)
    : storage.MACCommandBlock :=
  {| storage.CID := lorawan.PingSlotChannelReq;
     storage.MACCommands :=
       [ {| lorawan.CID_ := lorawan.PingSlotChannelReq;
            lorawan.Payload := lorawan.isPingSlotChannelReqPayload pl |} ] |}.

Definition answerPingSlotChannelAns (pl : lorawan.PingSlotChannelAnsPayload)
    : storage.MACCommandBlock :=
  {| storage.CID := lorawan.PingSlotChannelAns;
     storage.MACCommands :=
       [ {| lorawan.CID_ := lorawan.PingSlotChannelAns;
            lorawan.Payload := lorawan.isPingSlotChannelAnsPayload pl |} ] |}.

Definition pingSlotChannelAnsPasses (cat : maccommand.Catalogue)
    (tst : PingSlotChannelAnsCase) : Prop :=
  let pending := option_map pendingPingSlotChannelReq (PingSlotChannelReq tst) in
  let answer := answerPingSlotChannelAns (PingSlotChannelAns tst) in
  let r := maccommand.Handle cat (PDeviceSession tst) answer pending in
  errorText (maccommand.err r) = errorText (PExpectedError tst)
  /\ PExpectedDeviceSession tst = maccommand.session r.

(** A catalogue in which every other handler, and the open rows of
    LinkADRAns, leave the session as it is. *)
Definition idleCatalogue : maccommand.Catalogue :=
  {| maccommand.handlers := fun _ ds _ _ => ([], None, ds);
     maccommand.partialLinkADR := fun ds _ _ _ => ds |}.

End maccommand_test.

(** ** What the specification says of the tokens, to compare [setToken] with *)

Module scheduler_spec.

(** "Each candidate gets a freshly drawn 16-bit random token": the tokens of
    [n] candidates, one read of two bytes from the entropy for each. *)
Fixpoint freshTokens (n : nat) (entropy : list byte) : list Z :=
  match n with
  | O => []
  | S n' =>
      conv.uint32 (binary.BigEndian_Uint16 (firstn 2 entropy))
      :: freshTokens n' (skipn 2 entropy)
  end.

End scheduler_spec.

(** ** A concrete setting: an EU868-like band plan and one uplink heard by
    one gateway *)

Module example.

Import errors.

Definition eu868 : band.Band :=
  {| band.GetRX1DataRateIndex := fun uplinkDR rx1DROffset =>
       if (0 <=? uplinkDR) && (uplinkDR <=? 7)
       then inr (Z.max 0 (uplinkDR - rx1DROffset))
       else inl (New "invalid data-rate");
     band.GetRX1FrequencyForUplinkFrequency := fun uplinkFrequency => inr uplinkFrequency;
     band.GetDownlinkTXPower := fun _ => 14;
     band.GetDefaults :=
       {| band.RX2Frequency := 869525000;
          band.RX2DataRate := 0;
          band.JoinAcceptDelay1 := 5000000000;
          band.JoinAcceptDelay2 := 6000000000 |} |}.

(** The physical payload is given by its encoding; every call succeeds. *)
Definition env : join.Env (list byte) :=
  {| join.Band := eu868;
     join.GetDataRate := fun dr =>
       if (0 <=? dr) && (dr <=? 5)
       then inr (gw.DownlinkTXInfo_LoraModulationInfo (12 - dr) 125)
       else inl (New "invalid data-rate");
     join.GetGatewayID := gw.RxGatewayId;
     join.DurationProto := fun d =>
       {| gw.Seconds := Z.quot d 1000000000; gw.Nanos := Z.rem d 1000000000 |};
     join.MarshalBinary := fun phy => inr phy;
     join.SendTXPacket_err := fun _ _ => None;
     join.LogDownlinkFrameForGateway_err := fun _ _ => None;
     join.LogDownlinkFrameForDevEUI_err := fun _ _ _ => None;
     join.SaveDownlinkFrames_err := fun _ _ _ => None |}.

Definition gatewayID : gw.EUI64 := [x01; x02; x03; x04; x05; x06; x07; x08].

Definition rxInfo : gw.UplinkRXInfo :=
  {| gw.RxGatewayId := gatewayID; gw.Rssi := -60; gw.LoraSnr := 0;
     gw.RxBoard := 0; gw.RxAntenna := 0; gw.RxContext := [x2a] |}.

Definition rxPacket : models.RXPacket (list byte) :=
  {| models.PHYPayload_ := [x00];
     models.TXInfo := {| gw.UplinkFrequency := 868100000 |};
     models.RXInfoSet := [rxInfo];
     models.DR := 5 |}.

Definition ctxID : context.UUID := repeat xa7 16.

Definition ctx0 : context.Context := {| context.ContextIDKey := context.isUUID ctxID |}.

Definition ds : storage.DeviceSession :=
  {| storage.DevEUI := [x08; x07; x06; x05; x04; x03; x02; x01];
     storage.EnabledUplinkChannels := [0; 1; 2];
     storage.TXPowerIndex := 0;
     storage.MinSupportedTXPowerIndex := 0;
     storage.MaxSupportedTXPowerIndex := 0;
     storage.NbTrans := 0;
     storage.DR := 0;
     storage.PingSlotFrequency := 0;
     storage.PingSlotDR := 0 |}.

(** The join-accept to send. *)
Definition phy : list byte := [x20; x01; x02; x03].

(** The entropy will deliver 0x12 0x34 0x56 0x78, and then end. *)
Definition world : join.World :=
  {| join.randReader := [x12; x34; x56; x78];
     join.randErr := join.io_EOF;
     join.txPackets := [];
     join.gatewayFrameLog := [];
     join.deviceFrameLog := [];
     join.savedDownlinkFrames := [] |}.

(** Both windows, band default power. *)
Definition bothWindows : join.Globals := join.Setup {| join.RXWindow := 0; join.DownlinkTXPower := -1 |}.

(** Both windows, a configured power of -2 dBm. *)
Definition minusTwo_dBm : join.Globals := join.Setup {| join.RXWindow := 0; join.DownlinkTXPower := -2 |}.

(** The run of [Handle] in this setting, and what it leaves. *)
Definition run : join.result unit * (join.joinContext (list byte) * join.World) :=
  join.handle env bothWindows ctx0 ds rxPacket phy world.

Definition finalContext : join.joinContext (list byte) := fst (snd run).

Definition finalWorld : join.World := snd (snd run).

(** The same with the configured power of -2 dBm. *)
Definition finalContext_minusTwo : join.joinContext (list byte) :=
  fst (snd (join.handle env minusTwo_dBm ctx0 ds rxPacket phy world)).

Definition finalWorld_minusTwo : join.World :=
  snd (snd (join.handle env minusTwo_dBm ctx0 ds rxPacket phy world)).

End example.

(** ** Predicates for the statements about the join handler *)

Module join_facts.

Section Predicates.

Context {PHYPayload : Type}.
Variable env : join.Env PHYPayload.
Variable g : join.Globals.

(** How a task may end, given what it may do to the context. *)
Definition ends (m : join.M PHYPayload unit) (s : join.joinContext PHYPayload * join.World)
    (onOk : join.joinContext PHYPayload -> join.World -> Prop) : Prop :=
  match m s with
  | (join.Ok _, (c', w')) => onOk c' w'
  | (join.Err _, _) => True
  | (join.Panic, _) => False
  end.

(** The RX1 candidate: the TX info that [setTXInfoForRX1] appends. *)
Definition isRX1 (tx : gw.DownlinkTXInfo) : Prop :=
  gw.Timing tx = gw.DownlinkTiming_DELAY
  /\ gw.TimingInfo tx =
       Some (gw.DownlinkTXInfo_DelayTimingInfo
               {| gw.Delay :=
                    join.DurationProto env
                      (band.JoinAcceptDelay1 (band.GetDefaults (join.Band env))) |}).

(** The RX2 candidate: the TX info that [setTXInfoForRX2] appends. *)
Definition isRX2 (tx : gw.DownlinkTXInfo) : Prop :=
  gw.Timing tx = gw.DownlinkTiming_DELAY
  /\ gw.TimingInfo tx =
       Some (gw.DownlinkTXInfo_DelayTimingInfo
               {| gw.Delay :=
                    join.DurationProto env
                      (band.JoinAcceptDelay2 (band.GetDefaults (join.Band env))) |})
  /\ gw.Frequency tx = conv.uint32 (band.RX2Frequency (band.GetDefaults (join.Band env))).

(** The power rule of the code: the band default at -1, else the setting. *)
Definition powerRule (tx : gw.DownlinkTXInfo) : Prop :=
  gw.Power tx =
    if join.downlinkTXPower g =? -1
    then conv.int32 (band.GetDownlinkTXPower (join.Band env) (gw.Frequency tx))
    else conv.int32 (join.downlinkTXPower g).

End Predicates.

End join_facts.

(** ** Further predicates for the join handler: every way a run can end *)

Module join_outcomes.

Section Outcomes.

Context {PHYPayload : Type}.
Variable env : join.Env PHYPayload.
Variable g : join.Globals.

(** How a task ends: what holds when it returns nil, what holds of the
    error when it returns one; it does not panic. *)
Definition outcome (m : join.M PHYPayload unit)
    (s : join.joinContext PHYPayload * join.World)
    (onOk : join.joinContext PHYPayload -> join.World -> Prop)
    (onErr : errors.error -> join.joinContext PHYPayload -> join.World -> Prop) : Prop :=
  match m s with
  | (join.Ok _, (c', w')) => onOk c' w'
  | (join.Err e, (c', w')) => onErr e c' w'
  | (join.Panic, _) => False
  end.

(** A TX info addressed through the gateway that [rxInfo] came from. *)
Definition sentThrough (rxInfo : storage.DeviceGatewayRXInfo) (tx : gw.DownlinkTXInfo) : Prop :=
  gw.GatewayId tx = storage.GatewayID rxInfo
  /\ gw.Board tx = storage.Board rxInfo
  /\ gw.Antenna tx = storage.Antenna rxInfo
  /\ gw.Context tx = storage.Context rxInfo.

(** The radio parameters of an RX1 candidate for [rxPacket]: the band's RX1
    data rate for the uplink data rate with offset 0, and the band's RX1
    frequency for the uplink frequency. *)
Definition rx1Radio (rxPacket : models.RXPacket PHYPayload) (tx : gw.DownlinkTXInfo) : Prop :=
  exists rx1DR m freq,
    band.GetRX1DataRateIndex (join.Band env) (models.DR rxPacket) 0 = inr rx1DR
    /\ join.GetDataRate env rx1DR = inr m
    /\ band.GetRX1FrequencyForUplinkFrequency (join.Band env)
         (gw.UplinkFrequency (models.TXInfo rxPacket)) = inr freq
    /\ gw.ModulationInfo tx = Some m
    /\ gw.Frequency tx = conv.uint32 freq.

(** The radio parameters of an RX2 candidate: the band's default RX2 data
    rate and frequency. *)
Definition rx2Radio (tx : gw.DownlinkTXInfo) : Prop :=
  exists m,
    join.GetDataRate env (band.RX2DataRate (band.GetDefaults (join.Band env))) = inr m
    /\ gw.ModulationInfo tx = Some m
    /\ gw.Frequency tx = conv.uint32 (band.RX2Frequency (band.GetDefaults (join.Band env))).

(** The candidate frames made of the TX infos [txs]: with the token and
    the downlink id that [setToken] gives them in the world [w] and the
    context [ctx0], and the payload bytes [phyB]. *)
Definition candidates (ctx0 : context.Context) (w : join.World) (phyB : list byte)
    (txs : list gw.DownlinkTXInfo) : list gw.DownlinkFrame :=
  map (gw.set_PhyPayload phyB)
    (map (gw.set_Token_DownlinkId
            (conv.uint32 (binary.BigEndian_Uint16 (firstn 2 (join.randReader w))))
            (match context.ContextIDKey ctx0 with
             | context.isUUID id => id
             | _ => context.zeroUUID
             end))
         (map join.frameOf txs)).

(** The failures of [Handle], by the step that fails: the error returned,
    for the packet [rxPacket], the payload [phy], the session [ds] and the
    world [w] the call starts in, and the context [c'] and the world [w']
    that the call leaves. The error of a collaborator is the one it returns
    for the arguments the step calls it with. *)
Inductive failure (rxPacket : models.RXPacket PHYPayload) (phy : PHYPayload)
    (ds : storage.DeviceSession) (w : join.World)
    (c' : join.joinContext PHYPayload) (w' : join.World) : errors.error -> Prop :=
| fail_empty :
    models.RXInfoSet rxPacket = [] ->
    failure rxPacket phy ds w c' w' (errors.New "DeviceGatewayRXInfo is empty!")
| fail_rx1_index : forall e0,
    (join.rxWindow g =? 0) || (join.rxWindow g =? 1) = true ->
    band.GetRX1DataRateIndex (join.Band env) (models.DR rxPacket) 0 = inl e0 ->
    failure rxPacket phy ds w c' w' (errors.Wrap e0 "get rx1 data-rate index error")
| fail_rx1_datarate : forall rx1DR e0,
    (join.rxWindow g =? 0) || (join.rxWindow g =? 1) = true ->
    band.GetRX1DataRateIndex (join.Band env) (models.DR rxPacket) 0 = inr rx1DR ->
    join.GetDataRate env rx1DR = inl e0 ->
    failure rxPacket phy ds w c' w' (errors.Wrap e0 "set downlink tx-info data-rate error")
| fail_rx1_frequency : forall e0,
    (join.rxWindow g =? 0) || (join.rxWindow g =? 1) = true ->
    band.GetRX1FrequencyForUplinkFrequency (join.Band env)
      (gw.UplinkFrequency (models.TXInfo rxPacket)) = inl e0 ->
    failure rxPacket phy ds w c' w' (errors.Wrap e0 "get rx1 frequency error")
| fail_rx2_datarate : forall e0,
    (join.rxWindow g =? 0) || (join.rxWindow g =? 2) = true ->
    join.GetDataRate env (band.RX2DataRate (band.GetDefaults (join.Band env))) = inl e0 ->
    failure rxPacket phy ds w c' w' (errors.Wrap e0 "set downlink tx-info data-rate error")
| fail_random : forall e0,
    fst (join.rand_Read 2 w) = inl e0 ->
    failure rxPacket phy ds w c' w' (errors.Wrap e0 "read random error")
| fail_marshal : forall e0,
    join.MarshalBinary env phy = inl e0 ->
    failure rxPacket phy ds w c' w' (errors.Wrap e0 "marshal phypayload error")
| fail_send : forall e0 frame rest,
    join.DownlinkFrames c' = frame :: rest ->
    join.SendTXPacket_err env w' frame = Some e0 ->
    failure rxPacket phy ds w c' w' (errors.Wrap e0 "send downlink frame error")
| fail_save : forall e0 frame rest,
    join.DownlinkFrames c' = frame :: rest ->
    rest <> [] ->
    join.SaveDownlinkFrames_err env w' (storage.DevEUI ds) rest = Some e0 ->
    failure rxPacket phy ds w c' w' (errors.Wrap e0 "save downlink-frames error").

(** What a run of [Handle] that returns [e] has sent and saved: nothing is
    saved; nothing is sent either, unless [e] is the error of saving the
    remaining frames, and then both windows are in use, the candidates are
    the RX1 and the RX2 frame, and the first of them has been handed to the
    gateway backend. *)
Definition errorEffects (ctx0 : context.Context) (rxPacket : models.RXPacket PHYPayload)
    (w : join.World) (e : errors.error)
    (c' : join.joinContext PHYPayload) (w' : join.World) : Prop :=
  join.savedDownlinkFrames w' = join.savedDownlinkFrames w
  /\ (((forall e0, e <> errors.Wrap e0 "save downlink-frames error")
       /\ join.txPackets w' = join.txPackets w)
      \/ (exists e0 rx1 rx2 phyB,
            e = errors.Wrap e0 "save downlink-frames error"
            /\ join.rxWindow g = 0
            /\ join.DownlinkFrames c' = candidates ctx0 w phyB [rx1; rx2]
            /\ rx1Radio rxPacket rx1
            /\ rx2Radio rx2
            /\ join.txPackets w' = join.txPackets w ++ candidates ctx0 w phyB [rx1])).

End Outcomes.

End join_outcomes.

(** ** Package [uplink]: what each collected uplink and each downlink TX
    acknowledgement is handled with

    The server loops ([Start], [Stop], [HandleUplinkFrames],
    [HandleDownlinkTXAcks]) spawn a goroutine per message; what is embedded
    is the work of one such goroutine and the function that
    [collectUplinkFrames] hands to [collectAndCallOnce], with the calls into
    the other packages recorded in order. *)

Module uplink.

Import errors.

(** [lorawan.MType], as far as the switch names it: any other message type
    (join-accept, data down) is [otherMType]. *)
Inductive MType : Type :=
| JoinRequest
| RejoinRequest
| UnconfirmedDataUp
| ConfirmedDataUp
| Proprietary
| otherMType (m : Z).

(** [gw.UplinkFrame], [gw.UplinkFrameSet] and [gw.DownlinkTXAck]. *)
Record UplinkFrame : Type := {
  PhyPayload : list byte;
  TxInfo : gw.UplinkTXInfo;
  RxInfo : gw.UplinkRXInfo
}.

Record UplinkFrameSet : Type := {
  SetPhyPayload : list byte;
  SetTxInfo : gw.UplinkTXInfo;
  SetRxInfo : list gw.UplinkRXInfo
}.

(** [DownlinkId] is a slice: nil ([None]) or some bytes. *)
Record DownlinkTXAck : Type := {
  GatewayId : list byte;
  Token : Z;
  DownlinkId : option (list byte)
}.

(** The built-in [copy(dst, src)], by what [dst] holds afterwards: its first
    [min(len(dst), len(src))] elements are those of [src]. *)
Definition copy (dst src : list byte) : list byte :=
  firstn (List.length dst) src ++ skipn (List.length src) dst.

(** The [ctxID] of the goroutine of [HandleDownlinkTXAcks]:
    [var ctxID uuid.UUID; if ack.DownlinkId != nil { copy(ctxID[:], ack.DownlinkId) }]. *)
Definition ackContextID (downlinkTXAck : DownlinkTXAck) : context.UUID :=
  match DownlinkId downlinkTXAck with
  | None => context.zeroUUID
  | Some id => copy context.zeroUUID id
  end.

(** [context.WithValue(context.Background(), logging.ContextIDKey, ctxID)]. *)
Definition withContextID (ctxID : context.UUID) : context.Context :=
  {| context.ContextIDKey := context.isUUID ctxID |}.

(** The context of the goroutine of [HandleUplinkFrames]:
    [ctxID, err := uuid.NewV4()]; the error is logged and [ctxID] is used
    as returned. *)
Definition uplinkFrameContext (newV4 : context.UUID * option error) : context.Context :=
  withContextID (fst newV4).

(** [conf.NetworkServer.DeduplicationDelay]. *)
Record Config : Type := { DeduplicationDelay : Z }.

Section Calls.

Variable PHYPayload : Type.

(** The calls into the other packages. *)
Inductive Call : Type :=
| data_Setup (conf : Config)
| join_Setup (conf : Config)
| rejoin_Setup (conf : Config)
| gateway_UpdateMetaDataInRxInfoSet (ctx : context.Context) (rxInfoSet : list gw.UplinkRXInfo)
| framelog_LogUplinkFrameForGateways (ctx : context.Context) (frames : UplinkFrameSet)
| join_Handle (ctx : context.Context) (rxPacket : models.RXPacket PHYPayload)
| rejoin_Handle (ctx : context.Context) (rxPacket : models.RXPacket PHYPayload)
| data_Handle (ctx : context.Context) (rxPacket : models.RXPacket PHYPayload)
| proprietary_Handle (ctx : context.Context) (rxPacket : models.RXPacket PHYPayload)
| ack_HandleDownlinkTXAck (ctx : context.Context) (downlinkTXAck : DownlinkTXAck).

(** The other packages: the error each call returns after the calls made
    before it, the message type of a decoded payload
    ([PHYPayload.MHDR.MType]), and the rx-info set as
    [gateway.UpdateMetaDataInRxInfoSet] leaves it (the entries are pointers,
    which the call may write through). *)
Record Packages : Type := {
  returns : list Call -> Call -> option error;
  MTypeOf : PHYPayload -> MType;
  updatedRxInfoSet : list Call -> list gw.UplinkRXInfo -> list gw.UplinkRXInfo
}.

Variable pkgs : Packages.

(** Make a call: its error, and the calls made so far. *)
Definition call (c : Call) (calls : list Call) : option error * list Call :=
  (returns pkgs calls c, calls ++ [c]).

(** The package: its variable [deduplicationDelay], and the calls made. *)
Record Package : Type := {
  deduplicationDelay : Z;
  calls : list Call
}.

(** [Setup] configures the package. *)
Definition Setup (conf : Config) (p : Package) : option error * Package :=
  match call (data_Setup conf) (calls p) with
  | (Some err, cs) =>
      (Some (Wrap err "configure uplink/data error"),
       {| deduplicationDelay := deduplicationDelay p; calls := cs |})
  | (None, cs) =>
      match call (join_Setup conf) cs with
      | (Some err, cs) =>
          (Some (Wrap err "configure uplink/join error"),
           {| deduplicationDelay := deduplicationDelay p; calls := cs |})
      | (None, cs) =>
          match call (rejoin_Setup conf) cs with
          | (Some err, cs) =>
              (Some (Wrap err "configure uplink/rejoin error"),
               {| deduplicationDelay := deduplicationDelay p; calls := cs |})
          | (None, cs) =>
              (None, {| deduplicationDelay := DeduplicationDelay conf; calls := cs |})
          end
      end
  end.

(** The function that [collectUplinkFrames] passes to [collectAndCallOnce]:
    what is done with one collected [rxPacket], for the [uplinkFrame] that
    [collectUplinkFrames] was called with. The errors of the meta-data
    update and of the frame log are logged and dropped. *)
Definition collected (ctx : context.Context) (uplinkFrame : UplinkFrame)
    (rxPacket : models.RXPacket PHYPayload) (cs : list Call) : option error * list Call :=
  (* update the gateway meta-data *)
  let rxInfoSet := updatedRxInfoSet pkgs cs (models.RXInfoSet rxPacket) in
  let cs := snd (call (gateway_UpdateMetaDataInRxInfoSet ctx (models.RXInfoSet rxPacket)) cs) in
  let rxPacket :=
    {| models.PHYPayload_ := models.PHYPayload_ rxPacket;
       models.TXInfo := models.TXInfo rxPacket;
       models.RXInfoSet := rxInfoSet;
       models.DR := models.DR rxPacket |} in
  (* log the frame for each receiving gateway *)
  let cs :=
    snd (call (framelog_LogUplinkFrameForGateways ctx
                 {| SetPhyPayload := PhyPayload uplinkFrame;
                    SetTxInfo := models.TXInfo rxPacket;
                    SetRxInfo := models.RXInfoSet rxPacket |}) cs) in
  (* handle the frame based on message-type *)
  match MTypeOf pkgs (models.PHYPayload_ rxPacket) with
  | JoinRequest => call (join_Handle ctx rxPacket) cs
  | RejoinRequest => call (rejoin_Handle ctx rxPacket) cs
  | UnconfirmedDataUp | ConfirmedDataUp => call (data_Handle ctx rxPacket) cs
  | Proprietary => call (proprietary_Handle ctx rxPacket) cs
  | otherMType _ => (None, cs)
  end.

(** The goroutine of [HandleDownlinkTXAcks] for one acknowledgement: the
    error of [ack.HandleDownlinkTXAck] is logged and dropped. *)
Definition handleDownlinkTXAck (downlinkTXAck : DownlinkTXAck) (cs : list Call) : list Call :=
  let ctx := withContextID (ackContextID downlinkTXAck) in
  snd (call (ack_HandleDownlinkTXAck ctx downlinkTXAck) cs).

End Calls.

Arguments data_Setup {PHYPayload} conf.
Arguments join_Setup {PHYPayload} conf.
Arguments rejoin_Setup {PHYPayload} conf.
Arguments gateway_UpdateMetaDataInRxInfoSet {PHYPayload} ctx rxInfoSet.
Arguments framelog_LogUplinkFrameForGateways {PHYPayload} ctx frames.
Arguments join_Handle {PHYPayload} ctx rxPacket.
Arguments rejoin_Handle {PHYPayload} ctx rxPacket.
Arguments data_Handle {PHYPayload} ctx rxPacket.
Arguments proprietary_Handle {PHYPayload} ctx rxPacket.
Arguments ack_HandleDownlinkTXAck {PHYPayload} ctx downlinkTXAck.
Arguments returns {PHYPayload} _.
Arguments MTypeOf {PHYPayload} _.
Arguments updatedRxInfoSet {PHYPayload} _.
Arguments call {PHYPayload} pkgs c calls.
Arguments deduplicationDelay {PHYPayload} _.
Arguments calls {PHYPayload} _.
Arguments Setup {PHYPayload} pkgs conf p.
Arguments collected {PHYPayload} pkgs ctx uplinkFrame rxPacket cs.
Arguments handleDownlinkTXAck {PHYPayload} pkgs downlinkTXAck cs.

End uplink.

(** ** The concrete setting, with a failing store and with an unknown window *)

Module example_failures.

Import errors.

(** As [example.env], but the store refuses to save downlink frames. *)
Definition envStoreDown : join.Env (list byte) :=
  {| join.Band := join.Band example.env;
     join.GetDataRate := join.GetDataRate example.env;
     join.GetGatewayID := join.GetGatewayID example.env;
     join.DurationProto := join.DurationProto example.env;
     join.MarshalBinary := join.MarshalBinary example.env;
     join.SendTXPacket_err := fun _ _ => None;
     join.LogDownlinkFrameForGateway_err := fun _ _ => None;
     join.LogDownlinkFrameForDevEUI_err := fun _ _ _ => None;
     join.SaveDownlinkFrames_err := fun _ _ _ => Some (New "connection refused") |}.

(** What [Handle] returns and leaves with the failing store. *)
Definition storeDownRun : join.result unit * join.World :=
  join.Handle envStoreDown example.bothWindows example.ctx0 example.ds example.rxPacket
    example.phy example.world.

(** The context that this run leaves. *)
Definition storeDownContext : join.joinContext (list byte) :=
  fst (snd (join.handle envStoreDown example.bothWindows example.ctx0 example.ds
              example.rxPacket example.phy example.world)).

(** An entropy source that has nothing to deliver. *)
Definition noEntropy : join.World :=
  {| join.randReader := [];
     join.randErr := join.io_EOF;
     join.txPackets := [];
     join.gatewayFrameLog := [];
     join.deviceFrameLog := [];
     join.savedDownlinkFrames := [] |}.

(** The run of [Handle] without entropy. *)
Definition noEntropyRun : join.result unit * (join.joinContext (list byte) * join.World) :=
  join.handle example.env example.bothWindows example.ctx0 example.ds example.rxPacket
    example.phy noEntropy.

(** A window setting outside 0, 1 and 2. *)
Definition window3 : join.Globals :=
  join.Setup {| join.RXWindow := 3; join.DownlinkTXPower := -1 |}.

(** An acknowledgement that echoes the downlink id of a frame. *)
Definition ackOf (frame : gw.DownlinkFrame) : uplink.DownlinkTXAck :=
  {| uplink.GatewayId := match gw.TxInfo frame with
                         | Some tx => gw.GatewayId tx
                         | None => []
                         end;
     uplink.Token := gw.Token frame;
     uplink.DownlinkId := Some (gw.DownlinkId frame) |}.

End example_failures.

(** ** Predicates for the statements about package [uplink] *)

Module uplink_facts.

(** The calls that handle a collected uplink. *)
Definition isHandle {PHYPayload : Type} (c : uplink.Call PHYPayload) : bool :=
  match c with
  | uplink.join_Handle _ _ | uplink.rejoin_Handle _ _
  | uplink.data_Handle _ _ | uplink.proprietary_Handle _ _ => true
  | _ => false
  end.

End uplink_facts.

(* ===================================================================== *)
(** * Part II. The properties                                             *)
(* ===================================================================== *)

(** ** Integer conversions *)

Lemma uint32_small (x : Z) : 0 <= x < 2 ^ 32 -> conv.uint32 x = x.
Proof. intros H. unfold conv.uint32. apply Z.mod_small. exact H. Qed.

Lemma int32_small (x : Z) : - 2 ^ 31 <= x < 2 ^ 31 -> conv.int32 x = x.
Proof.
  intros H. unfold conv.int32.
  rewrite Z.mod_small by lia. lia.
Qed.

Lemma byte_val_range (b : byte) : 0 <= conv.byte_val b < 256.
Proof.
  unfold conv.byte_val.
  pose proof (Byte.to_N_bounded b) as H. lia.
Qed.

Lemma BigEndian_Uint16_range (b : list byte) :
  0 <= binary.BigEndian_Uint16 b < 2 ^ 16.
Proof.
  unfold binary.BigEndian_Uint16.
  pose proof (byte_val_range (nth 1 b x00)) as H1.
  pose proof (byte_val_range (nth 0 b x00)) as H0.
  set (lo := conv.byte_val (nth 1 b x00)) in *.
  set (hi := conv.byte_val (nth 0 b x00)) in *.
  assert (Hhi : 0 <= Z.shiftl hi 8 < 2 ^ 16).
  { rewrite Z.shiftl_mul_pow2 by lia. lia. }
  split.
  - apply Z.lor_nonneg. lia.
  - destruct (Z.eq_dec (Z.lor lo (Z.shiftl hi 8)) 0) as [E | NE]; [rewrite E; lia |].
    apply Z.log2_lt_pow2; [pose proof (Z.lor_nonneg lo (Z.shiftl hi 8)); lia |].
    rewrite Z.log2_lor by lia.
    apply Z.max_lub_lt.
    + destruct (Z.eq_dec lo 0) as [-> | ?]; [simpl; lia |].
      apply Z.log2_lt_pow2; lia.
    + destruct (Z.eq_dec (Z.shiftl hi 8) 0) as [-> | ?]; [simpl; lia |].
      apply Z.log2_lt_pow2; lia.
Qed.

(** ** Package [api] *)

Lemma Cause_idempotent (e : errors.error) : errors.Cause (errors.Cause e) = errors.Cause e.
Proof. induction e as [v | msg | e IH msg]; simpl; auto. Qed.

(** C9. For every error given to [errToRPCError], the status code is
    determined by the error's cause: the code that the taxonomy gives to the
    package variable which is the cause (InvalidArgument for the FPort,
    FCnt, payload-size, name and aggregation-interval errors,
    FailedPrecondition for the missing RX info, Internal for the unknown
    data rates, AlreadyExists, NotFound for the missing session and the
    FCnt-or-MIC mismatch), and Unknown for every other cause. *)
Theorem errToRPCError_code_by_cause :
  forall (varText : errors.ErrVar -> string) (e : errors.error),
    api.Code (api.errToRPCError varText e) =
      match errors.Cause e with
      | errors.Var v => api.taxonomy v
      | _ => codes.Unknown
      end.
Proof.
  intros varText e. unfold api.errToRPCError. cbn [api.Code].
  destruct (errors.Cause e) as [v | msg | e' msg]; [destruct v | | ]; reflexivity.
Qed.

(** ** Package [join]: the tasks one by one *)

Section JoinTasks.

Import join_facts.

Context {PHYPayload : Type}.
Variable env : join.Env PHYPayload.
Variable g : join.Globals.

(** Unfold the monad of the tasks. *)
Ltac run :=
  unfold join.bind, join.get, join.ret, join.throw, join.orWrap, join.index, join.io,
    join.put_DownlinkFrames, join.put_DeviceGatewayRXInfo in *;
  cbn [fst snd] in *.

Lemma ends_bind :
  forall (m k : join.M PHYPayload unit) (s : join.joinContext PHYPayload * join.World)
         (P Q : join.joinContext PHYPayload -> join.World -> Prop),
    ends m s P ->
    (forall c' w', P c' w' -> ends k (c', w') Q) ->
    ends (join.bind m (fun _ => k)) s Q.
Proof.
  intros m k s P Q Hm Hk. unfold ends, join.bind in *.
  destruct (m s) as [[[] | e |] [c' w']]; [apply Hk; exact Hm | exact I | exact Hm].
Qed.

Lemma ends_weaken :
  forall (m : join.M PHYPayload unit) (s : join.joinContext PHYPayload * join.World)
         (P Q : join.joinContext PHYPayload -> join.World -> Prop),
    ends m s P -> (forall c' w', P c' w' -> Q c' w') -> ends m s Q.
Proof.
  intros m s P Q Hm HPQ. unfold ends in *.
  destruct (m s) as [[[] | e |] [c' w']]; auto.
Qed.

Lemma appendDeviceGatewayRXInfo_run :
  forall (set : list gw.UplinkRXInfo) (c : join.joinContext PHYPayload) (w : join.World),
    join.appendDeviceGatewayRXInfo env set (c, w) =
      (join.Ok tt,
       (join.set_DeviceGatewayRXInfo
          (join.DeviceGatewayRXInfo c ++ map (join.deviceGatewayRXInfo env) set) c,
        w)).
Proof.
  induction set as [| rx set IH]; intros c w; cbn [join.appendDeviceGatewayRXInfo map].
  - run. rewrite app_nil_r. destruct c; reflexivity.
  - run. rewrite IH. cbn. rewrite <- app_assoc. reflexivity.
Qed.

Lemma setDeviceGatewayRXInfo_run :
  forall (c : join.joinContext PHYPayload) (w : join.World),
    join.setDeviceGatewayRXInfo env (c, w) =
      let c' :=
        join.set_DeviceGatewayRXInfo
          (join.DeviceGatewayRXInfo c
           ++ map (join.deviceGatewayRXInfo env) (models.RXInfoSet (join.RXPacket c))) c in
      match join.DeviceGatewayRXInfo c' with
      | [] => (join.Err (errors.New "DeviceGatewayRXInfo is empty!"), (c', w))
      | _ :: _ => (join.Ok tt, (c', w))
      end.
Proof.
  intros c w. unfold join.setDeviceGatewayRXInfo. run.
  rewrite appendDeviceGatewayRXInfo_run. cbn.
  destruct (join.DeviceGatewayRXInfo c
            ++ map (join.deviceGatewayRXInfo env) (models.RXInfoSet (join.RXPacket c)));
    reflexivity.
Qed.

(** What [setTXPower] leaves in a TX info. *)
Lemma setTXPower_Power (tx : gw.DownlinkTXInfo) :
  gw.Power (join.setTXPower env g tx) =
    if join.downlinkTXPower g =? -1
    then conv.int32 (band.GetDownlinkTXPower (join.Band env) (gw.Frequency tx))
    else conv.int32 (join.downlinkTXPower g).
Proof. unfold join.setTXPower. destruct (join.downlinkTXPower g =? -1); reflexivity. Qed.

Lemma setTXPower_Frequency (tx : gw.DownlinkTXInfo) :
  gw.Frequency (join.setTXPower env g tx) = gw.Frequency tx.
Proof. unfold join.setTXPower. destruct (join.downlinkTXPower g =? -1); reflexivity. Qed.

Lemma setTXInfoForRX1_ends :
  forall (c : join.joinContext PHYPayload) (w : join.World),
    join.DeviceGatewayRXInfo c <> [] ->
    ends (join.setTXInfoForRX1 env g) (c, w)
      (fun c' w' =>
         w' = w
         /\ exists tx,
              c' = join.set_DownlinkFrames (join.DownlinkFrames c ++ [join.frameOf tx]) c
              /\ isRX1 env tx /\ powerRule env g tx).
Proof.
  intros c w Hne. unfold ends, join.setTXInfoForRX1. run.
  destruct (join.DeviceGatewayRXInfo c) as [| rxInfo rest]; [congruence |].
  cbn [nth_error].
  destruct (band.GetRX1DataRateIndex _ _ _) as [e | rx1DR]; cbn; [exact I |].
  unfold helpers.SetDownlinkTXInfoDataRate.
  destruct (join.GetDataRate env rx1DR) as [e | m]; cbn; [exact I |].
  destruct (band.GetRX1FrequencyForUplinkFrequency _ _) as [e | freq]; cbn; [exact I |].
  split; [reflexivity |].
  eexists. split; [reflexivity |]. split.
  - unfold isRX1, join.setDelay. cbn. split; reflexivity.
  - unfold powerRule, join.setDelay. cbn.
    rewrite setTXPower_Power, setTXPower_Frequency. reflexivity.
Qed.

Lemma setTXInfoForRX2_ends :
  forall (c : join.joinContext PHYPayload) (w : join.World),
    join.DeviceGatewayRXInfo c <> [] ->
    ends (join.setTXInfoForRX2 env g) (c, w)
      (fun c' w' =>
         w' = w
         /\ exists tx,
              c' = join.set_DownlinkFrames (join.DownlinkFrames c ++ [join.frameOf tx]) c
              /\ isRX2 env tx /\ powerRule env g tx).
Proof.
  intros c w Hne. unfold ends, join.setTXInfoForRX2. run.
  destruct (join.DeviceGatewayRXInfo c) as [| rxInfo rest]; [congruence |].
  cbn [nth_error].
  unfold helpers.SetDownlinkTXInfoDataRate.
  destruct (join.GetDataRate env _) as [e | m]; cbn; [exact I |].
  split; [reflexivity |].
  eexists. split; [reflexivity |]. split.
  - unfold isRX2, join.setDelay. cbn. rewrite setTXPower_Frequency. cbn.
    repeat split; reflexivity.
  - unfold powerRule, join.setDelay. cbn.
    rewrite setTXPower_Power, setTXPower_Frequency. reflexivity.
Qed.

(** [setTXInfo] appends the RX1 candidate when the window is 0 or 1, then
    the RX2 candidate when it is 0 or 2. *)
Lemma setTXInfo_ends :
  forall (c : join.joinContext PHYPayload) (w : join.World),
    join.DeviceGatewayRXInfo c <> [] ->
    ends (join.setTXInfo env g) (c, w)
      (fun c' w' =>
         w' = w
         /\ exists rx1s rx2s : list gw.DownlinkTXInfo,
              c' = join.set_DownlinkFrames
                     (join.DownlinkFrames c ++ map join.frameOf (rx1s ++ rx2s)) c
              /\ List.length rx1s
                 = (if (join.rxWindow g =? 0) || (join.rxWindow g =? 1) then 1%nat else 0%nat)
              /\ List.length rx2s
                 = (if (join.rxWindow g =? 0) || (join.rxWindow g =? 2) then 1%nat else 0%nat)
              /\ Forall (isRX1 env) rx1s
              /\ Forall (isRX2 env) rx2s
              /\ Forall (powerRule env g) (rx1s ++ rx2s)).
Proof.
  intros c w Hne. unfold join.setTXInfo.
  apply ends_bind with
    (P := fun c1 w1 =>
            w1 = w
            /\ exists rx1s,
                 c1 = join.set_DownlinkFrames
                        (join.DownlinkFrames c ++ map join.frameOf rx1s) c
                 /\ List.length rx1s
                    = (if (join.rxWindow g =? 0) || (join.rxWindow g =? 1) then 1%nat else 0%nat)
                 /\ Forall (isRX1 env) rx1s /\ Forall (powerRule env g) rx1s).
  - destruct ((join.rxWindow g =? 0) || (join.rxWindow g =? 1)).
    + eapply ends_weaken; [apply setTXInfoForRX1_ends; exact Hne |].
      intros c' w' [Hw [tx [Hc [H1 Hp]]]]. split; [exact Hw |].
      exists [tx]. cbn [map]. repeat split; auto.
    + unfold ends, join.ret. split; [reflexivity |].
      exists []. cbn [map]. rewrite app_nil_r.
      repeat split; auto. destruct c; reflexivity.
  - intros c1 w1 [-> [rx1s [-> [Hlen [H1 Hp1]]]]].
    destruct ((join.rxWindow g =? 0) || (join.rxWindow g =? 2)).
    + eapply ends_weaken; [apply setTXInfoForRX2_ends; exact Hne |].
      intros c' w' [Hw [tx [Hc [H2 Hp]]]]. split; [exact Hw |].
      exists rx1s, [tx]. subst c'. cbn.
      rewrite map_app, <- app_assoc. cbn [map].
      repeat split; auto.
      apply Forall_app; split; auto.
    + unfold ends, join.ret. split; [reflexivity |].
      exists rx1s, []. rewrite app_nil_r.
      repeat split; auto.
Qed.

(** [setToken] reads the entropy once, and gives that one token and the
    context id to every frame. *)
Lemma setToken_run :
  forall (c : join.joinContext PHYPayload) (w : join.World),
    join.setToken (c, w) =
      let w' := snd (join.rand_Read 2 w) in
      if (2 <=? List.length (join.randReader w))%nat
      then
        (join.Ok tt,
         (join.set_DownlinkFrames
            (map (gw.set_Token_DownlinkId
                    (conv.uint32 (binary.BigEndian_Uint16 (firstn 2 (join.randReader w))))
                    (match context.ContextIDKey (join.ctx c) with
                     | context.isUUID id => id
                     | _ => context.zeroUUID
                     end))
                 (join.DownlinkFrames c)) c,
          w'))
      else
        (join.Err
           (errors.Wrap
              (join.io_ReadFull_err (List.length (join.randReader w)) (join.randErr w))
              "read random error"),
         (c, w')).
Proof.
  intros c w. unfold join.setToken, join.rand_Read. run.
  destruct (2 <=? List.length (join.randReader w))%nat; reflexivity.
Qed.

Lemma setDownlinkFrame_run :
  forall (c : join.joinContext PHYPayload) (w : join.World),
    join.setDownlinkFrame env (c, w) =
      match join.MarshalBinary env (join.PHYPayload_ c) with
      | inl e => (join.Err (errors.Wrap e "marshal phypayload error"), (c, w))
      | inr phyB =>
          (join.Ok tt,
           (join.set_DownlinkFrames (map (gw.set_PhyPayload phyB) (join.DownlinkFrames c)) c,
            w))
      end.
Proof.
  intros c w. unfold join.setDownlinkFrame. run.
  destruct (join.MarshalBinary env (join.PHYPayload_ c)); reflexivity.
Qed.

(** The last two tasks leave the context and the entropy as they are, and
    cannot panic: the first hands the first frame (if any) to the gateway
    backend, the second saves the frames after the first (if any). *)
Lemma sendJoinAcceptResponse_ends :
  forall (c : join.joinContext PHYPayload) (w : join.World),
    ends (join.sendJoinAcceptResponse env) (c, w)
      (fun c' w' =>
         c' = c
         /\ join.randReader w' = join.randReader w
         /\ join.txPackets w' = join.txPackets w ++ firstn 1 (join.DownlinkFrames c)
         /\ join.savedDownlinkFrames w' = join.savedDownlinkFrames w).
Proof.
  intros c w. unfold ends, join.sendJoinAcceptResponse. run.
  destruct (join.DownlinkFrames c) as [| frame rest]; cbn.
  { rewrite app_nil_r. repeat split. }
  unfold join.SendTXPacket.
  destruct (join.SendTXPacket_err env w frame); cbn; [exact I |].
  unfold join.LogDownlinkFrameForGateway, join.LogDownlinkFrameForDevEUI. cbn.
  destruct (join.LogDownlinkFrameForGateway_err env _ frame); cbn;
    destruct (join.LogDownlinkFrameForDevEUI_err env _ _ frame); repeat split.
Qed.

Lemma saveRemainingFrames_ends :
  forall (c : join.joinContext PHYPayload) (w : join.World),
    ends (join.saveRemainingFrames env) (c, w)
      (fun c' w' =>
         c' = c
         /\ join.randReader w' = join.randReader w
         /\ join.txPackets w' = join.txPackets w
         /\ join.savedDownlinkFrames w' =
              join.savedDownlinkFrames w
              ++ (if (List.length (join.DownlinkFrames c) <? 2)%nat then []
                  else [(storage.DevEUI (join.DeviceSession c),
                         skipn 1 (join.DownlinkFrames c))])).
Proof.
  intros c w. unfold ends, join.saveRemainingFrames. run.
  destruct (List.length (join.DownlinkFrames c) <? 2)%nat; cbn.
  { rewrite app_nil_r. repeat split. }
  unfold join.SaveDownlinkFrames.
  destruct (join.SaveDownlinkFrames_err env w _ _); cbn; [exact I | repeat split].
Qed.

(** *** The whole pipeline *)

(** With an empty RXInfoSet the first task fails, and [Handle] stops there. *)
Lemma handle_empty :
  forall ctx0 ds (rxPacket : models.RXPacket PHYPayload) phy w,
    models.RXInfoSet rxPacket = [] ->
    join.handle env g ctx0 ds rxPacket phy w =
      (join.Err (errors.New "DeviceGatewayRXInfo is empty!"),
       (join.newJoinContext ctx0 ds rxPacket phy, w)).
Proof.
  intros ctx0 ds rxPacket phy w Hset.
  unfold join.handle, join.tasks. cbn [join.runTasks].
  unfold join.bind at 1. rewrite setDeviceGatewayRXInfo_run.
  cbn. rewrite Hset. reflexivity.
Qed.

(** With a non-empty RXInfoSet [Handle] cannot panic, and when it returns
    nil the frames are the RX1 and RX2 candidates of [setTXInfo], each with
    the one token, the context id and the encoded payload; the first went to
    the gateway backend and the others were saved. *)
Lemma handle_ends :
  forall ctx0 ds (rxPacket : models.RXPacket PHYPayload) phy w,
    models.RXInfoSet rxPacket <> [] ->
    ends (join.runTasks (join.tasks env g)) (join.newJoinContext ctx0 ds rxPacket phy, w)
      (fun c' w' =>
         exists (rx1s rx2s : list gw.DownlinkTXInfo) (phyB : list byte),
           join.DownlinkFrames c' =
             map (gw.set_PhyPayload phyB)
               (map (gw.set_Token_DownlinkId
                       (conv.uint32 (binary.BigEndian_Uint16 (firstn 2 (join.randReader w))))
                       (match context.ContextIDKey ctx0 with
                        | context.isUUID id => id
                        | _ => context.zeroUUID
                        end))
                    (map join.frameOf (rx1s ++ rx2s)))
           /\ List.length rx1s
              = (if (join.rxWindow g =? 0) || (join.rxWindow g =? 1) then 1%nat else 0%nat)
           /\ List.length rx2s
              = (if (join.rxWindow g =? 0) || (join.rxWindow g =? 2) then 1%nat else 0%nat)
           /\ Forall (isRX1 env) rx1s
           /\ Forall (isRX2 env) rx2s
           /\ Forall (powerRule env g) (rx1s ++ rx2s)
           /\ (2 <= List.length (join.randReader w))%nat
           /\ join.randReader w' = skipn 2 (join.randReader w)
           /\ join.txPackets w' = join.txPackets w ++ firstn 1 (join.DownlinkFrames c')
           /\ join.savedDownlinkFrames w' =
                join.savedDownlinkFrames w
                ++ (if (List.length (join.DownlinkFrames c') <? 2)%nat then []
                    else [(storage.DevEUI ds, skipn 1 (join.DownlinkFrames c'))])).
Proof.
  intros ctx0 ds rxPacket phy w Hset.
  unfold join.tasks. cbn [join.runTasks].
  (* setDeviceGatewayRXInfo *)
  eapply ends_bind with
    (P := fun c1 w1 =>
            w1 = w
            /\ c1 = join.set_DeviceGatewayRXInfo
                      (map (join.deviceGatewayRXInfo env) (models.RXInfoSet rxPacket))
                      (join.newJoinContext ctx0 ds rxPacket phy)).
  { unfold ends. rewrite setDeviceGatewayRXInfo_run. cbn.
    destruct (models.RXInfoSet rxPacket) as [| rx rest]; [congruence |].
    cbn. split; reflexivity. }
  intros c1 w1 [-> ->].
  (* setTXInfo *)
  eapply ends_bind.
  { apply setTXInfo_ends. cbn.
    destruct (models.RXInfoSet rxPacket); [congruence | discriminate]. }
  cbn beta. intros c2 w2 [-> [rx1s [rx2s [-> [Hl1 [Hl2 [H1 [H2 Hp]]]]]]]].
  (* setToken *)
  eapply ends_bind with
    (P := fun c3 w3 =>
            (2 <= List.length (join.randReader w))%nat
            /\ join.randReader w3 = skipn 2 (join.randReader w)
            /\ join.txPackets w3 = join.txPackets w
            /\ join.savedDownlinkFrames w3 = join.savedDownlinkFrames w
            /\ join.PHYPayload_ c3 = phy
            /\ join.DeviceSession c3 = ds
            /\ join.DownlinkFrames c3 =
                 map (gw.set_Token_DownlinkId
                        (conv.uint32 (binary.BigEndian_Uint16 (firstn 2 (join.randReader w))))
                        (match context.ContextIDKey ctx0 with
                         | context.isUUID id => id
                         | _ => context.zeroUUID
                         end))
                     (map join.frameOf (rx1s ++ rx2s))).
  { unfold ends. rewrite setToken_run. cbn zeta.
    destruct (2 <=? List.length (join.randReader w))%nat eqn:Hlen; [| exact I].
    unfold join.rand_Read. rewrite Hlen. cbn.
    apply Nat.leb_le in Hlen. repeat split; auto. }
  intros c3 w3 [Hlen [Hr3 [Ht3 [Hs3 [Hphy [Hds Hf3]]]]]].
  (* setDownlinkFrame *)
  eapply ends_bind with
    (P := fun c4 w4 =>
            w4 = w3
            /\ join.DeviceSession c4 = join.DeviceSession c3
            /\ exists phyB,
                 join.DownlinkFrames c4 = map (gw.set_PhyPayload phyB) (join.DownlinkFrames c3)).
  { unfold ends. rewrite setDownlinkFrame_run.
    destruct (join.MarshalBinary env (join.PHYPayload_ c3)) as [e | phyB]; [exact I |].
    split; [reflexivity |]. split; [reflexivity |]. exists phyB. reflexivity. }
  intros c4 w4 [-> [Hds4 [phyB Hf4]]].
  (* sendJoinAcceptResponse *)
  eapply ends_bind; [apply sendJoinAcceptResponse_ends |].
  cbn beta. intros c5 w5 [-> [Hr5 [Ht5 Hs5]]].
  (* saveRemainingFrames *)
  eapply ends_bind; [apply saveRemainingFrames_ends |].
  cbn beta. intros c6 w6 [-> [Hr6 [Ht6 Hs6]]].
  unfold ends, join.ret.
  exists rx1s, rx2s, phyB.
  rewrite Hs6, Hs5, Hs3, Ht6, Ht5, Ht3, Hds4, Hds, Hr6, Hr5, Hr3.
  rewrite Hf4, Hf3.
  repeat split; auto.
Qed.

(** What a run of [Handle] that returns nil has built and done. *)
Lemma handle_ok :
  forall ctx0 ds (rxPacket : models.RXPacket PHYPayload) phy w c' w',
    join.handle env g ctx0 ds rxPacket phy w = (join.Ok tt, (c', w')) ->
    exists (rx1s rx2s : list gw.DownlinkTXInfo) (phyB : list byte),
      join.DownlinkFrames c' =
        map (gw.set_PhyPayload phyB)
          (map (gw.set_Token_DownlinkId
                  (conv.uint32 (binary.BigEndian_Uint16 (firstn 2 (join.randReader w))))
                  (match context.ContextIDKey ctx0 with
                   | context.isUUID id => id
                   | _ => context.zeroUUID
                   end))
               (map join.frameOf (rx1s ++ rx2s)))
      /\ List.length rx1s
         = (if (join.rxWindow g =? 0) || (join.rxWindow g =? 1) then 1%nat else 0%nat)
      /\ List.length rx2s
         = (if (join.rxWindow g =? 0) || (join.rxWindow g =? 2) then 1%nat else 0%nat)
      /\ Forall (isRX1 env) rx1s
      /\ Forall (isRX2 env) rx2s
      /\ Forall (powerRule env g) (rx1s ++ rx2s)
      /\ (2 <= List.length (join.randReader w))%nat
      /\ join.randReader w' = skipn 2 (join.randReader w)
      /\ join.txPackets w' = join.txPackets w ++ firstn 1 (join.DownlinkFrames c')
      /\ join.savedDownlinkFrames w' =
           join.savedDownlinkFrames w
           ++ (if (List.length (join.DownlinkFrames c') <? 2)%nat then []
               else [(storage.DevEUI ds, skipn 1 (join.DownlinkFrames c'))]).
Proof.
  intros ctx0 ds rxPacket phy w c' w' Hrun.
  destruct (models.RXInfoSet rxPacket) as [| rx rest] eqn:Hset.
  - rewrite (handle_empty ctx0 ds rxPacket phy w Hset) in Hrun. discriminate.
  - assert (Hne : models.RXInfoSet rxPacket <> []) by (rewrite Hset; discriminate).
    pose proof (handle_ends ctx0 ds rxPacket phy w Hne) as H.
    unfold ends in H. unfold join.handle in Hrun. rewrite Hrun in H. exact H.
Qed.

(** [Handle] that returns nil has handed the first candidate, and only it,
    to the gateway backend, and has saved the candidates after it. *)
Lemma Handle_sends_first_saves_rest :
  forall ctx0 ds (rxPacket : models.RXPacket PHYPayload) phy w c' w',
    join.handle env g ctx0 ds rxPacket phy w = (join.Ok tt, (c', w')) ->
    join.Handle env g ctx0 ds rxPacket phy w = (join.Ok tt, w')
    /\ join.txPackets w' = join.txPackets w ++ firstn 1 (join.DownlinkFrames c')
    /\ join.savedDownlinkFrames w' =
         join.savedDownlinkFrames w
         ++ (if (List.length (join.DownlinkFrames c') <? 2)%nat then []
             else [(storage.DevEUI ds, skipn 1 (join.DownlinkFrames c'))]).
Proof.
  intros ctx0 ds rxPacket phy w c' w' Hrun.
  destruct (handle_ok ctx0 ds rxPacket phy w c' w' Hrun)
    as [rx1s [rx2s [phyB [_ [_ [_ [_ [_ [_ [_ [_ [Ht Hs]]]]]]]]]]]].
  unfold join.Handle. rewrite Hrun. cbn [fst snd].
  split; [reflexivity |]. split; [exact Ht | exact Hs].
Qed.

(** A run of [Handle] on a non-empty RXInfoSet does not panic. *)
Lemma handle_no_panic :
  forall ctx0 ds (rxPacket : models.RXPacket PHYPayload) phy w,
    models.RXInfoSet rxPacket <> [] ->
    fst (join.handle env g ctx0 ds rxPacket phy w) <> join.Panic.
Proof.
  intros ctx0 ds rxPacket phy w Hne.
  pose proof (handle_ends ctx0 ds rxPacket phy w Hne) as H.
  unfold ends in H. unfold join.handle.
  destruct (join.runTasks _ _) as [[[] | e |] [c' w']]; cbn; [discriminate | discriminate | destruct H].
Qed.

End JoinTasks.

(** ** Package [join]: the claims *)

Lemma ends_no_panic :
  forall (PHYPayload : Type) (m : join.M PHYPayload unit)
         (s : join.joinContext PHYPayload * join.World)
         (P : join.joinContext PHYPayload -> join.World -> Prop),
    join_facts.ends m s P -> fst (m s) <> join.Panic.
Proof.
  intros PHYPayload m s P H. unfold join_facts.ends in H.
  destruct (m s) as [[[] | e |] [c' w']]; cbn; [discriminate | discriminate | destruct H].
Qed.

(** C10. A call of the join-accept [Handle] with an empty RXInfoSet: the
    first task returns an error, so does [Handle], no downlink frame is
    built and nothing reaches the gateway backend (the world is as before).
    With a non-empty RXInfoSet the first task leaves the converted first
    entry at index 0 of DeviceGatewayRXInfo, so neither [setTXInfoForRX1]
    nor [setTXInfoForRX2] indexes out of range, and [Handle] does not
    panic. *)
Theorem join_Handle_RXInfoSet_guard :
  forall (PHYPayload : Type) (env : join.Env PHYPayload) (g : join.Globals)
         (ctx0 : context.Context) (ds : storage.DeviceSession)
         (rxPacket : models.RXPacket PHYPayload) (phy : PHYPayload) (w : join.World),
    let c0 := join.newJoinContext ctx0 ds rxPacket phy in
    match models.RXInfoSet rxPacket with
    | [] =>
        join.setDeviceGatewayRXInfo env (c0, w)
          = (join.Err (errors.New "DeviceGatewayRXInfo is empty!"), (c0, w))
        /\ join.Handle env g ctx0 ds rxPacket phy w
           = (join.Err (errors.New "DeviceGatewayRXInfo is empty!"), w)
        /\ join.DownlinkFrames (fst (snd (join.handle env g ctx0 ds rxPacket phy w))) = []
        /\ join.txPackets (snd (join.Handle env g ctx0 ds rxPacket phy w)) = join.txPackets w
    | rx :: _ =>
        exists c1,
          join.setDeviceGatewayRXInfo env (c0, w) = (join.Ok tt, (c1, w))
          /\ nth_error (join.DeviceGatewayRXInfo c1) 0 = Some (join.deviceGatewayRXInfo env rx)
          /\ (forall frames w1,
                fst (join.setTXInfoForRX1 env g (join.set_DownlinkFrames frames c1, w1))
                <> join.Panic)
          /\ (forall frames w1,
                fst (join.setTXInfoForRX2 env g (join.set_DownlinkFrames frames c1, w1))
                <> join.Panic)
          /\ fst (join.Handle env g ctx0 ds rxPacket phy w) <> join.Panic
    end.
Proof.
  intros PHYPayload env g ctx0 ds rxPacket phy w c0.
  destruct (models.RXInfoSet rxPacket) as [| rx rest] eqn:Hset.
  - pose proof (handle_empty env g ctx0 ds rxPacket phy w Hset) as Hrun.
    unfold join.Handle. rewrite Hrun. cbn [fst snd].
    repeat split; try reflexivity.
    rewrite setDeviceGatewayRXInfo_run. subst c0. cbn. rewrite Hset. reflexivity.
  - assert (Hne : models.RXInfoSet rxPacket <> []) by (rewrite Hset; discriminate).
    exists (join.set_DeviceGatewayRXInfo
              (map (join.deviceGatewayRXInfo env) (rx :: rest)) c0).
    split; [| split; [| split; [| split]]].
    + rewrite setDeviceGatewayRXInfo_run. subst c0. cbn. rewrite Hset. reflexivity.
    + reflexivity.
    + intros frames w1. eapply ends_no_panic.
      apply setTXInfoForRX1_ends. cbn. discriminate.
    + intros frames w1. eapply ends_no_panic.
      apply setTXInfoForRX2_ends. cbn. discriminate.
    + unfold join.Handle. cbn [fst]. apply handle_no_panic. exact Hne.
Qed.

(** C7. When the join-accept [Handle] returns nil, the candidate list is
    the RX1 frame (present exactly when the configured RXWindow is 0 or 1)
    followed by the RX2 frame (present exactly when RXWindow is 0 or 2);
    the RX1 candidate's timing is DELAY with the delay JoinAcceptDelay1, the
    RX2 candidate's timing is DELAY with the delay JoinAcceptDelay2, and the
    RX2 frequency is the band's RX2Frequency default (as a uint32). *)
Theorem join_candidates_by_RXWindow :
  forall (PHYPayload : Type) (env : join.Env PHYPayload) (g : join.Globals)
         (ctx0 : context.Context) (ds : storage.DeviceSession)
         (rxPacket : models.RXPacket PHYPayload) (phy : PHYPayload) (w : join.World)
         (c' : join.joinContext PHYPayload) (w' : join.World),
    join.handle env g ctx0 ds rxPacket phy w = (join.Ok tt, (c', w')) ->
    let defaults := band.GetDefaults (join.Band env) in
    exists rx1s rx2s : list gw.DownlinkTXInfo,
      map gw.TxInfo (join.DownlinkFrames c') = map Some (rx1s ++ rx2s)
      /\ List.length rx1s
         = (if (join.rxWindow g =? 0) || (join.rxWindow g =? 1) then 1%nat else 0%nat)
      /\ List.length rx2s
         = (if (join.rxWindow g =? 0) || (join.rxWindow g =? 2) then 1%nat else 0%nat)
      /\ Forall (fun rx1 =>
                   gw.Timing rx1 = gw.DownlinkTiming_DELAY
                   /\ gw.TimingInfo rx1 =
                        Some (gw.DownlinkTXInfo_DelayTimingInfo
                                {| gw.Delay :=
                                     join.DurationProto env (band.JoinAcceptDelay1 defaults) |}))
                rx1s
      /\ Forall (fun rx2 =>
                   gw.Timing rx2 = gw.DownlinkTiming_DELAY
                   /\ gw.TimingInfo rx2 =
                        Some (gw.DownlinkTXInfo_DelayTimingInfo
                                {| gw.Delay :=
                                     join.DurationProto env (band.JoinAcceptDelay2 defaults) |})
                   /\ gw.Frequency rx2 = conv.uint32 (band.RX2Frequency defaults)
                   /\ (0 <= band.RX2Frequency defaults < 2 ^ 32 ->
                       gw.Frequency rx2 = band.RX2Frequency defaults))
                rx2s.
Proof.
  intros PHYPayload env g ctx0 ds rxPacket phy w c' w' Hrun defaults.
  destruct (handle_ok env g ctx0 ds rxPacket phy w c' w' Hrun)
    as [rx1s [rx2s [phyB [Hf [Hl1 [Hl2 [H1 [H2 _]]]]]]]].
  exists rx1s, rx2s. split; [| split; [exact Hl1 | split; [exact Hl2 | split]]].
  - rewrite Hf. rewrite !map_map. apply map_ext. intros tx. reflexivity.
  - exact H1.
  - eapply Forall_impl; [| exact H2].
    intros tx [Ht [Hi Hfreq]]. repeat split; auto.
    intros Hrange. rewrite Hfreq. apply uint32_small. exact Hrange.
Qed.

(** In the concrete setting, with both windows: the RX1 candidate with a
    delay of 5 s, then the RX2 candidate with a delay of 6 s on 869.525 MHz. *)
Lemma join_candidates_by_RXWindow_witness :
  join.handle example.env example.bothWindows example.ctx0 example.ds example.rxPacket
    example.phy example.world
  = (join.Ok tt, (example.finalContext, example.finalWorld))
  /\ exists rx1 rx2 : gw.DownlinkTXInfo,
       map gw.TxInfo (join.DownlinkFrames example.finalContext) = [Some rx1; Some rx2]
       /\ gw.TimingInfo rx1
          = Some (gw.DownlinkTXInfo_DelayTimingInfo
                    {| gw.Delay := {| gw.Seconds := 5; gw.Nanos := 0 |} |})
       /\ gw.TimingInfo rx2
          = Some (gw.DownlinkTXInfo_DelayTimingInfo
                    {| gw.Delay := {| gw.Seconds := 6; gw.Nanos := 0 |} |})
       /\ gw.Frequency rx2 = 869525000.
Proof.
  assert (Hrun :
    join.handle example.env example.bothWindows example.ctx0 example.ds example.rxPacket
      example.phy example.world
    = (join.Ok tt, (example.finalContext, example.finalWorld)))
    by (vm_compute; reflexivity).
  split; [exact Hrun |].
  destruct (join_candidates_by_RXWindow _ _ _ _ _ _ _ _ _ _ Hrun)
    as [rx1s [rx2s [Hmap [Hl1 [Hl2 [H1 H2]]]]]].
  vm_compute in Hl1, Hl2.
  destruct rx1s as [| rx1 [| ? ?]]; try discriminate Hl1.
  destruct rx2s as [| rx2 [| ? ?]]; try discriminate Hl2.
  exists rx1, rx2.
  apply Forall_inv in H1. apply Forall_inv in H2.
  destruct H1 as [_ Hi1]. destruct H2 as [_ [Hi2 [_ Hfreq]]].
  split; [exact Hmap |].
  split; [exact Hi1 |].
  split; [exact Hi2 |].
  apply Hfreq. vm_compute. split; [discriminate | reflexivity].
Defined.

(** C8, as the code has it. When the join-accept [Handle] returns nil,
    every candidate (RX1 or RX2) has a TX info whose power is the configured
    DownlinkTXPower converted to int32 whenever that value is not -1 (a
    negative value other than -1 included), and is the band's default
    downlink TX power for the candidate's frequency, converted to int32,
    when the configured value is -1. A configured value other than -1 in
    the int32 range is the power as it is. *)
Theorem join_candidates_TX_power :
  forall (PHYPayload : Type) (env : join.Env PHYPayload) (g : join.Globals)
         (ctx0 : context.Context) (ds : storage.DeviceSession)
         (rxPacket : models.RXPacket PHYPayload) (phy : PHYPayload) (w : join.World)
         (c' : join.joinContext PHYPayload) (w' : join.World),
    join.handle env g ctx0 ds rxPacket phy w = (join.Ok tt, (c', w')) ->
    Forall (fun frame =>
              exists tx,
                gw.TxInfo frame = Some tx
                /\ gw.Power tx =
                     (if join.downlinkTXPower g =? -1
                      then conv.int32
                             (band.GetDownlinkTXPower (join.Band env) (gw.Frequency tx))
                      else conv.int32 (join.downlinkTXPower g))
                /\ (join.downlinkTXPower g <> -1 ->
                    - 2 ^ 31 <= join.downlinkTXPower g < 2 ^ 31 ->
                    gw.Power tx = join.downlinkTXPower g))
           (join.DownlinkFrames c').
Proof.
  intros PHYPayload env g ctx0 ds rxPacket phy w c' w' Hrun.
  destruct (handle_ok env g ctx0 ds rxPacket phy w c' w' Hrun)
    as [rx1s [rx2s [phyB [Hf [_ [_ [_ [_ [Hp _]]]]]]]]].
  rewrite Hf. rewrite !Forall_map.
  eapply Forall_impl; [| exact Hp].
  intros tx Hrule. exists tx. cbn. unfold join_facts.powerRule in Hrule.
  split; [reflexivity |]. split; [exact Hrule |].
  intros Hne Hrange. rewrite Hrule.
  destruct (join.downlinkTXPower g =? -1) eqn:E.
  - apply Z.eqb_eq in E. contradiction.
  - apply int32_small. exact Hrange.
Qed.

(** In the concrete setting, with a configured power of -2 dBm: both
    candidates carry -2. *)
Lemma join_candidates_TX_power_witness :
  Forall (fun frame =>
            exists tx, gw.TxInfo frame = Some tx /\ gw.Power tx = -2)
         (join.DownlinkFrames example.finalContext_minusTwo).
Proof.
  assert (Hrun :
    join.handle example.env example.minusTwo_dBm example.ctx0 example.ds example.rxPacket
      example.phy example.world
    = (join.Ok tt, (example.finalContext_minusTwo, example.finalWorld_minusTwo)))
    by (vm_compute; reflexivity).
  eapply Forall_impl; [| exact (join_candidates_TX_power _ _ _ _ _ _ _ _ _ _ Hrun)].
  intros frame [tx [Htx [_ Hsmall]]]. exists tx. split; [exact Htx |].
  apply Hsmall; vm_compute; [discriminate | split; [discriminate | reflexivity]].
Defined.

(** C8 as stated fails: with a configured DownlinkTXPower of -2 (below 0,
    so the claim asks for the band default, 14 here) both candidates carry
    the power -2. *)
Lemma join_candidates_TX_power_counterexample :
  join.handle example.env example.minusTwo_dBm example.ctx0 example.ds example.rxPacket
    example.phy example.world
  = (join.Ok tt, (example.finalContext_minusTwo, example.finalWorld_minusTwo))
  /\ map (fun frame => option_map gw.Power (gw.TxInfo frame))
         (join.DownlinkFrames example.finalContext_minusTwo)
     = [Some (-2); Some (-2)]
  /\ ~ Forall (fun frame =>
                 exists tx,
                   gw.TxInfo frame = Some tx
                   /\ gw.Power tx =
                        (if 0 <=? join.downlinkTXPower example.minusTwo_dBm
                         then join.downlinkTXPower example.minusTwo_dBm
                         else band.GetDownlinkTXPower (join.Band example.env)
                                (gw.Frequency tx)))
              (join.DownlinkFrames example.finalContext_minusTwo).
Proof.
  split; [vm_compute; reflexivity |].
  split; [vm_compute; reflexivity |].
  intros H. vm_compute in H. apply Forall_inv in H.
  destruct H as [tx [Htx Hpower]].
  injection Htx as <-. discriminate Hpower.
Qed.

(** C6, as the code has it. When the join-accept [Handle] returns nil, the
    entropy was read once, for two bytes, and every candidate frame carries
    the same token, the big-endian 16-bit value of those two bytes, which is
    below 2^16; every candidate's downlink id is the id under the context's
    key when that is a UUID, and the zero UUID otherwise. *)
Theorem join_candidates_share_one_token :
  forall (PHYPayload : Type) (env : join.Env PHYPayload) (g : join.Globals)
         (ctx0 : context.Context) (ds : storage.DeviceSession)
         (rxPacket : models.RXPacket PHYPayload) (phy : PHYPayload) (w : join.World)
         (c' : join.joinContext PHYPayload) (w' : join.World),
    join.handle env g ctx0 ds rxPacket phy w = (join.Ok tt, (c', w')) ->
    let token := binary.BigEndian_Uint16 (firstn 2 (join.randReader w)) in
    let downID :=
      match context.ContextIDKey ctx0 with
      | context.isUUID id => id
      | _ => context.zeroUUID
      end in
    (2 <= List.length (join.randReader w))%nat
    /\ join.randReader w' = skipn 2 (join.randReader w)
    /\ 0 <= token < 2 ^ 16
    /\ Forall (fun frame => gw.Token frame = token /\ gw.DownlinkId frame = downID)
              (join.DownlinkFrames c').
Proof.
  intros PHYPayload env g ctx0 ds rxPacket phy w c' w' Hrun token downID.
  destruct (handle_ok env g ctx0 ds rxPacket phy w c' w' Hrun)
    as [rx1s [rx2s [phyB [Hf [_ [_ [_ [_ [_ [Hlen [Hrand _]]]]]]]]]]].
  pose proof (BigEndian_Uint16_range (firstn 2 (join.randReader w))) as Hrange.
  fold token in Hrange.
  split; [exact Hlen |]. split; [exact Hrand |]. split; [exact Hrange |].
  rewrite Hf. rewrite !Forall_map. apply Forall_forall. intros tx _. cbn.
  split; [| reflexivity].
  fold token. apply uint32_small. lia.
Qed.

(** In the concrete setting, with both windows: both candidates carry the
    token 0x1234 and the context id, and two bytes of entropy are left. *)
Lemma join_candidates_share_one_token_witness :
  Forall (fun frame => gw.Token frame = 4660 /\ gw.DownlinkId frame = example.ctxID)
         (join.DownlinkFrames example.finalContext)
  /\ join.randReader example.finalWorld = [x56; x78].
Proof.
  assert (Hrun :
    join.handle example.env example.bothWindows example.ctx0 example.ds example.rxPacket
      example.phy example.world
    = (join.Ok tt, (example.finalContext, example.finalWorld)))
    by (vm_compute; reflexivity).
  destruct (join_candidates_share_one_token _ _ _ _ _ _ _ _ _ _ Hrun)
    as [_ [Hrand [_ Hall]]].
  split; [exact Hall | exact Hrand].
Defined.

(** C6 as stated fails: with the entropy 0x12 0x34 0x56 0x78 and both
    windows, a fresh draw for each candidate would give the tokens 0x1234
    and 0x5678; the handler gives 0x1234 to both, and leaves 0x56 0x78
    unread. *)
Lemma join_candidates_fresh_token_counterexample :
  join.handle example.env example.bothWindows example.ctx0 example.ds example.rxPacket
    example.phy example.world
  = (join.Ok tt, (example.finalContext, example.finalWorld))
  /\ map gw.Token (join.DownlinkFrames example.finalContext) = [4660; 4660]
  /\ scheduler_spec.freshTokens
       (List.length (join.DownlinkFrames example.finalContext))
       (join.randReader example.world)
     = [4660; 22136]
  /\ map gw.Token (join.DownlinkFrames example.finalContext)
     <> scheduler_spec.freshTokens
          (List.length (join.DownlinkFrames example.finalContext))
          (join.randReader example.world)
  /\ join.randReader example.finalWorld = [x56; x78].
Proof.
  split; [vm_compute; reflexivity |].
  split; [vm_compute; reflexivity |].
  split; [vm_compute; reflexivity |].
  split; [vm_compute; discriminate | vm_compute; reflexivity].
Qed.

(** ** Package [maccommand] *)

Section MACCommand.

Import maccommand_test.

Variable cat : maccommand.Catalogue.

(** The model agrees with every case of the two test tables. *)
Lemma linkADRAnsTable_passes : Forall (linkADRAnsPasses cat) linkADRAnsTable.
Proof.
  unfold linkADRAnsTable.
  repeat (apply Forall_cons; [unfold linkADRAnsPasses; cbn; repeat split; reflexivity |]).
  apply Forall_nil.
Qed.

Lemma pingSlotChannelAnsTable_passes :
  Forall (pingSlotChannelAnsPasses cat) pingSlotChannelAnsTable.
Proof.
  unfold pingSlotChannelAnsTable.
  repeat (apply Forall_cons; [unfold pingSlotChannelAnsPasses; cbn; repeat split; reflexivity |]).
  apply Forall_nil.
Qed.

(** [Handle] on the blocks that the test builds for LinkADR. *)
Lemma Handle_LinkADRAns_run :
  forall (ds : storage.DeviceSession) (req : lorawan.LinkADRReqPayload)
         (ans : lorawan.LinkADRAnsPayload),
    maccommand.Handle cat ds (answerLinkADRAns ans) (Some (pendingLinkADRReq req)) =
      if lorawan.ChannelMaskACK ans && lorawan.DataRateACK ans && lorawan.PowerACK ans
      then ([], None, maccommand.adoptLinkADR req ds)
      else if negb (lorawan.PowerACK ans)
           then if 0 <? storage.TXPowerIndex ds
                then ([], None, maccommand.lowerMaxTXPower (storage.TXPowerIndex ds) ds)
                else if lorawan.TXPower req =? 0
                then ([], None, maccommand.raiseMinTXPower ds)
                else ([], None, maccommand.lowerMaxTXPower (lorawan.TXPower req) ds)
           else ([], None,
                 maccommand.partialLinkADR cat ds req
                   (lorawan.ChannelMaskACK ans) (lorawan.DataRateACK ans)).
Proof.
  intros ds req ans. unfold maccommand.Handle, maccommand.handleLinkADRAns. cbn.
  rewrite !andb_true_r. reflexivity.
Qed.

End MACCommand.

(** C1. For every device session with a pending LinkADRReq block and an
    incoming LinkADRAns whose ChannelMaskACK, DataRateACK and PowerACK are
    all true, [Handle] returns no error and no response block, and in the
    session afterwards EnabledUplinkChannels is the channel set of the
    pending ChMask, DR the pending DataRate, TXPowerIndex the pending
    TXPower, and NbTrans the pending NbRep when NbRep > 0 (and as before
    otherwise). *)
Theorem Handle_LinkADRAns_all_acked :
  forall (cat : maccommand.Catalogue) (ds : storage.DeviceSession)
         (req : lorawan.LinkADRReqPayload) (ans : lorawan.LinkADRAnsPayload),
    lorawan.ChannelMaskACK ans = true ->
    lorawan.DataRateACK ans = true ->
    lorawan.PowerACK ans = true ->
    let r :=
      maccommand.Handle cat ds
        (maccommand_test.answerLinkADRAns ans)
        (Some (maccommand_test.pendingLinkADRReq req)) in
    maccommand.err r = None
    /\ maccommand.resp r = []
    /\ storage.EnabledUplinkChannels (maccommand.session r)
       = maccommand.enabledChannels (lorawan.ChMask req)
    /\ storage.DR (maccommand.session r) = lorawan.DataRate req
    /\ storage.TXPowerIndex (maccommand.session r) = lorawan.TXPower req
    /\ (0 < lorawan.NbRep (lorawan.Redundancy_ req) ->
        storage.NbTrans (maccommand.session r) = lorawan.NbRep (lorawan.Redundancy_ req))
    /\ (lorawan.NbRep (lorawan.Redundancy_ req) <= 0 ->
        storage.NbTrans (maccommand.session r) = storage.NbTrans ds).
Proof.
  intros cat ds req ans Hc Hd Hp r. subst r.
  rewrite Handle_LinkADRAns_run, Hc, Hd, Hp. cbn.
  repeat split.
  - intros Hpos. apply Z.ltb_lt in Hpos. rewrite Hpos. reflexivity.
  - intros Hle. destruct (0 <? lorawan.NbRep (lorawan.Redundancy_ req)) eqn:E;
      [apply Z.ltb_lt in E; lia | reflexivity].
Qed.

(** Scenario S1, the first case of the test table. *)
Lemma Handle_LinkADRAns_all_acked_witness :
  let r :=
    maccommand.Handle maccommand_test.idleCatalogue
      (maccommand_test.adrSession [0; 1] 0 0 0 0 0)
      (maccommand_test.answerLinkADRAns (maccommand_test.linkADRAns true true true))
      (Some (maccommand_test.pendingLinkADRReq
               (maccommand_test.linkADRReq maccommand_test.chMask_ttt 5 3 2))) in
  maccommand.err r = None
  /\ maccommand.resp r = []
  /\ maccommand.session r = maccommand_test.adrSession [0; 1; 2] 3 0 0 2 5.
Proof.
  destruct (Handle_LinkADRAns_all_acked maccommand_test.idleCatalogue
              (maccommand_test.adrSession [0; 1] 0 0 0 0 0)
              (maccommand_test.linkADRReq maccommand_test.chMask_ttt 5 3 2)
              (maccommand_test.linkADRAns true true true)
              eq_refl eq_refl eq_refl) as [He [Hr _]].
  split; [exact He |]. split; [exact Hr | reflexivity].
Defined.

(** C2. For every block whose CID is not one of the device-initiated ones
    (DeviceTimeReq, LinkCheckReq, DeviceModeInd, ResetInd, RekeyInd,
    RejoinParamSetupAns) and for which nothing is pending, [Handle] returns
    the error "expected pending mac-command", no response block, and the
    device session as it was. *)
Theorem Handle_without_pending :
  forall (cat : maccommand.Catalogue) (ds : storage.DeviceSession)
         (block : storage.MACCommandBlock),
    ~ In (storage.CID block)
         [lorawan.DeviceTimeReq; lorawan.LinkCheckReq; lorawan.DeviceModeInd;
          lorawan.ResetInd; lorawan.RekeyInd; lorawan.RejoinParamSetupAns] ->
    let r := maccommand.Handle cat ds block None in
    maccommand_test.errorText (maccommand.err r) = Some "expected pending mac-command"
    /\ maccommand.resp r = []
    /\ maccommand.session r = ds.
Proof.
  intros cat ds block Hcid r. subst r. unfold maccommand.Handle.
  assert (E : maccommand.deviceInitiated (storage.CID block) = false).
  { destruct (storage.CID block); try reflexivity; exfalso; apply Hcid; cbn; tauto. }
  rewrite E. cbn. repeat split.
Qed.

(** Scenario S4, the last case of the LinkADRAns table. *)
Lemma Handle_without_pending_witness :
  let r :=
    maccommand.Handle maccommand_test.idleCatalogue
      (maccommand_test.adrSession [0; 1] 0 0 0 0 0)
      (maccommand_test.answerLinkADRAns (maccommand_test.linkADRAns true true true))
      None in
  maccommand_test.errorText (maccommand.err r) = Some "expected pending mac-command"
  /\ maccommand.resp r = []
  /\ maccommand.session r = maccommand_test.adrSession [0; 1] 0 0 0 0 0.
Proof.
  apply (Handle_without_pending maccommand_test.idleCatalogue
           (maccommand_test.adrSession [0; 1] 0 0 0 0 0)
           (maccommand_test.answerLinkADRAns (maccommand_test.linkADRAns true true true))).
  cbn. intros [H | [H | [H | [H | [H | [H | []]]]]]]; discriminate H.
Defined.



(** C4, as the test has it. For every device session whose TXPowerIndex is
    0, with a pending LinkADRReq whose TXPower is 0 and a LinkADRAns whose
    PowerACK is false, [Handle] returns no error and leaves TXPowerIndex = 1
    and MinSupportedTXPowerIndex = 1. *)
Theorem Handle_LinkADRAns_power_nack_at_zero :
  forall (cat : maccommand.Catalogue) (ds : storage.DeviceSession)
         (req : lorawan.LinkADRReqPayload) (ans : lorawan.LinkADRAnsPayload),
    lorawan.PowerACK ans = false ->
    storage.TXPowerIndex ds = 0 ->
    lorawan.TXPower req = 0 ->
    let r :=
      maccommand.Handle cat ds
        (maccommand_test.answerLinkADRAns ans)
        (Some (maccommand_test.pendingLinkADRReq req)) in
    maccommand.err r = None
    /\ storage.TXPowerIndex (maccommand.session r) = 1
    /\ storage.MinSupportedTXPowerIndex (maccommand.session r) = 1.
Proof.
  intros cat ds req ans Hp Hi Hk r. subst r.
  rewrite Handle_LinkADRAns_run, Hp, Hi, Hk, !andb_false_r. cbn.
  repeat split.
Qed.

(** Scenario S3, the third case of the test table. *)
Lemma Handle_LinkADRAns_power_nack_at_zero_witness :
  let r :=
    maccommand.Handle maccommand_test.idleCatalogue
      (maccommand_test.adrSession [0; 1] 0 0 0 0 0)
      (maccommand_test.answerLinkADRAns (maccommand_test.linkADRAns true true false))
      (Some (maccommand_test.pendingLinkADRReq
               (maccommand_test.linkADRReq maccommand_test.chMask_ttt 5 0 2))) in
  maccommand.err r = None
  /\ storage.TXPowerIndex (maccommand.session r) = 1
  /\ storage.MinSupportedTXPowerIndex (maccommand.session r) = 1.
Proof.
  exact (Handle_LinkADRAns_power_nack_at_zero maccommand_test.idleCatalogue
           (maccommand_test.adrSession [0; 1] 0 0 0 0 0)
           (maccommand_test.linkADRReq maccommand_test.chMask_ttt 5 0 2)
           (maccommand_test.linkADRAns true true false)
           eq_refl eq_refl eq_refl).
Defined.

(** C4 as stated fails, on the second case of the test table: the session
    has TXPowerIndex 0, the pending request asks for TXPower 3, the answer
    is a Power NACK, and afterwards TXPowerIndex and
    MinSupportedTXPowerIndex are still 0 (MaxSupportedTXPowerIndex is 2). *)
Lemma Handle_LinkADRAns_power_nack_at_zero_counterexample :
  let ds := maccommand_test.adrSession [0; 1] 0 0 0 0 0 in
  let r :=
    maccommand.Handle maccommand_test.idleCatalogue ds
      (maccommand_test.answerLinkADRAns (maccommand_test.linkADRAns true true false))
      (Some (maccommand_test.pendingLinkADRReq
               (maccommand_test.linkADRReq maccommand_test.chMask_ttt 5 3 2))) in
  storage.TXPowerIndex ds = 0
  /\ storage.TXPowerIndex (maccommand.session r) = 0
  /\ storage.MinSupportedTXPowerIndex (maccommand.session r) = 0
  /\ storage.TXPowerIndex (maccommand.session r) <> 1
  /\ storage.MinSupportedTXPowerIndex (maccommand.session r) <> 1
  /\ maccommand.session r = maccommand_test.adrSession [0; 1] 0 0 2 0 0.
Proof. cbn. repeat split; discriminate. Qed.

(** C5. For every device session with a pending PingSlotChannelReq,
    [Handle] on a PingSlotChannelAns with DataRateOK and ChannelFrequencyOK
    both true sets PingSlotFrequency and PingSlotDR to the Frequency and DR
    of the pending request; when either bit is false the session is left as
    it was. No error is returned either way. *)
Theorem Handle_PingSlotChannelAns :
  forall (cat : maccommand.Catalogue) (ds : storage.DeviceSession)
         (req : lorawan.PingSlotChannelReqPayload) (ans : lorawan.PingSlotChannelAnsPayload),
    let r :=
      maccommand.Handle cat ds
        (maccommand_test.answerPingSlotChannelAns ans)
        (Some (maccommand_test.pendingPingSlotChannelReq req)) in
    maccommand.err r = None
    /\ (if lorawan.DataRateOK ans && lorawan.ChannelFrequencyOK ans
        then storage.PingSlotFrequency (maccommand.session r) = lorawan.Frequency req
             /\ storage.PingSlotDR (maccommand.session r) = lorawan.DR req
        else maccommand.session r = ds).
Proof.
  intros cat ds req ans r. subst r.
  unfold maccommand.Handle, maccommand.handlePingSlotChannelAns. cbn.
  rewrite !andb_true_r.
  destruct (lorawan.DataRateOK ans && lorawan.ChannelFrequencyOK ans); cbn; repeat split.
Qed.

(** ** Package [join]: every way a run of [Handle] can end *)

Section JoinOutcomes.

Import join_outcomes.

Context {PHYPayload : Type}.
Variable env : join.Env PHYPayload.
Variable g : join.Globals.

Ltac run :=
  unfold join.bind, join.get, join.ret, join.throw, join.orWrap, join.index, join.io,
    join.put_DownlinkFrames, join.put_DeviceGatewayRXInfo in *;
  cbn [fst snd] in *.

Lemma outcome_bind :
  forall (m k : join.M PHYPayload unit) (s : join.joinContext PHYPayload * join.World)
         (P Q : join.joinContext PHYPayload -> join.World -> Prop)
         (E : errors.error -> join.joinContext PHYPayload -> join.World -> Prop),
    outcome m s P E ->
    (forall c' w', P c' w' -> outcome k (c', w') Q E) ->
    outcome (join.bind m (fun _ => k)) s Q E.
Proof.
  intros m k s P Q E Hm Hk. unfold outcome, join.bind in *.
  destruct (m s) as [[[] | e |] [c' w']]; [apply Hk; exact Hm | exact Hm | exact Hm].
Qed.

Lemma outcome_weaken :
  forall (m : join.M PHYPayload unit) (s : join.joinContext PHYPayload * join.World)
         (P Q : join.joinContext PHYPayload -> join.World -> Prop)
         (E F : errors.error -> join.joinContext PHYPayload -> join.World -> Prop),
    outcome m s P E ->
    (forall c' w', P c' w' -> Q c' w') ->
    (forall e c' w', E e c' w' -> F e c' w') ->
    outcome m s Q F.
Proof.
  intros m s P Q E F Hm HPQ HEF. unfold outcome in *.
  destruct (m s) as [[[] | e |] [c' w']]; auto.
Qed.

Lemma setTXInfoForRX1_outcome :
  forall (c : join.joinContext PHYPayload) (w : join.World) rxInfo rest phy ds w0,
    join.DeviceGatewayRXInfo c = rxInfo :: rest ->
    (join.rxWindow g =? 0) || (join.rxWindow g =? 1) = true ->
    outcome (join.setTXInfoForRX1 env g) (c, w)
      (fun c' w' =>
         w' = w
         /\ exists tx,
              c' = join.set_DownlinkFrames (join.DownlinkFrames c ++ [join.frameOf tx]) c
              /\ sentThrough rxInfo tx /\ rx1Radio env (join.RXPacket c) tx)
      (fun e c' w' =>
         c' = c /\ w' = w /\ failure env g (join.RXPacket c) phy ds w0 c' w' e
         /\ forall e0, e <> errors.Wrap e0 "save downlink-frames error").
Proof.
  intros c w rxInfo rest phy ds w0 Hinfo Hwin.
  unfold outcome, join.setTXInfoForRX1. run. rewrite Hinfo. cbn [nth_error].
  destruct (band.GetRX1DataRateIndex _ _ _) as [e | rx1DR] eqn:Hidx; cbn.
  { repeat split; [eapply fail_rx1_index; eassumption | discriminate]. }
  unfold helpers.SetDownlinkTXInfoDataRate.
  destruct (join.GetDataRate env rx1DR) as [e | m] eqn:Hdr; cbn.
  { repeat split; [eapply fail_rx1_datarate; eassumption | discriminate]. }
  destruct (band.GetRX1FrequencyForUplinkFrequency _ _) as [e | freq] eqn:Hfreq; cbn.
  { repeat split; [eapply fail_rx1_frequency; eassumption | discriminate]. }
  split; [reflexivity |].
  eexists. split; [reflexivity |]. split.
  - unfold sentThrough, join.setDelay, join.setTXPower.
    destruct (negb (join.downlinkTXPower g =? -1)); cbn; repeat split.
  - exists rx1DR, m, freq. unfold join.setDelay, join.setTXPower.
    destruct (negb (join.downlinkTXPower g =? -1)); cbn; repeat split; assumption.
Qed.

Lemma setTXInfoForRX2_outcome :
  forall (c : join.joinContext PHYPayload) (w : join.World) rxInfo rest phy ds w0,
    join.DeviceGatewayRXInfo c = rxInfo :: rest ->
    (join.rxWindow g =? 0) || (join.rxWindow g =? 2) = true ->
    outcome (join.setTXInfoForRX2 env g) (c, w)
      (fun c' w' =>
         w' = w
         /\ exists tx,
              c' = join.set_DownlinkFrames (join.DownlinkFrames c ++ [join.frameOf tx]) c
              /\ sentThrough rxInfo tx /\ rx2Radio env tx)
      (fun e c' w' =>
         c' = c /\ w' = w /\ failure env g (join.RXPacket c) phy ds w0 c' w' e
         /\ forall e0, e <> errors.Wrap e0 "save downlink-frames error").
Proof.
  intros c w rxInfo rest phy ds w0 Hinfo Hwin.
  unfold outcome, join.setTXInfoForRX2. run. rewrite Hinfo. cbn [nth_error].
  unfold helpers.SetDownlinkTXInfoDataRate.
  destruct (join.GetDataRate env _) as [e | m] eqn:Hdr; cbn.
  { repeat split; [eapply fail_rx2_datarate; eassumption | discriminate]. }
  split; [reflexivity |].
  eexists. split; [reflexivity |]. split.
  - unfold sentThrough, join.setDelay, join.setTXPower.
    destruct (negb (join.downlinkTXPower g =? -1)); cbn; repeat split.
  - exists m. unfold join.setDelay, join.setTXPower.
    destruct (negb (join.downlinkTXPower g =? -1)); cbn; repeat split; assumption.
Qed.

Lemma setTXInfo_outcome :
  forall (c : join.joinContext PHYPayload) (w : join.World) rxInfo rest phy ds w0,
    join.DeviceGatewayRXInfo c = rxInfo :: rest ->
    outcome (join.setTXInfo env g) (c, w)
      (fun c' w' =>
         w' = w
         /\ exists rx1s rx2s : list gw.DownlinkTXInfo,
              c' = join.set_DownlinkFrames
                     (join.DownlinkFrames c ++ map join.frameOf (rx1s ++ rx2s)) c
              /\ List.length rx1s
                 = (if (join.rxWindow g =? 0) || (join.rxWindow g =? 1) then 1%nat else 0%nat)
              /\ List.length rx2s
                 = (if (join.rxWindow g =? 0) || (join.rxWindow g =? 2) then 1%nat else 0%nat)
              /\ Forall (sentThrough rxInfo) (rx1s ++ rx2s)
              /\ Forall (rx1Radio env (join.RXPacket c)) rx1s
              /\ Forall (rx2Radio env) rx2s)
      (fun e c' w' =>
         w' = w /\ failure env g (join.RXPacket c) phy ds w0 c' w' e
         /\ forall e0, e <> errors.Wrap e0 "save downlink-frames error").
Proof.
  intros c w rxInfo rest phy ds w0 Hinfo. unfold join.setTXInfo.
  apply outcome_bind with
    (P := fun c1 w1 =>
            w1 = w
            /\ exists rx1s,
                 c1 = join.set_DownlinkFrames
                        (join.DownlinkFrames c ++ map join.frameOf rx1s) c
                 /\ List.length rx1s
                    = (if (join.rxWindow g =? 0) || (join.rxWindow g =? 1)
                       then 1%nat else 0%nat)
                 /\ Forall (sentThrough rxInfo) rx1s
                 /\ Forall (rx1Radio env (join.RXPacket c)) rx1s).
  - destruct ((join.rxWindow g =? 0) || (join.rxWindow g =? 1)) eqn:Hwin.
    + eapply outcome_weaken;
        [apply (setTXInfoForRX1_outcome c w rxInfo rest phy ds w0 Hinfo Hwin) | |].
      * intros c' w' [Hw [tx [Hc [Hs Hr]]]]. split; [exact Hw |].
        exists [tx]. cbn [map]. repeat split; auto.
      * intros e c' w' [_ [Hw Hf]]. split; assumption.
    + unfold outcome, join.ret. split; [reflexivity |].
      exists []. cbn [map]. rewrite app_nil_r.
      repeat split; auto. destruct c; reflexivity.
  - intros c1 w1 [-> [rx1s [-> [Hlen [Hs1 Hr1]]]]].
    destruct ((join.rxWindow g =? 0) || (join.rxWindow g =? 2)) eqn:Hwin.
    + eapply outcome_weaken;
        [apply (setTXInfoForRX2_outcome _ w rxInfo rest phy ds w0); [exact Hinfo | exact Hwin] | |].
      * intros c' w' [Hw [tx [Hc [Hs Hr]]]]. split; [exact Hw |].
        exists rx1s, [tx]. subst c'. cbn.
        rewrite map_app, <- app_assoc. cbn [map].
        repeat split; auto.
        apply Forall_app; split; auto.
      * intros e c' w' [_ [Hw Hf]]. split; assumption.
    + unfold outcome, join.ret. split; [reflexivity |].
      exists rx1s, []. rewrite app_nil_r.
      repeat split; auto.
Qed.

Lemma sendJoinAcceptResponse_outcome :
  forall (c : join.joinContext PHYPayload) (w : join.World),
    outcome (join.sendJoinAcceptResponse env) (c, w)
      (fun c' w' =>
         c' = c
         /\ join.txPackets w' = join.txPackets w ++ firstn 1 (join.DownlinkFrames c)
         /\ join.savedDownlinkFrames w' = join.savedDownlinkFrames w)
      (fun e c' w' =>
         c' = c /\ w' = w
         /\ exists e0 frame rest,
              join.DownlinkFrames c = frame :: rest
              /\ join.SendTXPacket_err env w frame = Some e0
              /\ e = errors.Wrap e0 "send downlink frame error").
Proof.
  intros c w. unfold outcome, join.sendJoinAcceptResponse. run.
  destruct (join.DownlinkFrames c) as [| frame rest]; cbn.
  { rewrite app_nil_r. repeat split. }
  unfold join.SendTXPacket.
  destruct (join.SendTXPacket_err env w frame) as [e0 |] eqn:Hsend; cbn.
  { repeat split. exists e0, frame, rest. repeat split. exact Hsend. }
  unfold join.LogDownlinkFrameForGateway, join.LogDownlinkFrameForDevEUI. cbn.
  destruct (join.LogDownlinkFrameForGateway_err env _ frame); cbn;
    destruct (join.LogDownlinkFrameForDevEUI_err env _ _ frame); repeat split.
Qed.

Lemma saveRemainingFrames_outcome :
  forall (c : join.joinContext PHYPayload) (w : join.World),
    outcome (join.saveRemainingFrames env) (c, w)
      (fun c' w' =>
         c' = c
         /\ join.txPackets w' = join.txPackets w
         /\ join.savedDownlinkFrames w' =
              join.savedDownlinkFrames w
              ++ (if (List.length (join.DownlinkFrames c) <? 2)%nat then []
                  else [(storage.DevEUI (join.DeviceSession c),
                         skipn 1 (join.DownlinkFrames c))]))
      (fun e c' w' =>
         c' = c /\ w' = w
         /\ exists e0 frame rest,
              join.DownlinkFrames c = frame :: rest
              /\ rest <> []
              /\ join.SaveDownlinkFrames_err env w (storage.DevEUI (join.DeviceSession c)) rest
                 = Some e0
              /\ e = errors.Wrap e0 "save downlink-frames error").
Proof.
  intros c w. unfold outcome, join.saveRemainingFrames. run.
  destruct (List.length (join.DownlinkFrames c) <? 2)%nat eqn:Hlen; cbn.
  { rewrite app_nil_r. repeat split. }
  apply Nat.ltb_ge in Hlen.
  unfold join.SaveDownlinkFrames.
  destruct (join.DownlinkFrames c) as [| frame rest] eqn:Hfs; [cbn in Hlen; lia |].
  cbn [skipn].
  destruct (join.SaveDownlinkFrames_err env w _ rest) as [e0 |] eqn:Hsave; cbn.
  - repeat split. exists e0, frame, rest. repeat split; [| exact Hsave].
    intros ->. cbn in Hlen. lia.
  - repeat split.
Qed.

(** An error other than the one of [saveRemainingFrames], with nothing sent
    and nothing saved. *)
Lemma errorEffects_before_send :
  forall ctx0 (rxPacket : models.RXPacket PHYPayload) w e c' w',
    (forall e0, e <> errors.Wrap e0 "save downlink-frames error") ->
    join.txPackets w' = join.txPackets w ->
    join.savedDownlinkFrames w' = join.savedDownlinkFrames w ->
    errorEffects env g ctx0 rxPacket w e c' w'.
Proof.
  intros ctx0 rxPacket w e c' w' Hne Ht Hs. split; [exact Hs |]. left. split; assumption.
Qed.

(** The whole of [Handle] on a non-empty RXInfoSet: what it has built and
    done when it returns nil, and what has failed and what was done when it
    returns an error. *)
Lemma handle_outcome :
  forall ctx0 ds (rxPacket : models.RXPacket PHYPayload) phy w rx rest,
    models.RXInfoSet rxPacket = rx :: rest ->
    outcome (join.runTasks (join.tasks env g)) (join.newJoinContext ctx0 ds rxPacket phy, w)
      (fun c' w' =>
         exists (rx1s rx2s : list gw.DownlinkTXInfo) (phyB : list byte),
           join.MarshalBinary env phy = inr phyB
           /\ join.DeviceGatewayRXInfo c'
              = map (join.deviceGatewayRXInfo env) (models.RXInfoSet rxPacket)
           /\ join.DownlinkFrames c' =
                map (gw.set_PhyPayload phyB)
                  (map (gw.set_Token_DownlinkId
                          (conv.uint32
                             (binary.BigEndian_Uint16 (firstn 2 (join.randReader w))))
                          (match context.ContextIDKey ctx0 with
                           | context.isUUID id => id
                           | _ => context.zeroUUID
                           end))
                       (map join.frameOf (rx1s ++ rx2s)))
           /\ List.length rx1s
              = (if (join.rxWindow g =? 0) || (join.rxWindow g =? 1) then 1%nat else 0%nat)
           /\ List.length rx2s
              = (if (join.rxWindow g =? 0) || (join.rxWindow g =? 2) then 1%nat else 0%nat)
           /\ Forall (sentThrough (join.deviceGatewayRXInfo env rx)) (rx1s ++ rx2s)
           /\ Forall (rx1Radio env rxPacket) rx1s
           /\ Forall (rx2Radio env) rx2s
           /\ join.txPackets w' = join.txPackets w ++ firstn 1 (join.DownlinkFrames c')
           /\ join.savedDownlinkFrames w' =
                join.savedDownlinkFrames w
                ++ (if (List.length (join.DownlinkFrames c') <? 2)%nat then []
                    else [(storage.DevEUI ds, skipn 1 (join.DownlinkFrames c'))]))
      (fun e c' w' =>
         failure env g rxPacket phy ds w c' w' e
         /\ errorEffects env g ctx0 rxPacket w e c' w').
Proof.
  intros ctx0 ds rxPacket phy w rx rest Hset.
  unfold join.tasks. cbn [join.runTasks].
  (* setDeviceGatewayRXInfo *)
  eapply outcome_bind with
    (P := fun c1 w1 =>
            w1 = w
            /\ c1 = join.set_DeviceGatewayRXInfo
                      (map (join.deviceGatewayRXInfo env) (models.RXInfoSet rxPacket))
                      (join.newJoinContext ctx0 ds rxPacket phy)).
  { unfold outcome. rewrite setDeviceGatewayRXInfo_run. cbn.
    rewrite Hset. cbn. split; reflexivity. }
  intros c1 w1 [-> ->].
  (* setTXInfo *)
  eapply outcome_bind.
  { eapply outcome_weaken.
    - apply (setTXInfo_outcome _ w (join.deviceGatewayRXInfo env rx)
               (map (join.deviceGatewayRXInfo env) rest) phy ds w).
      cbn. rewrite Hset. reflexivity.
    - intros c' w' H. exact H.
    - cbn. intros e c' w' [-> [Hf Hne]]. split; [exact Hf |].
      apply errorEffects_before_send; [exact Hne | reflexivity | reflexivity]. }
  cbn beta. intros c2 w2 [-> [rx1s [rx2s [-> [Hl1 [Hl2 [Hs [Hr1 Hr2]]]]]]]].
  cbn [join.RXPacket join.set_DeviceGatewayRXInfo join.newJoinContext] in Hr1.
  (* setToken *)
  eapply outcome_bind with
    (P := fun c3 w3 =>
            join.txPackets w3 = join.txPackets w
            /\ join.savedDownlinkFrames w3 = join.savedDownlinkFrames w
            /\ join.PHYPayload_ c3 = phy
            /\ join.DeviceSession c3 = ds
            /\ join.DeviceGatewayRXInfo c3
               = map (join.deviceGatewayRXInfo env) (models.RXInfoSet rxPacket)
            /\ join.DownlinkFrames c3 =
                 map (gw.set_Token_DownlinkId
                        (conv.uint32 (binary.BigEndian_Uint16 (firstn 2 (join.randReader w))))
                        (match context.ContextIDKey ctx0 with
                         | context.isUUID id => id
                         | _ => context.zeroUUID
                         end))
                     (map join.frameOf (rx1s ++ rx2s))).
  { unfold outcome. rewrite setToken_run. cbn zeta.
    destruct (2 <=? List.length (join.randReader w))%nat eqn:Hlen.
    - unfold join.rand_Read. rewrite Hlen. cbn. repeat split.
    - split.
      + apply fail_random. unfold join.rand_Read. rewrite Hlen. reflexivity.
      + apply errorEffects_before_send.
        * intros e0 He. discriminate He.
        * unfold join.rand_Read. rewrite Hlen. reflexivity.
        * unfold join.rand_Read. rewrite Hlen. reflexivity. }
  intros c3 w3 [Ht3 [Hs3 [Hphy [Hds [Hdg Hf3]]]]].
  (* setDownlinkFrame *)
  eapply outcome_bind with
    (P := fun c4 w4 =>
            w4 = w3
            /\ join.DeviceSession c4 = ds
            /\ join.DeviceGatewayRXInfo c4
               = map (join.deviceGatewayRXInfo env) (models.RXInfoSet rxPacket)
            /\ exists phyB,
                 join.MarshalBinary env phy = inr phyB
                 /\ join.DownlinkFrames c4
                    = map (gw.set_PhyPayload phyB) (join.DownlinkFrames c3)).
  { unfold outcome. rewrite setDownlinkFrame_run. rewrite Hphy.
    destruct (join.MarshalBinary env phy) as [e | phyB] eqn:Hm.
    - split; [apply fail_marshal; exact Hm |].
      apply errorEffects_before_send; [| exact Ht3 | exact Hs3].
      intros e0 He. discriminate He.
    - cbn. repeat split; auto. exists phyB. split; reflexivity. }
  intros c4 w4 [-> [Hds4 [Hdg4 [phyB [Hm Hf4]]]]].
  (* sendJoinAcceptResponse *)
  eapply outcome_bind.
  { eapply outcome_weaken; [apply sendJoinAcceptResponse_outcome | |].
    - intros c' w' H. exact H.
    - cbn. intros e c' w' [-> [-> [e0 [frame [fs [Hfs [Hsend ->]]]]]]].
      split; [eapply fail_send; eassumption |].
      apply errorEffects_before_send; [| exact Ht3 | exact Hs3].
      intros e1 He. discriminate He. }
  cbn beta. intros c5 w5 [-> [Ht5 Hs5]].
  (* saveRemainingFrames *)
  eapply outcome_bind.
  { eapply outcome_weaken; [apply saveRemainingFrames_outcome | |].
    - intros c' w' H. exact H.
    - cbn. intros e c' w' [-> [-> [e0 [frame [fs [Hfs [Hne [Hsave ->]]]]]]]].
      rewrite Hds4 in Hsave.
      split; [eapply fail_save; eassumption |].
      split; [rewrite Hs5; exact Hs3 |].
      right.
      assert (Hlen : (2 <= List.length (rx1s ++ rx2s))%nat).
      { rewrite Hf4, Hf3 in Hfs.
        apply (f_equal (@List.length _)) in Hfs. rewrite !length_map in Hfs.
        rewrite Hfs. destruct fs; [congruence | cbn; lia]. }
      rewrite length_app, Hl1, Hl2 in Hlen.
      destruct ((join.rxWindow g =? 0) || (join.rxWindow g =? 1)) eqn:Hw1;
        [| destruct ((join.rxWindow g =? 0) || (join.rxWindow g =? 2)); cbn in Hlen; lia].
      destruct ((join.rxWindow g =? 0) || (join.rxWindow g =? 2)) eqn:Hw2;
        [| cbn in Hlen; lia].
      destruct rx1s as [| rx1 [| ? ?]]; try discriminate Hl1.
      destruct rx2s as [| rx2 [| ? ?]]; try discriminate Hl2.
      exists e0, rx1, rx2, phyB.
      split; [reflexivity |]. split.
      { destruct (join.rxWindow g =? 0) eqn:H0; [apply Z.eqb_eq in H0; exact H0 |].
        cbn in Hw1, Hw2. apply Z.eqb_eq in Hw1. apply Z.eqb_eq in Hw2. lia. }
      split; [rewrite Hf4, Hf3; reflexivity |].
      split; [apply Forall_inv in Hr1; exact Hr1 |].
      split; [apply Forall_inv in Hr2; exact Hr2 |].
      rewrite Ht5, Ht3, Hf4, Hf3. reflexivity. }
  cbn beta. intros c6 w6 [-> [Ht6 Hs6]].
  unfold outcome, join.ret.
  exists rx1s, rx2s, phyB.
  rewrite Hs6, Hs5, Hs3, Ht6, Ht5, Ht3, Hds4, Hdg4, Hf4, Hf3.
  repeat split; auto.
Qed.

End JoinOutcomes.

(** ** Package [join]: further properties of [Handle] *)

(** What a run of [Handle] that returns nil has built and done, in full. *)
Lemma handle_ok_full :
  forall (PHYPayload : Type) (env : join.Env PHYPayload) (g : join.Globals)
         ctx0 ds (rxPacket : models.RXPacket PHYPayload) phy w c' w',
    join.handle env g ctx0 ds rxPacket phy w = (join.Ok tt, (c', w')) ->
    exists rx rest (rx1s rx2s : list gw.DownlinkTXInfo) (phyB : list byte),
      models.RXInfoSet rxPacket = rx :: rest
      /\ join.MarshalBinary env phy = inr phyB
      /\ join.DownlinkFrames c' =
           map (gw.set_PhyPayload phyB)
             (map (gw.set_Token_DownlinkId
                     (conv.uint32 (binary.BigEndian_Uint16 (firstn 2 (join.randReader w))))
                     (match context.ContextIDKey ctx0 with
                      | context.isUUID id => id
                      | _ => context.zeroUUID
                      end))
                  (map join.frameOf (rx1s ++ rx2s)))
      /\ List.length rx1s
         = (if (join.rxWindow g =? 0) || (join.rxWindow g =? 1) then 1%nat else 0%nat)
      /\ List.length rx2s
         = (if (join.rxWindow g =? 0) || (join.rxWindow g =? 2) then 1%nat else 0%nat)
      /\ Forall (join_outcomes.sentThrough (join.deviceGatewayRXInfo env rx)) (rx1s ++ rx2s)
      /\ Forall (join_outcomes.rx1Radio env rxPacket) rx1s
      /\ Forall (join_outcomes.rx2Radio env) rx2s
      /\ join.txPackets w' = join.txPackets w ++ firstn 1 (join.DownlinkFrames c')
      /\ join.savedDownlinkFrames w' =
           join.savedDownlinkFrames w
           ++ (if (List.length (join.DownlinkFrames c') <? 2)%nat then []
               else [(storage.DevEUI ds, skipn 1 (join.DownlinkFrames c'))]).
Proof.
  intros PHYPayload env g ctx0 ds rxPacket phy w c' w' Hrun.
  destruct (models.RXInfoSet rxPacket) as [| rx rest] eqn:Hset.
  - rewrite (handle_empty env g ctx0 ds rxPacket phy w Hset) in Hrun. discriminate.
  - pose proof (handle_outcome env g ctx0 ds rxPacket phy w rx rest Hset) as H.
    unfold join_outcomes.outcome in H. unfold join.handle in Hrun. rewrite Hrun in H.
    destruct H as [rx1s [rx2s [phyB [Hm [_ [Hf [Hl1 [Hl2 [Hs [Hr1 [Hr2 [Ht Hsv]]]]]]]]]]]].
    exists rx, rest, rx1s, rx2s, phyB. repeat split; assumption.
Qed.

(** What has failed, and what was done, when [Handle] returns an error. *)
Lemma handle_err_full :
  forall (PHYPayload : Type) (env : join.Env PHYPayload) (g : join.Globals)
         ctx0 ds (rxPacket : models.RXPacket PHYPayload) phy w e c' w',
    join.handle env g ctx0 ds rxPacket phy w = (join.Err e, (c', w')) ->
    join_outcomes.failure env g rxPacket phy ds w c' w' e
    /\ join_outcomes.errorEffects env g ctx0 rxPacket w e c' w'.
Proof.
  intros PHYPayload env g ctx0 ds rxPacket phy w e c' w' Hrun.
  destruct (models.RXInfoSet rxPacket) as [| rx rest] eqn:Hset.
  - rewrite (handle_empty env g ctx0 ds rxPacket phy w Hset) in Hrun.
    injection Hrun as <- <- <-.
    split; [apply join_outcomes.fail_empty; exact Hset |].
    split; [reflexivity |]. left. split; [| reflexivity].
    intros e0 He. discriminate He.
  - pose proof (handle_outcome env g ctx0 ds rxPacket phy w rx rest Hset) as H.
    unfold join_outcomes.outcome in H. unfold join.handle in Hrun. rewrite Hrun in H.
    exact H.
Qed.

(** X1. [Handle] returns nil whenever nothing it relies on fails: the
    RXInfoSet is non-empty, the band knows the data rates and the RX1
    frequency of the windows in use, two bytes of entropy can be read, the
    payload encodes, and neither the gateway backend nor the store refuses. *)
Theorem join_Handle_returns_nil :
  forall (PHYPayload : Type) (env : join.Env PHYPayload) (g : join.Globals)
         (ctx0 : context.Context) (ds : storage.DeviceSession)
         (rxPacket : models.RXPacket PHYPayload) (phy : PHYPayload) (w : join.World),
    models.RXInfoSet rxPacket <> [] ->
    ((join.rxWindow g =? 0) || (join.rxWindow g =? 1) = true ->
     exists rx1DR m freq,
       band.GetRX1DataRateIndex (join.Band env) (models.DR rxPacket) 0 = inr rx1DR
       /\ join.GetDataRate env rx1DR = inr m
       /\ band.GetRX1FrequencyForUplinkFrequency (join.Band env)
            (gw.UplinkFrequency (models.TXInfo rxPacket)) = inr freq) ->
    ((join.rxWindow g =? 0) || (join.rxWindow g =? 2) = true ->
     exists m,
       join.GetDataRate env (band.RX2DataRate (band.GetDefaults (join.Band env))) = inr m) ->
    (2 <= List.length (join.randReader w))%nat ->
    (exists phyB, join.MarshalBinary env phy = inr phyB) ->
    (forall w1 frame, join.SendTXPacket_err env w1 frame = None) ->
    (forall w1 frames,
       join.SaveDownlinkFrames_err env w1 (storage.DevEUI ds) frames = None) ->
    fst (join.Handle env g ctx0 ds rxPacket phy w) = join.Ok tt.
Proof.
  intros PHYPayload env g ctx0 ds rxPacket phy w Hne Hrx1 Hrx2 Hrand [phyB Hm] Hsend Hsave.
  unfold join.Handle. cbn [fst].
  destruct (join.handle env g ctx0 ds rxPacket phy w) as [[[] | e |] [c' w']] eqn:Hrun;
    cbn [fst].
  - reflexivity.
  - exfalso.
    destruct (handle_err_full _ env g ctx0 ds rxPacket phy w e c' w' Hrun) as [Hf _].
    inversion Hf as [Hempty | e0 Hwin Hidx | rx1DR e0 Hwin Hidx Hdr | e0 Hwin Hfreq
                     | e0 Hwin Hdr | e0 Hread | e0 Hmarshal | e0 frame fs Hfs Hs
                     | e0 frame fs Hfs Hfne Hs]; subst.
    + contradiction.
    + destruct (Hrx1 Hwin) as [r [m [f [H1 _]]]]. congruence.
    + destruct (Hrx1 Hwin) as [r [m [f [H1 [H2 _]]]]]. congruence.
    + destruct (Hrx1 Hwin) as [r [m [f [_ [_ H3]]]]]. congruence.
    + destruct (Hrx2 Hwin) as [m H1]. congruence.
    + unfold join.rand_Read in Hread. apply Nat.leb_le in Hrand.
      rewrite Hrand in Hread. discriminate Hread.
    + congruence.
    + rewrite Hsend in Hs. discriminate.
    + rewrite Hsave in Hs. discriminate.
  - exfalso.
    assert (Hnp := handle_no_panic env g ctx0 ds rxPacket phy w Hne).
    rewrite Hrun in Hnp. apply Hnp. reflexivity.
Qed.

(** In the concrete setting every condition holds, for both windows. *)
Lemma join_Handle_returns_nil_witness :
  fst (join.Handle example.env example.bothWindows example.ctx0 example.ds
         example.rxPacket example.phy example.world) = join.Ok tt.
Proof.
  apply join_Handle_returns_nil.
  - discriminate.
  - intros _. exists 5, (gw.DownlinkTXInfo_LoraModulationInfo 7 125), 868100000.
    repeat split.
  - intros _. exists (gw.DownlinkTXInfo_LoraModulationInfo 12 125). reflexivity.
  - cbn. lia.
  - exists example.phy. reflexivity.
  - reflexivity.
  - reflexivity.
Defined.

(** X2. When [Handle] returns nil, every candidate frame is addressed
    through the gateway of the first entry of the RXInfoSet: its gateway id,
    board, antenna and context, whatever the other entries are. *)
Theorem join_candidates_through_first_gateway :
  forall (PHYPayload : Type) (env : join.Env PHYPayload) (g : join.Globals)
         (ctx0 : context.Context) (ds : storage.DeviceSession)
         (rxPacket : models.RXPacket PHYPayload) (phy : PHYPayload) (w : join.World)
         (c' : join.joinContext PHYPayload) (w' : join.World),
    join.handle env g ctx0 ds rxPacket phy w = (join.Ok tt, (c', w')) ->
    exists rx rest,
      models.RXInfoSet rxPacket = rx :: rest
      /\ Forall (fun frame =>
                   exists tx,
                     gw.TxInfo frame = Some tx
                     /\ gw.GatewayId tx = join.GetGatewayID env rx
                     /\ gw.Board tx = gw.RxBoard rx
                     /\ gw.Antenna tx = gw.RxAntenna rx
                     /\ gw.Context tx = gw.RxContext rx)
                (join.DownlinkFrames c').
Proof.
  intros PHYPayload env g ctx0 ds rxPacket phy w c' w' Hrun.
  destruct (handle_ok_full _ env g ctx0 ds rxPacket phy w c' w' Hrun)
    as [rx [rest [rx1s [rx2s [phyB [Hset [_ [Hf [_ [_ [Hs _]]]]]]]]]]].
  exists rx, rest. split; [exact Hset |].
  rewrite Hf, !Forall_map. eapply Forall_impl; [| exact Hs].
  intros tx [Hg [Hb [Ha Hc]]]. exists tx. cbn.
  split; [reflexivity |]. repeat split; assumption.
Qed.

(** In the concrete setting both candidates go through gateway
    0102030405060708. *)
Lemma join_candidates_through_first_gateway_witness :
  Forall (fun frame =>
            exists tx, gw.TxInfo frame = Some tx /\ gw.GatewayId tx = example.gatewayID)
         (join.DownlinkFrames example.finalContext).
Proof.
  assert (Hrun :
    join.handle example.env example.bothWindows example.ctx0 example.ds example.rxPacket
      example.phy example.world
    = (join.Ok tt, (example.finalContext, example.finalWorld)))
    by (vm_compute; reflexivity).
  destruct (join_candidates_through_first_gateway _ _ _ _ _ _ _ _ _ _ Hrun)
    as [rx [rest [Hset Hall]]].
  injection Hset as <- _.
  eapply Forall_impl; [| exact Hall].
  intros frame [tx [Htx [Hg _]]]. exists tx. split; assumption.
Defined.

(** X3. When [Handle] returns nil, the RX1 candidate (if the window asks for
    one) has the modulation of the band's RX1 data rate for the uplink data
    rate with offset 0 and, as a uint32, the band's RX1 frequency for the
    uplink frequency; the RX2 candidate (if asked for) has the modulation of
    the band's default RX2 data rate and the default RX2 frequency. *)
Theorem join_candidates_radio_parameters :
  forall (PHYPayload : Type) (env : join.Env PHYPayload) (g : join.Globals)
         (ctx0 : context.Context) (ds : storage.DeviceSession)
         (rxPacket : models.RXPacket PHYPayload) (phy : PHYPayload) (w : join.World)
         (c' : join.joinContext PHYPayload) (w' : join.World),
    join.handle env g ctx0 ds rxPacket phy w = (join.Ok tt, (c', w')) ->
    exists rx1s rx2s : list gw.DownlinkTXInfo,
      map gw.TxInfo (join.DownlinkFrames c') = map Some (rx1s ++ rx2s)
      /\ List.length rx1s
         = (if (join.rxWindow g =? 0) || (join.rxWindow g =? 1) then 1%nat else 0%nat)
      /\ List.length rx2s
         = (if (join.rxWindow g =? 0) || (join.rxWindow g =? 2) then 1%nat else 0%nat)
      /\ Forall (fun rx1 =>
                   exists rx1DR m freq,
                     band.GetRX1DataRateIndex (join.Band env) (models.DR rxPacket) 0
                     = inr rx1DR
                     /\ join.GetDataRate env rx1DR = inr m
                     /\ band.GetRX1FrequencyForUplinkFrequency (join.Band env)
                          (gw.UplinkFrequency (models.TXInfo rxPacket)) = inr freq
                     /\ gw.ModulationInfo rx1 = Some m
                     /\ gw.Frequency rx1 = conv.uint32 freq)
                rx1s
      /\ Forall (fun rx2 =>
                   exists m,
                     join.GetDataRate env
                       (band.RX2DataRate (band.GetDefaults (join.Band env))) = inr m
                     /\ gw.ModulationInfo rx2 = Some m
                     /\ gw.Frequency rx2
                        = conv.uint32 (band.RX2Frequency (band.GetDefaults (join.Band env))))
                rx2s.
Proof.
  intros PHYPayload env g ctx0 ds rxPacket phy w c' w' Hrun.
  destruct (handle_ok_full _ env g ctx0 ds rxPacket phy w c' w' Hrun)
    as [rx [rest [rx1s [rx2s [phyB [_ [_ [Hf [Hl1 [Hl2 [_ [Hr1 [Hr2 _]]]]]]]]]]]]].
  exists rx1s, rx2s. split; [| split; [exact Hl1 | split; [exact Hl2 | split]]].
  - rewrite Hf, !map_map. apply map_ext. intros tx. reflexivity.
  - exact Hr1.
  - exact Hr2.
Qed.

(** In the concrete setting: SF7 on the uplink frequency for RX1, SF12 on
    869.525 MHz for RX2. *)
Lemma join_candidates_radio_parameters_witness :
  exists rx1 rx2 : gw.DownlinkTXInfo,
    map gw.TxInfo (join.DownlinkFrames example.finalContext) = [Some rx1; Some rx2]
    /\ gw.ModulationInfo rx1 = Some (gw.DownlinkTXInfo_LoraModulationInfo 7 125)
    /\ gw.Frequency rx1 = 868100000
    /\ gw.ModulationInfo rx2 = Some (gw.DownlinkTXInfo_LoraModulationInfo 12 125)
    /\ gw.Frequency rx2 = 869525000.
Proof.
  assert (Hrun :
    join.handle example.env example.bothWindows example.ctx0 example.ds example.rxPacket
      example.phy example.world
    = (join.Ok tt, (example.finalContext, example.finalWorld)))
    by (vm_compute; reflexivity).
  destruct (join_candidates_radio_parameters _ _ _ _ _ _ _ _ _ _ Hrun)
    as [rx1s [rx2s [Hmap [Hl1 [Hl2 [H1 H2]]]]]].
  vm_compute in Hl1, Hl2.
  destruct rx1s as [| rx1 [| ? ?]]; try discriminate Hl1.
  destruct rx2s as [| rx2 [| ? ?]]; try discriminate Hl2.
  exists rx1, rx2.
  apply Forall_inv in H1. apply Forall_inv in H2.
  destruct H1 as [rx1DR [m [freq [Hidx [Hdr [Hfreq [Hm1 Hf1]]]]]]].
  destruct H2 as [m2 [Hdr2 [Hm2 Hf2]]].
  vm_compute in Hidx. injection Hidx as <-.
  vm_compute in Hdr. injection Hdr as <-.
  vm_compute in Hfreq. injection Hfreq as <-.
  vm_compute in Hdr2. injection Hdr2 as <-.
  split; [exact Hmap |]. split; [exact Hm1 |]. split; [exact Hf1 |].
  split; [exact Hm2 | exact Hf2].
Defined.

(** X4. When [Handle] returns nil, the payload has encoded, and every
    candidate frame carries that one encoding as its PhyPayload. *)
Theorem join_candidates_carry_the_payload :
  forall (PHYPayload : Type) (env : join.Env PHYPayload) (g : join.Globals)
         (ctx0 : context.Context) (ds : storage.DeviceSession)
         (rxPacket : models.RXPacket PHYPayload) (phy : PHYPayload) (w : join.World)
         (c' : join.joinContext PHYPayload) (w' : join.World),
    join.handle env g ctx0 ds rxPacket phy w = (join.Ok tt, (c', w')) ->
    exists phyB,
      join.MarshalBinary env phy = inr phyB
      /\ Forall (fun frame => gw.PhyPayload frame = phyB) (join.DownlinkFrames c').
Proof.
  intros PHYPayload env g ctx0 ds rxPacket phy w c' w' Hrun.
  destruct (handle_ok_full _ env g ctx0 ds rxPacket phy w c' w' Hrun)
    as [rx [rest [rx1s [rx2s [phyB [_ [Hm [Hf _]]]]]]]].
  exists phyB. split; [exact Hm |].
  rewrite Hf, !Forall_map. apply Forall_forall. intros tx _. reflexivity.
Qed.

(** In the concrete setting both candidates carry the four payload bytes. *)
Lemma join_candidates_carry_the_payload_witness :
  Forall (fun frame => gw.PhyPayload frame = example.phy)
         (join.DownlinkFrames example.finalContext).
Proof.
  assert (Hrun :
    join.handle example.env example.bothWindows example.ctx0 example.ds example.rxPacket
      example.phy example.world
    = (join.Ok tt, (example.finalContext, example.finalWorld)))
    by (vm_compute; reflexivity).
  destruct (join_candidates_carry_the_payload _ _ _ _ _ _ _ _ _ _ Hrun) as [phyB [Hm Hall]].
  injection Hm as <-. exact Hall.
Defined.

(** X5. When [Handle] returns nil, there is one candidate per window in use
    (at most two), the first candidate and only it went to the gateway
    backend, and the second one was saved under the device's DevEUI exactly
    when both windows are in use; with a single window nothing is saved. *)
Theorem join_Handle_sends_first_saves_second :
  forall (PHYPayload : Type) (env : join.Env PHYPayload) (g : join.Globals)
         (ctx0 : context.Context) (ds : storage.DeviceSession)
         (rxPacket : models.RXPacket PHYPayload) (phy : PHYPayload) (w : join.World)
         (c' : join.joinContext PHYPayload) (w' : join.World),
    join.handle env g ctx0 ds rxPacket phy w = (join.Ok tt, (c', w')) ->
    let rx1 := (join.rxWindow g =? 0) || (join.rxWindow g =? 1) in
    let rx2 := (join.rxWindow g =? 0) || (join.rxWindow g =? 2) in
    List.length (join.DownlinkFrames c')
    = ((if rx1 then 1 else 0) + (if rx2 then 1 else 0))%nat
    /\ join.txPackets (snd (join.Handle env g ctx0 ds rxPacket phy w))
       = join.txPackets w ++ firstn 1 (join.DownlinkFrames c')
    /\ join.savedDownlinkFrames (snd (join.Handle env g ctx0 ds rxPacket phy w))
       = join.savedDownlinkFrames w
         ++ (if rx1 && rx2
             then [(storage.DevEUI ds, skipn 1 (join.DownlinkFrames c'))]
             else []).
Proof.
  intros PHYPayload env g ctx0 ds rxPacket phy w c' w' Hrun rx1 rx2.
  destruct (handle_ok_full _ env g ctx0 ds rxPacket phy w c' w' Hrun)
    as [rx [rest [rx1s [rx2s [phyB [_ [_ [Hf [Hl1 [Hl2 [_ [_ [_ [Ht Hs]]]]]]]]]]]]]].
  unfold join.Handle. rewrite Hrun. cbn [fst snd].
  assert (Hlen : List.length (join.DownlinkFrames c')
                 = ((if rx1 then 1 else 0) + (if rx2 then 1 else 0))%nat).
  { rewrite Hf, !length_map, length_app, Hl1, Hl2. reflexivity. }
  split; [exact Hlen |]. split; [exact Ht |].
  rewrite Hs, Hlen. destruct rx1, rx2; reflexivity.
Qed.

(** In the concrete setting, with both windows: two candidates, one frame
    sent, one list of one frame saved. *)
Lemma join_Handle_sends_first_saves_second_witness :
  List.length (join.DownlinkFrames example.finalContext) = 2%nat
  /\ join.txPackets example.finalWorld = firstn 1 (join.DownlinkFrames example.finalContext)
  /\ join.savedDownlinkFrames example.finalWorld
     = [(storage.DevEUI example.ds, skipn 1 (join.DownlinkFrames example.finalContext))].
Proof.
  assert (Hrun :
    join.handle example.env example.bothWindows example.ctx0 example.ds example.rxPacket
      example.phy example.world
    = (join.Ok tt, (example.finalContext, example.finalWorld)))
    by (vm_compute; reflexivity).
  destruct (join_Handle_sends_first_saves_second _ _ _ _ _ _ _ _ _ _ Hrun)
    as [Hlen [Ht Hs]].
  assert (Hw :
    snd (join.Handle example.env example.bothWindows example.ctx0 example.ds
           example.rxPacket example.phy example.world)
    = example.finalWorld)
    by (vm_compute; reflexivity).
  rewrite Hw in Ht, Hs.
  split; [exact Hlen |]. split; [exact Ht | exact Hs].
Defined.

(** X6. A configured RXWindow other than 0, 1 and 2 makes [Handle] a silent
    no-op: with a non-empty RXInfoSet, readable entropy and an encodable
    payload it returns nil, having built no candidate, sent nothing to the
    gateway backend and saved nothing (neither the backend nor the store is
    called). *)
Theorem join_Handle_unknown_RXWindow :
  forall (PHYPayload : Type) (env : join.Env PHYPayload) (g : join.Globals)
         (ctx0 : context.Context) (ds : storage.DeviceSession)
         (rxPacket : models.RXPacket PHYPayload) (phy : PHYPayload) (w : join.World),
    join.rxWindow g <> 0 -> join.rxWindow g <> 1 -> join.rxWindow g <> 2 ->
    models.RXInfoSet rxPacket <> [] ->
    (2 <= List.length (join.randReader w))%nat ->
    (exists phyB, join.MarshalBinary env phy = inr phyB) ->
    join.Handle env g ctx0 ds rxPacket phy w = (join.Ok tt, snd (join.rand_Read 2 w))
    /\ join.DownlinkFrames (fst (snd (join.handle env g ctx0 ds rxPacket phy w))) = []
    /\ join.txPackets (snd (join.Handle env g ctx0 ds rxPacket phy w)) = join.txPackets w
    /\ join.savedDownlinkFrames (snd (join.Handle env g ctx0 ds rxPacket phy w))
       = join.savedDownlinkFrames w.
Proof.
  intros PHYPayload env g ctx0 ds rxPacket phy w H0 H1 H2 Hne Hlen [phyB Hm].
  apply Z.eqb_neq in H0. apply Z.eqb_neq in H1. apply Z.eqb_neq in H2.
  apply Nat.leb_le in Hlen.
  assert (Hrun :
    join.handle env g ctx0 ds rxPacket phy w
    = (join.Ok tt,
       (join.set_DeviceGatewayRXInfo
          (map (join.deviceGatewayRXInfo env) (models.RXInfoSet rxPacket))
          (join.newJoinContext ctx0 ds rxPacket phy),
        snd (join.rand_Read 2 w)))).
  { unfold join.handle, join.tasks. cbn [join.runTasks].
    unfold join.bind at 1. rewrite setDeviceGatewayRXInfo_run. cbn.
    destruct (models.RXInfoSet rxPacket) as [| rx rest] eqn:Hset; [congruence |].
    cbn [map].
    unfold join.bind at 1. unfold join.setTXInfo. rewrite H0, H1, H2. cbn.
    unfold join.bind at 1. rewrite setToken_run. cbn zeta. rewrite Hlen. cbn.
    unfold join.bind at 1. rewrite setDownlinkFrame_run. cbn. rewrite Hm. cbn.
    unfold join.rand_Read. rewrite Hlen. reflexivity. }
  unfold join.Handle. rewrite Hrun. cbn [fst snd].
  unfold join.rand_Read. rewrite Hlen. cbn.
  repeat split.
Qed.

(** In the concrete setting with RXWindow 3. *)
Lemma join_Handle_unknown_RXWindow_witness :
  fst (join.Handle example.env example_failures.window3 example.ctx0 example.ds
         example.rxPacket example.phy example.world) = join.Ok tt
  /\ join.txPackets
       (snd (join.Handle example.env example_failures.window3 example.ctx0 example.ds
               example.rxPacket example.phy example.world)) = [].
Proof.
  destruct (join_Handle_unknown_RXWindow (list byte) example.env example_failures.window3
              example.ctx0 example.ds example.rxPacket example.phy example.world)
    as [Hrun [_ [Ht _]]].
  - discriminate.
  - discriminate.
  - discriminate.
  - discriminate.
  - cbn. lia.
  - exists example.phy. reflexivity.
  - split; [rewrite Hrun; reflexivity | exact Ht].
Defined.

(** X7. When [Handle] returns an error, no downlink frames were saved.
    Unless the error is the one of saving the remaining frames, nothing was
    sent to the gateway backend either. When it is, both windows are in use,
    the context holds the RX1 and the RX2 candidate and no other, and the
    first of them, the RX1 frame, is the one frame that has been handed to
    the gateway backend. *)
Theorem join_Handle_error_effects :
  forall (PHYPayload : Type) (env : join.Env PHYPayload) (g : join.Globals)
         (ctx0 : context.Context) (ds : storage.DeviceSession)
         (rxPacket : models.RXPacket PHYPayload) (phy : PHYPayload) (w : join.World)
         (e : errors.error) (c' : join.joinContext PHYPayload) (w' : join.World),
    join.handle env g ctx0 ds rxPacket phy w = (join.Err e, (c', w')) ->
    join.savedDownlinkFrames w' = join.savedDownlinkFrames w
    /\ ((forall e0, e <> errors.Wrap e0 "save downlink-frames error") ->
        join.txPackets w' = join.txPackets w)
    /\ (forall e0,
          e = errors.Wrap e0 "save downlink-frames error" ->
          join.rxWindow g = 0
          /\ exists (first second : gw.DownlinkFrame) (rx1 rx2 : gw.DownlinkTXInfo),
               join.DownlinkFrames c' = [first; second]
               /\ gw.TxInfo first = Some rx1
               /\ join_outcomes.rx1Radio env rxPacket rx1
               /\ gw.TxInfo second = Some rx2
               /\ join_outcomes.rx2Radio env rx2
               /\ join.txPackets w' = join.txPackets w ++ [first]).
Proof.
  intros PHYPayload env g ctx0 ds rxPacket phy w e c' w' Hrun.
  destruct (handle_err_full _ env g ctx0 ds rxPacket phy w e c' w' Hrun)
    as [_ [Hs [[Hne Ht] | [e1 [rx1 [rx2 [phyB [He [Hwin [Hf [Hr1 [Hr2 Ht]]]]]]]]]]]].
  - split; [exact Hs |]. split; [intros _; exact Ht |].
    intros e0 He. exfalso. exact (Hne e0 He).
  - split; [exact Hs |]. split.
    + intros Hne. exfalso. exact (Hne e1 He).
    + intros e0 _. split; [exact Hwin |].
      eexists _, _, rx1, rx2.
      split; [exact Hf |]. split; [reflexivity |]. split; [exact Hr1 |].
      split; [reflexivity |]. split; [exact Hr2 | exact Ht].
Qed.

(** With the failing store and both windows: an error is returned, nothing
    is saved, and of the two candidates the first has gone to the gateway
    backend. *)
Lemma join_Handle_error_effects_witness :
  join.savedDownlinkFrames (snd example_failures.storeDownRun) = []
  /\ exists first second,
       join.DownlinkFrames example_failures.storeDownContext = [first; second]
       /\ join.txPackets (snd example_failures.storeDownRun) = [first].
Proof.
  assert (Hrun :
    join.handle example_failures.envStoreDown example.bothWindows example.ctx0 example.ds
      example.rxPacket example.phy example.world
    = (join.Err (errors.Wrap (errors.New "connection refused")
                   "save downlink-frames error"),
       (example_failures.storeDownContext, snd example_failures.storeDownRun)))
    by (vm_compute; reflexivity).
  destruct (join_Handle_error_effects _ _ _ _ _ _ _ _ _ _ _ Hrun) as [Hs [_ Hsave]].
  destruct (Hsave _ eq_refl) as [_ [first [second [rx1 [rx2 [Hf [_ [_ [_ [_ Ht]]]]]]]]]].
  split; [exact Hs |]. exists first, second. split; [exact Hf | exact Ht].
Defined.

(** X8. Every error that [Handle] returns is the error of one failing step:
    the empty RXInfoSet, or the error that the band, [rand.Read], the
    payload encoding, the gateway backend or the store has returned for the
    arguments the step gave it, wrapped with the message of that step. *)
Theorem join_Handle_error_causes :
  forall (PHYPayload : Type) (env : join.Env PHYPayload) (g : join.Globals)
         (ctx0 : context.Context) (ds : storage.DeviceSession)
         (rxPacket : models.RXPacket PHYPayload) (phy : PHYPayload) (w : join.World)
         (e : errors.error) (c' : join.joinContext PHYPayload) (w' : join.World),
    join.handle env g ctx0 ds rxPacket phy w = (join.Err e, (c', w')) ->
    join_outcomes.failure env g rxPacket phy ds w c' w' e.
Proof.
  intros PHYPayload env g ctx0 ds rxPacket phy w e c' w' Hrun.
  destruct (handle_err_full _ env g ctx0 ds rxPacket phy w e c' w' Hrun) as [H _].
  exact H.
Qed.

(** Without entropy the error is the reader's io.EOF, wrapped by
    [setToken]. *)
Lemma join_Handle_error_causes_witness :
  fst example_failures.noEntropyRun
  = join.Err (errors.Wrap (errors.New "EOF") "read random error")
  /\ join_outcomes.failure example.env example.bothWindows example.rxPacket example.phy
       example.ds example_failures.noEntropy
       (fst (snd example_failures.noEntropyRun)) (snd (snd example_failures.noEntropyRun))
       (errors.Wrap (errors.New "EOF") "read random error").
Proof.
  assert (Hrun :
    join.handle example.env example.bothWindows example.ctx0 example.ds example.rxPacket
      example.phy example_failures.noEntropy
    = (join.Err (errors.Wrap (errors.New "EOF") "read random error"),
       (fst (snd example_failures.noEntropyRun), snd (snd example_failures.noEntropyRun))))
    by (vm_compute; reflexivity).
  split; [vm_compute; reflexivity |].
  exact (join_Handle_error_causes _ _ _ _ _ _ _ _ _ _ _ Hrun).
Defined.

(** ** Package [api]: further properties of [errToRPCError] *)

(** X9. The status code that [errToRPCError] gives is never OK (with OK,
    [grpc.Errorf] would return nil and the failure would be reported as a
    success): it is always one of InvalidArgument, FailedPrecondition,
    Internal, AlreadyExists, NotFound and Unknown. *)
Theorem errToRPCError_code_is_an_error :
  forall (varText : errors.ErrVar -> string) (e : errors.error),
    api.Code (api.errToRPCError varText e) <> codes.OK
    /\ In (api.Code (api.errToRPCError varText e))
          [codes.InvalidArgument; codes.FailedPrecondition; codes.Internal;
           codes.AlreadyExists; codes.NotFound; codes.Unknown].
Proof.
  intros varText e. unfold api.errToRPCError. cbn [api.Code].
  destruct (errors.Cause e) as [v | msg | e' msg]; [destruct v | | ];
    (split; [discriminate | cbn; tauto]).
Qed.

Lemma Cause_not_Wrap (e : errors.error) :
  forall e' msg, errors.Cause e <> errors.Wrap e' msg.
Proof. induction e as [v | m | e IH m]; intros e' msg; cbn; [discriminate | discriminate | apply IH]. Qed.

(** X10. What [errors.Wrap] adds never reaches the RPC error: however often
    an error has been wrapped, the error that [errToRPCError] returns has
    the code of the unwrapped error, and its message is [fmt.Sprintf] of the
    text of the cause, which is the text of a package-level error variable
    or of an unwrapped error. Where that text holds no '%' (and [fmt.Sprintf]
    so returns it as it is), the message is that text, with none of the
    wrapping messages. *)
Theorem errToRPCError_drops_wrapping :
  forall (Sprintf : string -> string) (varText : errors.ErrVar -> string)
         (e : errors.error) (msgs : list string),
    (forall format, api.plain format = true -> Sprintf format = format) ->
    let returned := api.errToRPCError varText (fold_left errors.Wrap msgs e) in
    let text := errors.Error varText (errors.Cause e) in
    api.Code returned = api.Code (api.errToRPCError varText e)
    /\ api.Message Sprintf returned = Sprintf text
    /\ (api.plain text = true -> api.Message Sprintf returned = text)
    /\ ((exists v, errors.Cause e = errors.Var v /\ text = varText v)
        \/ (exists msg, errors.Cause e = errors.New msg /\ text = msg)).
Proof.
  intros Sprintf varText e msgs Hplain returned text. subst returned text.
  assert (Hfold : forall ms e0,
            errors.Cause (fold_left errors.Wrap ms e0) = errors.Cause e0).
  { induction ms as [| m ms IH]; intros e0; cbn; [reflexivity |].
    rewrite IH. reflexivity. }
  unfold api.Message, api.errToRPCError. cbn [api.Code api.Format]. rewrite Hfold.
  split; [reflexivity |]. split; [reflexivity |]. split; [apply Hplain |].
  destruct (errors.Cause e) as [v | msg | e' msg] eqn:Hc.
  - left. exists v. split; reflexivity.
  - right. exists msg. split; reflexivity.
  - exfalso. exact (Cause_not_Wrap e e' msg Hc).
Qed.

(** A missing device session, wrapped twice on its way up: the RPC error is
    NotFound with the text of storage.ErrDoesNotExist. *)
Lemma errToRPCError_drops_wrapping_witness :
  let varText := fun _ : errors.ErrVar => "object does not exist" in
  let returned :=
    api.errToRPCError varText
      (errors.Wrap (errors.Wrap (errors.Var errors.storage_ErrDoesNotExist)
                      "get device-session error")
         "handle uplink error") in
  api.Code returned = codes.NotFound
  /\ api.Message (fun format => format) returned = "object does not exist".
Proof.
  intros varText returned.
  destruct (errToRPCError_drops_wrapping (fun format => format) varText
              (errors.Var errors.storage_ErrDoesNotExist)
              ["get device-session error"; "handle uplink error"]
              (fun format _ => eq_refl))
    as [Hcode [_ [Hmsg _]]].
  split; [exact Hcode | exact (Hmsg eq_refl)].
Defined.

(** ** Package [uplink] *)

Lemma skipn_repeat {A : Type} (x : A) :
  forall n m : nat, skipn n (repeat x m) = repeat x (m - n).
Proof.
  induction n as [| n IH]; intros m.
  - rewrite Nat.sub_0_r. reflexivity.
  - destruct m as [| m]; [reflexivity | cbn; apply IH].
Qed.

(** [copy] into the zero UUID: the first 16 bytes, zero-padded. *)
Lemma copy_zeroUUID (id : list byte) :
  uplink.copy context.zeroUUID id = firstn 16 id ++ repeat x00 (16 - List.length id).
Proof.
  unfold uplink.copy, context.zeroUUID. rewrite repeat_length, skipn_repeat.
  reflexivity.
Qed.

Lemma copy_zeroUUID_16 (id : list byte) :
  List.length id = 16%nat -> uplink.copy context.zeroUUID id = id.
Proof.
  intros Hlen. rewrite copy_zeroUUID, Hlen. cbn [Nat.sub repeat]. rewrite app_nil_r.
  rewrite <- Hlen. apply firstn_all.
Qed.

(** X11. The context id that the goroutine of [HandleDownlinkTXAcks] makes
    from an acknowledgement is always 16 bytes: the zero UUID for a nil
    DownlinkId, and otherwise the first 16 bytes of the DownlinkId, padded
    with zero bytes when it is shorter; a DownlinkId of 16 bytes is the
    context id as it is. *)
Theorem ackContextID_pads_and_truncates :
  forall downlinkTXAck : uplink.DownlinkTXAck,
    List.length (uplink.ackContextID downlinkTXAck) = 16%nat
    /\ match uplink.DownlinkId downlinkTXAck with
       | None => uplink.ackContextID downlinkTXAck = context.zeroUUID
       | Some id =>
           uplink.ackContextID downlinkTXAck
           = firstn 16 id ++ repeat x00 (16 - List.length id)
           /\ (List.length id = 16%nat -> uplink.ackContextID downlinkTXAck = id)
       end.
Proof.
  intros ack. unfold uplink.ackContextID.
  destruct (uplink.DownlinkId ack) as [id |]; [| split; reflexivity].
  split; [| split; [apply copy_zeroUUID | apply copy_zeroUUID_16]].
  rewrite copy_zeroUUID, length_app, length_firstn, repeat_length. lia.
Qed.

(** X12. The context id travels with the downlink: when the join handler is
    given the context made for an uplink frame (whose id is a UUID, 16
    bytes) and returns nil, an acknowledgement that echoes the DownlinkId of
    any of the candidate frames is handled in that same context, whatever
    its gateway id and token. *)
Theorem downlink_id_round_trip :
  forall (PHYPayload : Type) (env : join.Env PHYPayload) (g : join.Globals)
         (newV4 : context.UUID * option errors.error) (ds : storage.DeviceSession)
         (rxPacket : models.RXPacket PHYPayload) (phy : PHYPayload) (w : join.World)
         (c' : join.joinContext PHYPayload) (w' : join.World)
         (pkgs : uplink.Packages PHYPayload) (cs : list (uplink.Call PHYPayload)),
    List.length (fst newV4) = 16%nat ->
    join.handle env g (uplink.uplinkFrameContext newV4) ds rxPacket phy w
    = (join.Ok tt, (c', w')) ->
    Forall (fun frame =>
              forall gatewayId token,
                let downlinkTXAck :=
                  {| uplink.GatewayId := gatewayId; uplink.Token := token;
                     uplink.DownlinkId := Some (gw.DownlinkId frame) |} in
                uplink.handleDownlinkTXAck pkgs downlinkTXAck cs
                = cs ++ [uplink.ack_HandleDownlinkTXAck
                           (uplink.uplinkFrameContext newV4) downlinkTXAck])
           (join.DownlinkFrames c').
Proof.
  intros PHYPayload env g newV4 ds rxPacket phy w c' w' pkgs cs Hlen Hrun.
  destruct (handle_ok env g _ ds rxPacket phy w c' w' Hrun)
    as [rx1s [rx2s [phyB [Hf _]]]].
  rewrite Hf, !Forall_map. apply Forall_forall. intros tx _ gatewayId token.
  cbn zeta. unfold uplink.handleDownlinkTXAck, uplink.call. cbn [snd].
  cbn [gw.DownlinkId gw.set_PhyPayload gw.set_Token_DownlinkId join.frameOf
       context.ContextIDKey uplink.uplinkFrameContext uplink.withContextID].
  unfold uplink.ackContextID. cbn [uplink.DownlinkId].
  rewrite (copy_zeroUUID_16 (fst newV4) Hlen). reflexivity.
Qed.

(** In the concrete setting: the acknowledgement of either candidate is
    handled in the context of the uplink. *)
Lemma downlink_id_round_trip_witness :
  Forall (fun frame =>
            uplink.withContextID (uplink.ackContextID (example_failures.ackOf frame))
            = example.ctx0)
         (join.DownlinkFrames example.finalContext).
Proof.
  assert (Hrun :
    join.handle example.env example.bothWindows
      (uplink.uplinkFrameContext (example.ctxID, None)) example.ds example.rxPacket
      example.phy example.world
    = (join.Ok tt, (example.finalContext, example.finalWorld)))
    by (vm_compute; reflexivity).
  pose proof (downlink_id_round_trip (list byte) example.env example.bothWindows
                (example.ctxID, None) example.ds example.rxPacket example.phy
                example.world example.finalContext example.finalWorld
                {| uplink.returns := fun _ _ => None;
                   uplink.MTypeOf := fun _ => uplink.JoinRequest;
                   uplink.updatedRxInfoSet := fun _ set => set |}
                [] eq_refl Hrun) as H.
  eapply Forall_impl; [| exact H].
  intros frame Hframe.
  specialize (Hframe (uplink.GatewayId (example_failures.ackOf frame))
                     (uplink.Token (example_failures.ackOf frame))).
  cbn zeta in Hframe. unfold uplink.handleDownlinkTXAck, uplink.call in Hframe.
  cbn [snd app] in Hframe. injection Hframe as Hctx.
  unfold uplink.withContextID, example.ctx0. do 2 f_equal. exact Hctx.
Defined.

(** X13. What is done with a collected uplink. First the gateway meta-data
    is updated and the frame is logged (with the PHY payload of the frame
    that [collectUplinkFrames] was called with, the TX info of the packet
    and the rx-info set as the update left it), in this order and whatever
    these two calls return. Then the message type decides: a JoinRequest
    goes to [join.Handle], a RejoinRequest to [rejoin.Handle], an
    UnconfirmedDataUp or ConfirmedDataUp to [data.Handle], a Proprietary
    frame to [proprietary.Handle], each with the context of the caller and
    the packet with the updated rx-info set, and the error returned is the
    one of that call; for any other message type no further call is made
    and nil is returned. *)
Theorem collected_calls :
  forall (PHYPayload : Type) (pkgs : uplink.Packages PHYPayload) (ctx : context.Context)
         (uplinkFrame : uplink.UplinkFrame) (rxPacket : models.RXPacket PHYPayload)
         (cs : list (uplink.Call PHYPayload)),
    let updated := uplink.updatedRxInfoSet pkgs cs (models.RXInfoSet rxPacket) in
    let logged :=
      cs ++ [uplink.gateway_UpdateMetaDataInRxInfoSet ctx (models.RXInfoSet rxPacket);
             uplink.framelog_LogUplinkFrameForGateways ctx
               {| uplink.SetPhyPayload := uplink.PhyPayload uplinkFrame;
                  uplink.SetTxInfo := models.TXInfo rxPacket;
                  uplink.SetRxInfo := updated |}] in
    let handed :=
      {| models.PHYPayload_ := models.PHYPayload_ rxPacket;
         models.TXInfo := models.TXInfo rxPacket;
         models.RXInfoSet := updated;
         models.DR := models.DR rxPacket |} in
    let mtype := uplink.MTypeOf pkgs (models.PHYPayload_ rxPacket) in
    let handledBy (handler : uplink.Call PHYPayload) :=
      uplink.collected pkgs ctx uplinkFrame rxPacket cs
      = (uplink.returns pkgs logged handler, logged ++ [handler]) in
    (mtype = uplink.JoinRequest -> handledBy (uplink.join_Handle ctx handed))
    /\ (mtype = uplink.RejoinRequest -> handledBy (uplink.rejoin_Handle ctx handed))
    /\ (mtype = uplink.UnconfirmedDataUp \/ mtype = uplink.ConfirmedDataUp ->
        handledBy (uplink.data_Handle ctx handed))
    /\ (mtype = uplink.Proprietary -> handledBy (uplink.proprietary_Handle ctx handed))
    /\ (forall m,
          mtype = uplink.otherMType m ->
          uplink.collected pkgs ctx uplinkFrame rxPacket cs = (None, logged)).
Proof.
  intros PHYPayload pkgs ctx uplinkFrame rxPacket cs updated logged handed mtype handledBy.
  subst handledBy mtype handed.
  unfold uplink.collected, uplink.call. cbn [fst snd models.PHYPayload_ models.TXInfo
                                             models.RXInfoSet models.DR].
  assert (Hlogged :
    (cs ++ [uplink.gateway_UpdateMetaDataInRxInfoSet ctx (models.RXInfoSet rxPacket)])
    ++ [uplink.framelog_LogUplinkFrameForGateways ctx
          {| uplink.SetPhyPayload := uplink.PhyPayload uplinkFrame;
             uplink.SetTxInfo := models.TXInfo rxPacket;
             uplink.SetRxInfo := updated |}]
    = logged).
  { unfold logged. rewrite <- app_assoc. reflexivity. }
  fold updated. rewrite Hlogged.
  repeat split.
  - intros ->. reflexivity.
  - intros ->. reflexivity.
  - intros [-> | ->]; reflexivity.
  - intros ->. reflexivity.
  - intros m ->. reflexivity.
Qed.

(** X14. Whether the meta-data update and the frame log succeed or fail has
    no bearing on what is done with a collected uplink: two settings that
    agree on the message type, on the updated rx-info set and on what the
    handlers return give the same error and make the same calls. *)
Theorem collected_ignores_logging_errors :
  forall (PHYPayload : Type) (pkgs pkgs' : uplink.Packages PHYPayload)
         (ctx : context.Context) (uplinkFrame : uplink.UplinkFrame)
         (rxPacket : models.RXPacket PHYPayload) (cs : list (uplink.Call PHYPayload)),
    uplink.MTypeOf pkgs (models.PHYPayload_ rxPacket)
    = uplink.MTypeOf pkgs' (models.PHYPayload_ rxPacket) ->
    uplink.updatedRxInfoSet pkgs cs (models.RXInfoSet rxPacket)
    = uplink.updatedRxInfoSet pkgs' cs (models.RXInfoSet rxPacket) ->
    (forall calls c,
       uplink_facts.isHandle c = true ->
       uplink.returns pkgs calls c = uplink.returns pkgs' calls c) ->
    uplink.collected pkgs ctx uplinkFrame rxPacket cs
    = uplink.collected pkgs' ctx uplinkFrame rxPacket cs.
Proof.
  intros PHYPayload pkgs pkgs' ctx uplinkFrame rxPacket cs Hm Hu Hr.
  unfold uplink.collected, uplink.call.
  cbn [fst snd models.PHYPayload_ models.TXInfo models.RXInfoSet].
  rewrite <- Hm, <- Hu.
  destruct (uplink.MTypeOf pkgs (models.PHYPayload_ rxPacket));
    try reflexivity; rewrite Hr; reflexivity.
Qed.

(** Two settings for one data-up frame: in the second both the meta-data
    update and the frame log fail. *)
Lemma collected_ignores_logging_errors_witness :
  let quiet : uplink.Packages (list byte) :=
    {| uplink.returns := fun _ _ => None;
       uplink.MTypeOf := fun _ => uplink.ConfirmedDataUp;
       uplink.updatedRxInfoSet := fun _ set => set |} in
  let failing : uplink.Packages (list byte) :=
    {| uplink.returns := fun _ c =>
         if uplink_facts.isHandle c then None else Some (errors.New "redis: nil");
       uplink.MTypeOf := fun _ => uplink.ConfirmedDataUp;
       uplink.updatedRxInfoSet := fun _ set => set |} in
  let uplinkFrame :=
    {| uplink.PhyPayload := [x80]; uplink.TxInfo := models.TXInfo example.rxPacket;
       uplink.RxInfo := example.rxInfo |} in
  uplink.collected quiet example.ctx0 uplinkFrame example.rxPacket []
  = uplink.collected failing example.ctx0 uplinkFrame example.rxPacket [].
Proof.
  intros quiet failing uplinkFrame.
  apply collected_ignores_logging_errors.
  - reflexivity.
  - reflexivity.
  - intros calls c Hc. cbn. rewrite Hc. reflexivity.
Defined.

(** X15. [Setup] configures the data, the join and the rejoin package in
    this order and stops at the first that fails: the error returned is the
    error of that package, wrapped with the message that names it, the
    packages after it are not configured, and [deduplicationDelay] keeps its
    value. When all three succeed, it returns nil and sets
    [deduplicationDelay] from the configuration. It returns nil in no other
    case. *)
Theorem uplink_Setup_fails_fast :
  forall (PHYPayload : Type) (pkgs : uplink.Packages PHYPayload) (conf : uplink.Config)
         (p : uplink.Package PHYPayload),
    let r := uplink.Setup pkgs conf p in
    let data := uplink.returns pkgs (uplink.calls p) (uplink.data_Setup conf) in
    let join :=
      uplink.returns pkgs (uplink.calls p ++ [uplink.data_Setup conf])
        (uplink.join_Setup conf) in
    let rejoin :=
      uplink.returns pkgs
        (uplink.calls p ++ [uplink.data_Setup conf; uplink.join_Setup conf])
        (uplink.rejoin_Setup conf) in
    (forall e1,
       data = Some e1 ->
       r = (Some (errors.Wrap e1 "configure uplink/data error"),
            {| uplink.deduplicationDelay := uplink.deduplicationDelay p;
               uplink.calls := uplink.calls p ++ [uplink.data_Setup conf] |}))
    /\ (forall e2,
          data = None -> join = Some e2 ->
          r = (Some (errors.Wrap e2 "configure uplink/join error"),
               {| uplink.deduplicationDelay := uplink.deduplicationDelay p;
                  uplink.calls :=
                    uplink.calls p ++ [uplink.data_Setup conf; uplink.join_Setup conf] |}))
    /\ (forall e3,
          data = None -> join = None -> rejoin = Some e3 ->
          r = (Some (errors.Wrap e3 "configure uplink/rejoin error"),
               {| uplink.deduplicationDelay := uplink.deduplicationDelay p;
                  uplink.calls :=
                    uplink.calls p
                    ++ [uplink.data_Setup conf; uplink.join_Setup conf;
                        uplink.rejoin_Setup conf] |}))
    /\ (data = None -> join = None -> rejoin = None ->
        r = (None,
             {| uplink.deduplicationDelay := uplink.DeduplicationDelay conf;
                uplink.calls :=
                  uplink.calls p
                  ++ [uplink.data_Setup conf; uplink.join_Setup conf;
                      uplink.rejoin_Setup conf] |}))
    /\ (fst r = None <-> data = None /\ join = None /\ rejoin = None).
Proof.
  intros PHYPayload pkgs conf p r data join rejoin.
  subst r data join rejoin. unfold uplink.Setup, uplink.call.
  replace (uplink.calls p
           ++ [uplink.data_Setup conf; uplink.join_Setup conf; uplink.rejoin_Setup conf])
    with (((uplink.calls p ++ [uplink.data_Setup conf]) ++ [uplink.join_Setup conf])
          ++ [uplink.rejoin_Setup conf])
    by (rewrite <- !app_assoc; reflexivity).
  replace (uplink.calls p ++ [uplink.data_Setup conf; uplink.join_Setup conf])
    with ((uplink.calls p ++ [uplink.data_Setup conf]) ++ [uplink.join_Setup conf])
    by (rewrite <- app_assoc; reflexivity).
  destruct (uplink.returns pkgs (uplink.calls p) (uplink.data_Setup conf)) as [e1 |].
  { cbn. repeat split; try discriminate; try congruence.
    intros [H _]. discriminate H. }
  destruct (uplink.returns pkgs (uplink.calls p ++ [uplink.data_Setup conf])
              (uplink.join_Setup conf)) as [e2 |].
  { cbn. repeat split; try discriminate; try congruence.
    intros [_ [H _]]. discriminate H. }
  destruct (uplink.returns pkgs
              ((uplink.calls p ++ [uplink.data_Setup conf]) ++ [uplink.join_Setup conf])
              (uplink.rejoin_Setup conf)) as [e3 |].
  { cbn. repeat split; try discriminate; try congruence.
    intros [_ [_ H]]. discriminate H. }
  cbn. repeat split; try discriminate; try congruence.
Qed.
